(** * Carousel batch driver ([images/carousel/code/generate_all.py])

    A shallow embedding of the batch-generation driver: the work ledger and
    its queries, the prompt builder, the per-item retry loop with its
    post-processing step, the status report and [main].

    Conventions of the embedding.
    - A Python [str] is a [string]; literals are the UTF-8 text of the
      source.  Slicing and [upper] work per character of the [string], which
      is what Python does on ASCII text.
    - A ledger item (a JSON object with a fixed set of keys) is a record; the
      optional ["generation_status"] object is an [option] of a record.
    - [datetime.now().isoformat()] is kept as the clock reading it renders.
      The clock moves with [time.sleep] and with the generation client; the
      time taken by local computation is not modelled.
    - The value of [--delay] is a Python [float]: a rational, an infinity or
      NaN.  [time.sleep] refuses what the interpreter refuses (NaN, a length
      that does not fit 64-bit nanoseconds, a negative length).
    - [img.save] refuses the paths for which PIL has no writer; which paths
      these are is a datum of the [World].
    - Effects (clock, environment, image files, ledger file, console, calls
      of the generation client) live in a [World]; the driver is written in
      a state-and-exception monad over it.  A raised exception keeps the
      effects performed so far, as in Python. *)

From Stdlib Require Import ZArith QArith Qround String Ascii List Bool Sorted Lia.
From Stdlib Require Import DecimalString DecimalNat.
From stdpp Require Import base option list strings gmap.

Local Open Scope string_scope.
Local Open Scope Z_scope.

(** ** Strings *)

Module Str.

Definition nl : string := String (ascii_of_nat 10) EmptyString.

(** [s[:n]] *)
Definition take (n : nat) (s : string) : string := substring 0 n s.

(** [sub in s] *)
Fixpoint contains (sub s : string) : bool :=
  String.prefix sub s
  || match s with
     | EmptyString => false
     | String _ rest => contains sub rest
     end.

Definition upper_char (c : ascii) : ascii :=
  let n := nat_of_ascii c in
  if (97 <=? n)%nat && (n <=? 122)%nat then ascii_of_nat (n - 32) else c.

(** [s.upper()] *)
Fixpoint upper (s : string) : string :=
  match s with
  | EmptyString => EmptyString
  | String c rest => String (upper_char c) (upper rest)
  end.

(** [s.replace(old, new)] for a non-empty [old]: occurrences are replaced
    left to right without overlap; [skip] counts the characters of a
    matched occurrence still to be dropped. *)
Fixpoint replace_from (old new : string) (skip : nat) (s : string) : string :=
  match s with
  | EmptyString => EmptyString
  | String c rest =>
      match skip with
      | S k => replace_from old new k rest
      | O =>
          if String.prefix old s
          then new +:+ replace_from old new (String.length old - 1) rest
          else String c (replace_from old new 0 rest)
      end
  end.

Definition replace (old new s : string) : string := replace_from old new 0 s.

(** [d.get(key, default)] on a dictionary literal with string values. *)
Fixpoint dict_get (d : list (string * string)) (key default : string) : string :=
  match d with
  | [] => default
  | (k, v) :: rest => if String.eqb k key then v else dict_get rest key default
  end.

End Str.

Definition lower_char (c : ascii) : ascii :=
  let n := nat_of_ascii c in
  if (65 <=? n)%nat && (n <=? 90)%nat then ascii_of_nat (n + 32) else c.

(** [s.lower()], on the ASCII letters of [s]. *)
Fixpoint str_lower (s : string) : string :=
  match s with
  | EmptyString => EmptyString
  | String c rest => String (lower_char c) (str_lower rest)
  end.

(** No ["/"] and no ["."] in [p]. *)
Fixpoint plain (p : string) : bool :=
  match p with
  | EmptyString => true
  | String c rest => negb (Ascii.eqb c "/") && negb (Ascii.eqb c ".") && plain rest
  end.

(** [os.path.splitext(p)[1]]: the text from the last dot of the last
    component of [p] on, when something other than dots precedes that dot in
    the component; [named] tells whether the component read so far has such
    a character. *)
Fixpoint splitext_from (named : bool) (p : string) : string :=
  match p with
  | EmptyString => EmptyString
  | String c rest =>
      if Ascii.eqb c "/" then splitext_from false rest
      else if Ascii.eqb c "."
           then if plain rest then (if named then p else EmptyString)
                else splitext_from named rest
           else splitext_from true rest
  end.

Definition extension (p : string) : string := splitext_from false p.

(** ** Data model *)

(** The ["generation_status"] object written by [generate_single]:
    [status], [filename] and, by outcome, [url] and [generated_at], or
    [error] and [attempted_at]. *)
Record GenerationStatus := {
  status : string;
  gs_filename : string;
  url : option string;
  error : option string;
  generated_at : option Q;
  attempted_at : option Q
}.

(** One entry of [data["prompts"]]: the keys read by the driver. *)
Record WorkItem := {
  id : Z;
  style_name : string;
  pack_name : string;
  industry_name : string;
  hook_pattern : string;
  filename : string;
  generation_status : option GenerationStatus
}.

(** The ledger document: header fields and the ordered item array. *)
Record Ledger := {
  version : string;
  description : string;
  total_prompts : Z;
  prompts : list WorkItem
}.

(** [p.get("generation_status", {}).get("status")] *)
Definition item_status (p : WorkItem) : option string :=
  match generation_status p with
  | Some gs => Some (status gs)
  | None => None
  end.

Definition status_is (s : string) (p : WorkItem) : bool :=
  match item_status p with
  | Some t => String.eqb t s
  | None => false
  end.

(** [... in ["failed", "exception"]] *)
Definition status_failed (p : WorkItem) : bool :=
  status_is "failed" p || status_is "exception" p.

(** [prompt_data["generation_status"] = result] *)
Definition set_generation_status (r : GenerationStatus) (p : WorkItem) : WorkItem :=
  {| id := id p; style_name := style_name p; pack_name := pack_name p;
     industry_name := industry_name p; hook_pattern := hook_pattern p;
     filename := filename p; generation_status := Some r |}.

Definition with_prompts (d : Ledger) (ps : list WorkItem) : Ledger :=
  {| version := version d; description := description d;
     total_prompts := total_prompts d; prompts := ps |}.

Definition URL_PREFIX : string :=
  "https://fn7io.github.io/static_files/images/reference_carousels/".

Definition OUTPUT_DIR : string := "images/reference_carousels".

(** ** Prompt builder *)

Definition style_visuals : list (string * string) :=
  [ ("Modern Clean", "white background, blue accent, clean sans-serif font");
    ("Minimalist", "pure white, thin gray text, maximum whitespace");
    ("Simple Bold", "black and white only, huge bold text");
    ("Elegant Premium", "navy and cream, gold accents, serif font");
    ("Aesthetic Soft", "pastel pink/sage gradient, rounded corners");
    ("Professional Corporate", "blue and white, clean grid layout");
    ("Warm Friendly", "coral and peach tones, rounded friendly font");
    ("Dark Dramatic", "charcoal background, white text, moody");
    ("Playful Colorful", "bright primary colors, fun shapes");
    ("Soft Organic", "earth tones (sage, terracotta), natural feel");
    ("Retro Vintage", "faded orange/brown, 70s typography");
    ("Tech Futuristic", "dark mode, neon cyan accents");
    ("Editorial Magazine", "black/white with red accent, serif headlines");
    ("Bold Typography", "giant text filling slides, color blocks");
    ("Handcrafted Artisan", "craft paper texture, hand-lettered");
    ("Lo-fi Raw", "unpolished, casual handwriting, authentic") ].

Definition pack_content : list (string * string) :=
  [ ("For [Tribe] Only", "Slide1:'For You' Slide2:'Problem' Slide3:'Solution' Slide4:'Quote' Slide5:'Join'");
    ("Founder Story / Anti-Ad", "Slide1:'Truth' Slide2:'Before' Slide3:'After' Slide4:'Proof' Slide5:'Start'");
    ("Social Proof Carousel", "Slide1:'Claim' Slide2:'Stats' Slide3:'Review' Slide4:'Features' Slide5:'CTA'");
    ("Myth Buster Carousel", "Slide1:'Myth' Slide2:'Why' Slide3:'Truth' Slide4:'Proof' Slide5:'Learn'");
    ("Insider Secret Reveal", "Slide1:'Secret' Slide2:'Swipe' Slide3:'Tips' Slide4:'Works' Slide5:'Save'");
    ("Problem → Solution Carousel", "Slide1:'Stop' Slide2:'Before/After' Slide3:'How' Slide4:'Results' Slide5:'Start'");
    ("Price Math Carousel", "Slide1:'Price' Slide2:'Compare' Slide3:'Include' Slide4:'Worth it' Slide5:'Now'");
    ("X vs Y Comparison", "Slide1:'X vs Y' Slide2:'Compare' Slide3:'Winner' Slide4:'Proof' Slide5:'Try'");
    ("Educational Carousel", "Slide1:'Hook' Slide2:'Point 1' Slide3:'Point 2' Slide4:'Tip' Slide5:'Follow'");
    ("FOMO Launch Carousel", "Slide1:'Limited' Slide2:'Product' Slide3:'Includes' Slide4:'Proof' Slide5:'Act'") ].

Definition default_pack_content : string :=
  "Slide1:'Hook' Slide2:'Point' Slide3:'Point' Slide4:'Proof' Slide5:'CTA'".

Definition build_carousel_prompt (prompt_data : WorkItem) : string :=
  let style := style_name prompt_data in
  let pack := pack_name prompt_data in
  let industry := industry_name prompt_data in
  let hook := hook_pattern prompt_data in
  let visual := Str.dict_get style_visuals style style in
  let content := Str.dict_get pack_content pack default_pack_content in
  "Create a horizontal banner showing 5 carousel slides in a row." +:+ Str.nl +:+
  Str.nl +:+
  "STYLE: " +:+ Str.upper style +:+ " - " +:+ visual +:+ Str.nl +:+
  Str.nl +:+
  "Show 5 slides side by side. Each slide has bold text:" +:+ Str.nl +:+
  content +:+ Str.nl +:+
  Str.nl +:+
  "Make it clean and cohesive in the " +:+ style +:+ " style for " +:+ industry +:+ ".".

(** ** Images (the part of PIL the driver uses)

    An image is known by its pixel size and by the operations that produced
    it; pixel contents are not modelled. *)

Inductive Resample := LANCZOS.

Inductive Image :=
| Decoded (w h : Z)
| Crop (box : Z * Z * Z * Z) (img : Image)
| Resize (size : Z * Z) (filter : Resample) (img : Image).

(** [img.size]; a crop box is [(left, upper, right, lower)]. *)
Definition image_size (img : Image) : Z * Z :=
  match img with
  | Decoded w h => (w, h)
  | Crop (l, u, r, lo) _ => (r - l, lo - u)
  | Resize sz _ _ => sz
  end.

(** The crop box lies inside the image it is cut from: nothing is padded. *)
Definition box_inside (box : Z * Z * Z * Z) (img : Image) : Prop :=
  let '(l, u, r, lo) := box in
  let '(w, h) := image_size img in
  0 <= l /\ l <= r /\ r <= w /\ 0 <= u /\ u <= lo /\ lo <= h.

(** ** Exceptions, results of the generation client, console, events *)

(** A Python [float]: a number (every finite binary64 value is a
    rational), an infinity or NaN.  [argparse] with [type=float] accepts
    all of them. *)
Inductive PyFloat :=
| Finite (q : Q)
| PosInf
| NegInf
| NaN.

Inductive Exn :=
| ValueError (msg : string)
| ZeroDivisionError
| FileNotFoundError (path : string)
| JSONDecodeError
| ClientError (msg : string)
| OverflowError (msg : string).

(** [str(e)] *)
Definition exn_str (e : Exn) : string :=
  match e with
  | ValueError msg => msg
  | ZeroDivisionError => "division by zero"
  | FileNotFoundError path => "[Errno 2] No such file or directory: '" +:+ path +:+ "'"
  | JSONDecodeError => "Expecting value: line 1 column 1 (char 0)"
  | ClientError msg => msg
  | OverflowError msg => msg
  end.

(** What [img.save] answers in an installation of PIL that has the PNG
    writer only: a path whose extension, in lower case, is not [.png] is
    refused. *)
Definition png_only (path : string) : option Exn :=
  let ext := str_lower (extension path) in
  if String.eqb ext ".png" then None
  else Some (ValueError ("unknown file extension: " +:+ ext)).

(** The dictionary returned by [generator.generate_image]: the keys the
    driver reads ([success], [saved_paths], [error]). *)
Record GenerationResult := {
  success : bool;
  saved_paths : list string;
  gr_error : option string
}.

(** A call of the client either returns a result or raises; a raised
    exception is known by its [str]. *)
Inductive GenOutcome :=
| Returned (r : GenerationResult)
| Raised (msg : string).

(** What the driver prints (the text layout is not modelled). *)
Inductive Message :=
| MsgItem (prompt_id : Z) (style pack industry : string)
| MsgOk
| MsgRetry
| MsgFail (shown : string)
| MsgCropFailed (why : string)
| MsgNothing
| MsgBanner (n : nat)
| MsgStatus (n_success n_total : Z) (percent : Q) (n_failed n_pending : Z).

Inductive Event :=
| EvLoad
| EvOpenWrite
| EvMkdir
| EvNewGenerator
| EvGenerate (prompt output_path : string)
| EvSleep (seconds : Q)
| EvPrint (m : Message).

(** ** The ledger file

    [json.dump] writes the document piece by piece.  The file is modelled at
    the granularity of the header, one piece per item, and the closing
    piece. *)

Inductive Chunk :=
| ChunkOpen (version description : string) (total : Z)
| ChunkItem (p : WorkItem)
| ChunkClose.

Definition json_dump (d : Ledger) : list Chunk :=
  ChunkOpen (version d) (description d) (total_prompts d)
    :: map ChunkItem (prompts d) ++ [ChunkClose].

Fixpoint json_load_items (cs : list Chunk) : option (list WorkItem) :=
  match cs with
  | [ChunkClose] => Some []
  | ChunkItem p :: rest =>
      match json_load_items rest with
      | Some ps => Some (p :: ps)
      | None => None
      end
  | _ => None
  end.

(** [json.load]: [None] stands for [JSONDecodeError]. *)
Definition json_load (cs : list Chunk) : option Ledger :=
  match cs with
  | ChunkOpen v dsc t :: rest =>
      match json_load_items rest with
      | Some ps => Some {| version := v; description := dsc; total_prompts := t; prompts := ps |}
      | None => None
      end
  | _ => None
  end.

(** ** World and monad *)

Record World := {
  clock : Q;
  env_api_key : option string;
  images : gmap string Image;
  save_error : string -> option Exn;
  ledger_file : option (list Chunk);
  trace : list Event
}.

Definition set_clock (t : Q) (w : World) : World :=
  {| clock := t; env_api_key := env_api_key w; images := images w;
     save_error := save_error w; ledger_file := ledger_file w; trace := trace w |}.

Definition set_images (m : gmap string Image) (w : World) : World :=
  {| clock := clock w; env_api_key := env_api_key w; images := m;
     save_error := save_error w; ledger_file := ledger_file w; trace := trace w |}.

Definition set_ledger_file (f : option (list Chunk)) (w : World) : World :=
  {| clock := clock w; env_api_key := env_api_key w; images := images w;
     save_error := save_error w; ledger_file := f; trace := trace w |}.

Definition log (e : Event) (w : World) : World :=
  {| clock := clock w; env_api_key := env_api_key w; images := images w;
     save_error := save_error w; ledger_file := ledger_file w; trace := trace w ++ [e] |}.

Inductive Res (A : Type) :=
| Ok (a : A)
| Raise (e : Exn).
Arguments Ok {A} a.
Arguments Raise {A} e.

Section Monad.
Context {S : Type}.

Definition M (A : Type) : Type := S -> Res A * S.

Definition ret {A} (a : A) : M A := fun s => (Ok a, s).

Definition bind {A B} (c : M A) (k : A -> M B) : M B :=
  fun s => match c s with
           | (Ok a, s') => k a s'
           | (Raise e, s') => (Raise e, s')
           end.

Definition raise {A} (e : Exn) : M A := fun s => (Raise e, s).

(** [try: c  except Exception as e: h e] *)
Definition try_except {A} (c : M A) (h : Exn -> M A) : M A :=
  fun s => match c s with
           | (Ok a, s') => (Ok a, s')
           | (Raise e, s') => h e s'
           end.

Definition gets {A} (f : S -> A) : M A := fun s => (Ok (f s), s).

Definition modify (f : S -> S) : M unit := fun s => (Ok tt, f s).
End Monad.
Arguments M : clear implicits.

Declare Scope py_scope.
Delimit Scope py_scope with py.
Notation "x <- c ;; k" := (bind c (fun x => k))
  (at level 20, c at level 99, k at level 200, only parsing) : py_scope.
Notation "'do' c ;; k" := (bind c (fun _ => k))
  (at level 20, c at level 99, k at level 200, only parsing) : py_scope.

Local Open Scope py_scope.

(** ** Primitive effects *)

Definition emit (e : Event) : M World unit := modify (log e).

Definition print (m : Message) : M World unit := emit (EvPrint m).

(** [datetime.now()] *)
Definition now : M World Q := gets clock.

(** The largest number of nanoseconds the interpreter keeps in a time
    value (a signed 64-bit integer). *)
Definition PyTime_MAX : Z := 2 ^ 63 - 1.

(** A length of time in nanoseconds, rounded away from zero as the
    interpreter rounds a timeout.  The product is exact here; the binary64
    product of the interpreter is one rounding away from it, which matters
    only within one part in 2^52 of [PyTime_MAX]. *)
Definition to_nanoseconds (seconds : Q) : Z :=
  if Qle_bool 0 seconds then Qceiling (seconds * 1000000000)
  else Qfloor (seconds * 1000000000).

(** [time.sleep(seconds)]: the argument is turned into nanoseconds first
    (NaN and lengths outside the 64-bit range are refused there), then a
    negative length is refused, then the clock moves. *)
Definition sleep (seconds : PyFloat) : M World unit :=
  match seconds with
  | NaN => raise (ValueError "Invalid value NaN (not a number)")
  | PosInf | NegInf =>
      raise (OverflowError "timestamp too large to convert to C _PyTime_t")
  | Finite d =>
      let ns := to_nanoseconds d in
      if (ns <? - PyTime_MAX - 1) || (PyTime_MAX <? ns)
      then raise (OverflowError "timestamp too large to convert to C _PyTime_t")
      else if ns <? 0
           then raise (ValueError "sleep length must be non-negative")
           else modify (fun w => log (EvSleep d) (set_clock (clock w + d)%Q w))
  end.

(** [Image.open(path)] *)
Definition Image_open (path : string) : M World Image :=
  fun w => match images w !! path with
           | Some img => (Ok img, w)
           | None => (Raise (FileNotFoundError path), w)
           end.

(** [img.save(path)].  PIL picks the writer by the extension of the path
    and raises, before it touches the file, when it has none for it;
    [save_error] tells for which paths that is so, and with what
    exception. *)
Definition Image_save (img : Image) (path : string) : M World unit :=
  fun w => match save_error w path with
           | Some e => (Raise e, w)
           | None => (Ok tt, set_images (<[path := img]> (images w)) w)
           end.

(** ** Ledger file access *)

Definition PROMPTS_FILE : string := "images/carousel/data/generated_prompts.json".

Definition load_prompts : M World Ledger :=
  do emit EvLoad ;;
  f <- gets ledger_file ;;
  match f with
  | None => raise (FileNotFoundError PROMPTS_FILE)
  | Some cs =>
      match json_load cs with
      | Some d => ret d
      | None => raise JSONDecodeError
      end
  end.

(** [open(PROMPTS_FILE, 'w')]: the file is created or truncated. *)
Definition open_write (w : World) : World :=
  log EvOpenWrite (set_ledger_file (Some []) w).

(** One piece of the document reaches the file. *)
Definition write_chunk (w : World) (c : Chunk) : World :=
  set_ledger_file (Some (default [] (ledger_file w) ++ [c])%list) w.

Definition write_chunks (cs : list Chunk) (w : World) : World :=
  fold_left write_chunk cs w.

Definition save_prompts (data : Ledger) : M World unit :=
  modify (fun w => write_chunks (json_dump data) (open_write w)).

(** A call of [save_prompts] cut short after the file was opened and [k]
    pieces of the document reached it. *)
Definition save_prompts_interrupted (k : nat) (data : Ledger) (w : World) : World :=
  write_chunks (take k (json_dump data)) (open_write w).

(** ** Post-processing (lines 119-138 of [generate_single])

    The ratio is computed in exact rationals; on image dimensions the
    binary64 operations of the source give the same comparisons and the
    same integers. *)

(** [int(x)] *)
Definition py_int (x : Q) : Z := if Qle_bool 0 x then Qfloor x else Qceiling x.

Definition target_ratio : Q := 5.

Definition crop_box (w h : Z) : Z * Z * Z * Z :=
  let current_ratio := (inject_Z w / inject_Z h)%Q in
  if negb (Qle_bool target_ratio current_ratio)
  then
    let new_h := py_int (inject_Z w / target_ratio)%Q in
    let top := (h - new_h) / 2 in
    (0, top, w, top + new_h)
  else
    let new_w := py_int (inject_Z h * target_ratio)%Q in
    let left := (w - new_w) / 2 in
    (left, 0, left + new_w, h).

Definition crop_resize (img : Image) : Res Image :=
  let '(w, h) := image_size img in
  if h =? 0 then Raise ZeroDivisionError
  else Ok (Resize (1000, 200) LANCZOS (Crop (crop_box w h) img)).

Definition post_process (img_path : string) : M World unit :=
  img <- Image_open img_path ;;
  match crop_resize img with
  | Raise e => raise e
  | Ok img' => Image_save img' img_path
  end.

(** ** Selection of work items

    The comprehensions of [main] return the very dictionaries held by
    [data["prompts"]]; a selected item is therefore kept as its position in
    that list. *)

Fixpoint select_from (i : nat) (f : WorkItem -> bool) (ps : list WorkItem) : list nat :=
  match ps with
  | [] => []
  | p :: rest =>
      if f p then i :: select_from (S i) f rest else select_from (S i) f rest
  end.

Definition select (f : WorkItem -> bool) (ps : list WorkItem) : list nat :=
  select_from 0 f ps.

(** The items a list of positions stands for. *)
Definition deref (d : Ledger) (refs : list nat) : list WorkItem :=
  omap (fun r => prompts d !! r) refs.

Definition get_pending (data : Ledger) : list nat :=
  select (fun p => negb (status_is "success" p)) (prompts data).

(** The selection of [--retry-failed] (before the batch cut). *)
Definition get_failed (data : Ledger) : list nat :=
  select status_failed (prompts data).

(** [l[:n]] *)
Definition slice_to {A} (n : Z) (l : list A) : list A :=
  if 0 <=? n then take (Z.to_nat n) l
  else take (length l - Z.to_nat (- n)) l.

(** ** Status report *)

Definition count (f : WorkItem -> bool) (ps : list WorkItem) : Z :=
  Z.of_nat (length (List.filter f ps)).

Definition print_status (data : Ledger) : M World unit :=
  let total := Z.of_nat (length (prompts data)) in
  let n_success := count (status_is "success") (prompts data) in
  let n_failed := count status_failed (prompts data) in
  if total =? 0 then raise ZeroDivisionError
  else print (MsgStatus n_success total
                (inject_Z (100 * n_success) / inject_Z total)%Q
                n_failed (total - n_success - n_failed)).

(** ** The driver, over a generation client

    [G] is the state of the client object; [generate_image] is its method
    (it may change the client, the image files and the clock), and
    [new_client] builds the client from the API key. *)

Record Args := {
  arg_start : Z;
  arg_batch : Z;
  arg_resume : bool;
  arg_retry_failed : bool;
  arg_status : bool;
  arg_delay : PyFloat
}.

(** The values argparse gives to omitted flags. *)
Definition default_args : Args :=
  {| arg_start := 1; arg_batch := 177; arg_resume := false;
     arg_retry_failed := false; arg_status := false; arg_delay := Finite 2 |}.

(** What one pass of the attempt loop decides. *)
Inductive Step :=
| Continue
| Return (r : GenerationStatus).

Definition status_success (fname : string) (t : Q) : GenerationStatus :=
  {| status := "success"; gs_filename := fname; url := Some (URL_PREFIX +:+ fname);
     error := None; generated_at := Some t; attempted_at := None |}.

Definition status_error (st fname err : string) (t : Q) : GenerationStatus :=
  {| status := st; gs_filename := fname; url := None;
     error := Some err; generated_at := None; attempted_at := Some t |}.

(** The world after a call of the client that started in [w] and handed
    back [w']: the call is on record, and the image files and the clock are
    those the client left. *)
Definition after_call (prompt output_path : string) (w w' : World) : World :=
  set_clock (clock w') (set_images (images w') (log (EvGenerate prompt output_path) w)).

(** The world after the driver has announced a retry and slept 5 seconds. *)
Definition backed_off (w : World) : World :=
  log (EvSleep 5) (set_clock (clock w + 5)%Q (log (EvPrint MsgRetry) w)).

Definition is_generate (e : Event) : bool :=
  match e with
  | EvGenerate _ _ => true
  | _ => false
  end.

(** Number of calls of the generation client recorded in a world. *)
Definition generation_calls (w : World) : nat :=
  length (List.filter is_generate (trace w)).

(** The items [main] selects, by mode, cut to the batch size. *)
Definition select_batch (args : Args) (data : Ledger) : list nat :=
  if arg_resume args then slice_to (arg_batch args) (get_pending data)
  else if arg_retry_failed args
       then slice_to (arg_batch args) (get_failed data)
       else slice_to (arg_batch args)
              (select (fun p => arg_start args <=? id p) (prompts data)).

Section Driver.
Context {G : Type}.
Variable generate_image : string -> string -> G * World -> GenOutcome * (G * World).
Variable new_client : string -> G.

(** An action on the world alone, run next to the client. *)
Definition lift {A} (c : M World A) : M (G * World) A :=
  fun s => let '(r, w') := c (snd s) in (r, (fst s, w')).

(** [generator.generate_image(prompt=..., output_path=...)].  Of the
    world the client hands back, the image files and the clock are kept:
    the client has no hand in the ledger file, the environment or the
    record of events. *)
Definition call_generate_image (prompt output_path : string) : M (G * World) GenerationResult :=
  fun s => let '(out, (g', w')) := generate_image prompt output_path s in
           let s' := (g', after_call prompt output_path (snd s) w') in
           match out with
           | Returned r => (Ok r, s')
           | Raised msg => (Raise (ClientError msg), s')
           end.

(** The body of the [for attempt in ...] loop. *)
Definition attempt_body (fname prompt output_path : string)
    (max_retries attempt : Z) : M (G * World) Step :=
  try_except
    (result <- call_generate_image prompt output_path ;;
     do (if success result && negb (bool_decide (saved_paths result = []))
         then try_except
                (lift (post_process (List.hd "" (saved_paths result))))
                (fun crop_err => lift (print (MsgCropFailed (exn_str crop_err))))
         else ret tt) ;;
     if success result
     then
       do lift (print MsgOk) ;;
       t <- lift now ;;
       ret (Return (status_success fname t))
     else
       let error := default "Unknown" (gr_error result) in
       if Str.contains "500" error && (attempt <? max_retries)
       then
         do lift (print MsgRetry) ;;
         do lift (sleep (Finite 5)) ;;
         ret Continue
       else
         do lift (print (MsgFail (Str.take 40 error))) ;;
         t <- lift now ;;
         ret (Return (status_error "failed" fname (Str.take 200 error) t)))
    (fun e =>
       if attempt <? max_retries
       then
         do lift (print MsgRetry) ;;
         do lift (sleep (Finite 5)) ;;
         ret Continue
       else
         do lift (print (MsgFail (Str.take 40 (exn_str e)))) ;;
         t <- lift now ;;
         ret (Return (status_error "exception" fname (Str.take 200 (exn_str e)) t))).

Fixpoint attempt_loop (fname prompt output_path : string)
    (max_retries : Z) (attempts : list Z) : M (G * World) GenerationStatus :=
  match attempts with
  | [] =>
      t <- lift now ;;
      ret (status_error "failed" fname "Max retries" t)
  | attempt :: rest =>
      step <- attempt_body fname prompt output_path max_retries attempt ;;
      match step with
      | Continue => attempt_loop fname prompt output_path max_retries rest
      | Return r => ret r
      end
  end.

(** [range(1, stop)] *)
Definition range1 (stop : Z) : list Z :=
  map (fun k => Z.of_nat k) (seq 1 (Z.to_nat (stop - 1))).

Definition generate_single (prompt_data : WorkItem) (output_dir : string)
    (max_retries : Z) : M (G * World) GenerationStatus :=
  let prompt_id := id prompt_data in
  let style := style_name prompt_data in
  let pack := Str.take 20 (pack_name prompt_data) in
  let industry := Str.take 15 (industry_name prompt_data) in
  let fname := filename prompt_data in
  do lift (print (MsgItem prompt_id (Str.take 15 style) pack industry)) ;;
  let output_path := output_dir +:+ "/" +:+ Str.replace ".png" "" fname in
  let prompt := build_carousel_prompt prompt_data in
  attempt_loop fname prompt output_path max_retries (range1 (max_retries + 1)).

(** [NanoBananaProGenerator()]: the key comes from the environment; an
    absent or empty key is refused. *)
Definition NanoBananaProGenerator : M World G :=
  key <- gets env_api_key ;;
  match key with
  | Some k =>
      if String.eqb k ""
      then raise (ValueError "API key required. Set GEMINI_API_KEY environment variable or pass api_key parameter.")
      else do emit EvNewGenerator ;; ret (new_client k)
  | None =>
      raise (ValueError "API key required. Set GEMINI_API_KEY environment variable or pass api_key parameter.")
  end.

(** The body of [for i, prompt_data in enumerate(to_process)]. *)
Fixpoint process_items (args : Args) (n : nat) (i : nat) (to_process : list nat)
    (data : Ledger) : M (G * World) Ledger :=
  match to_process with
  | [] => ret data
  | r :: rest =>
      match prompts data !! r with
      | None => process_items args n (S i) rest data
      | Some prompt_data =>
          if negb (arg_retry_failed args) && status_is "success" prompt_data
          then process_items args n (S i) rest data
          else
            result <- generate_single prompt_data OUTPUT_DIR 2 ;;
            let data' :=
              with_prompts data
                (<[r := set_generation_status result prompt_data]> (prompts data)) in
            do lift (save_prompts data') ;;
            do (if Z.of_nat i <? Z.of_nat n - 1
                then lift (sleep (arg_delay args))
                else ret tt) ;;
            process_items args n (S i) rest data'
      end
  end.

(** Run an action that needs the client [g]; the client is dropped at the
    end. *)
Definition with_client {A} (g : G) (c : M (G * World) A) : M World A :=
  fun w => let '(r, s') := c (g, w) in (r, snd s').

Definition main (args : Args) : M World unit :=
  data <- load_prompts ;;
  if arg_status args
  then print_status data
  else
    let to_process := select_batch args data in
    if bool_decide (to_process = [])
    then
      do print MsgNothing ;;
      print_status data
    else
      do emit EvMkdir ;;
      generator <- NanoBananaProGenerator ;;
      do print (MsgBanner (length to_process)) ;;
      data' <- with_client generator
                 (process_items args (length to_process) 0 to_process data) ;;
      print_status data'.

End Driver.

(** The text the driver keeps of a call that did not succeed:
    [str(result.get('error', 'Unknown'))] for a returned dictionary,
    [str(e)] for a raised exception. *)
Definition outcome_text (out : GenOutcome) : string :=
  match out with
  | Returned r => default "Unknown" (gr_error r)
  | Raised msg => msg
  end.

Section Retries.
Context {G : Type}.
Variable generate_image : string -> string -> G * World -> GenOutcome * (G * World).
Variables prompt output_path : string.

(** The state in which the next attempt starts when the attempt made in
    [s] is retried: the call is on record, the retry is announced and the
    driver has slept 5 seconds. *)
Definition retry_step (s : G * World) : G * World :=
  let s1 := snd (generate_image prompt output_path s) in
  (fst s1, backed_off (after_call prompt output_path (snd s) (snd s1))).

(** The state in which attempt [k + 1] starts when the [k] attempts
    before it were all retried. *)
Fixpoint retried (k : nat) (s : G * World) : G * World :=
  match k with
  | O => s
  | S k' => retried k' (retry_step s)
  end.

End Retries.

(** The line [generate_single] prints first, and the state it leaves. *)
Definition item_line (prompt_data : WorkItem) : Message :=
  MsgItem (id prompt_data) (Str.take 15 (style_name prompt_data))
    (Str.take 20 (pack_name prompt_data)) (Str.take 15 (industry_name prompt_data)).

Definition announced {G : Type} (prompt_data : WorkItem) (s : G * World) : G * World :=
  (fst s, log (EvPrint (item_line prompt_data)) (snd s)).

(** [output_dir / filename.replace('.png', '')] *)
Definition output_path_of (output_dir : string) (prompt_data : WorkItem) : string :=
  output_dir +:+ "/" +:+ Str.replace ".png" "" (filename prompt_data).

(** The exit status of the process: 0 when [main] returns, 1 when an
    exception leaves it. *)
Definition exit_code {A} (r : Res A) : Z :=
  match r with
  | Ok _ => 0
  | Raise _ => 1
  end.

(** A reported failure the source takes as transient: its error text
    contains ["500"]. *)
Definition transient (r : GenerationResult) : bool :=
  negb (success r) && Str.contains "500" (default "Unknown" (gr_error r)).

(** An outcome the driver retries while attempts remain: a reported
    failure whose text contains ["500"], or any raised exception. *)
Definition retriable (out : GenOutcome) : bool :=
  match out with
  | Returned r => transient r
  | Raised _ => true
  end.

(** The status the driver records for an outcome that is not a success. *)
Definition failure_status (out : GenOutcome) : string :=
  match out with
  | Returned _ => "failed"
  | Raised _ => "exception"
  end.

(** A client that answers every call with such a failure. *)
Definition always_transient {G : Type}
    (generate_image : string -> string -> G * World -> GenOutcome * (G * World)) : Prop :=
  forall prompt path s,
    exists r s1, generate_image prompt path s = (Returned r, s1) /\ transient r = true.

(** The run stopped on a setup error, with a nonzero exit status, and
    without having read or written the ledger file. *)
Definition fails_before_ledger_access (r : Res unit * World) : Prop :=
  (exists msg, fst r = Raise (ValueError msg))
  /\ exit_code (fst r) <> 0
  /\ ~ In EvLoad (trace (snd r))
  /\ ~ In EvOpenWrite (trace (snd r)).

Definition is_status_report (e : Event) : bool :=
  match e with
  | EvPrint (MsgStatus _ _ _ _ _) => true
  | _ => false
  end.

(** The value of a computation that returned. *)
Definition fst_ok {A S : Type} (r : Res A * S) : option A :=
  match fst r with
  | Ok a => Some a
  | Raise _ => None
  end.

(** ** A scripted generation client and the three-item ledger *)

Module Scenario.

Definition item (k : Z) (fname : string) : WorkItem :=
  {| id := k; style_name := "Modern Clean"; pack_name := "Educational Carousel";
     industry_name := "Developer Tools"; hook_pattern := "Did you know";
     filename := fname; generation_status := None |}.

Definition item1 := item 1 "001_devtools_edu_modern_clean.png".
Definition item2 := item 2 "002_devtools_edu_modern_clean.png".
Definition item3 := item 3 "003_devtools_edu_modern_clean.png".

Definition ledger : Ledger :=
  {| version := "4.0"; description := "Generated carousel prompts";
     total_prompts := 3; prompts := [item1; item2; item3] |}.

Definition path_of (p : WorkItem) : string :=
  OUTPUT_DIR +:+ "/" +:+ Str.replace ".png" "" (filename p).

Definition ok (path : string) : GenerationResult :=
  {| success := true; saved_paths := [path +:+ ".png"]; gr_error := None |}.

Definition ko (msg : string) : GenerationResult :=
  {| success := false; saved_paths := []; gr_error := Some msg |}.

Definition transient_error : string :=
  "Error generating image: 500 INTERNAL. An internal error has occurred.".

Definition terminal_error : string :=
  "Error generating image: 400 INVALID_ARGUMENT. Request contains an invalid argument.".

(** The client keeps the output paths of the calls it received.  Item 1
    succeeds; item 2 fails with a server-side error on its first two calls
    and succeeds from the third on; anything else is refused.  A success
    stores a 1024x1024 image. *)
Definition stub (prompt output_path : string) (s : list string * World)
    : GenOutcome * (list string * World) :=
  let '(calls, w) := s in
  let earlier := length (List.filter (String.eqb output_path) calls) in
  let calls' := (calls ++ [output_path])%list in
  let saved w := set_images (<[output_path +:+ ".png" := Decoded 1024 1024]> (images w)) w in
  if String.eqb output_path (path_of item1)
  then (Returned (ok output_path), (calls', saved w))
  else if String.eqb output_path (path_of item2)
  then if (earlier <? 2)%nat
       then (Returned (ko transient_error), (calls', w))
       else (Returned (ok output_path), (calls', saved w))
  else (Returned (ko terminal_error), (calls', w)).

Definition new_stub (key : string) : list string := [].

Definition world0 : World :=
  {| clock := 0; env_api_key := Some "test-key"; images := ∅;
     save_error := png_only;
     ledger_file := Some (json_dump ledger); trace := [] |}.

(** The statuses recorded in the ledger file of a world. *)
Definition recorded_statuses (w : World) : option (list (option string)) :=
  match ledger_file w with
  | Some cs =>
      match json_load cs with
      | Some d => Some (map item_status (prompts d))
      | None => None
      end
  | None => None
  end.

(** Item 1 once its success has been recorded. *)
Definition item1_done : WorkItem :=
  set_generation_status (status_success (filename item1) 0) item1.

Definition ledger_after_item1 : Ledger :=
  with_prompts ledger [item1_done; item2; item3].

(** Five items with statuses success, pending (no status yet), failed,
    success, exception. *)
Definition with_status (k : Z) (st : option string) : WorkItem :=
  let p := item k "item.png" in
  match st with
  | Some st =>
      if String.eqb st "success"
      then set_generation_status (status_success (filename p) 0) p
      else set_generation_status (status_error st (filename p) "boom" 0) p
  | None => p
  end.

Definition ledger5 : Ledger :=
  {| version := "4.0"; description := "Generated carousel prompts";
     total_prompts := 5;
     prompts := [ with_status 1 (Some "success"); with_status 2 None;
                  with_status 3 (Some "failed"); with_status 4 (Some "success");
                  with_status 5 (Some "exception") ] |}.

(** A client that always reports a server-side failure. *)
Definition always_500 (prompt output_path : string) (s : unit * World)
    : GenOutcome * (unit * World) :=
  (Returned (ko transient_error), s).

(** A client that reports success and a saved path, but leaves no file. *)
Definition ok_without_file (prompt output_path : string) (s : unit * World)
    : GenOutcome * (unit * World) :=
  (Returned (ok output_path), s).

(** A client that reports success and leaves a 1200x200 image. *)
Definition ok_with_file (prompt output_path : string) (s : unit * World)
    : GenOutcome * (unit * World) :=
  (Returned (ok output_path),
   (fst s, set_images (<[output_path +:+ ".png" := Decoded 1200 200]> (images (snd s))) (snd s))).

(** The same world without the API key in the environment. *)
Definition world_no_key : World :=
  {| clock := 0; env_api_key := None; images := ∅;
     save_error := png_only;
     ledger_file := Some (json_dump ledger); trace := [] |}.

Definition status_args : Args :=
  {| arg_start := 1; arg_batch := 177; arg_resume := false;
     arg_retry_failed := false; arg_status := true; arg_delay := Finite 2 |}.

Definition empty_ledger : Ledger :=
  {| version := "4.0"; description := "Generated carousel prompts";
     total_prompts := 0; prompts := [] |}.

Definition world_empty_ledger : World :=
  {| clock := 0; env_api_key := Some "test-key"; images := ∅;
     save_error := png_only;
     ledger_file := Some (json_dump empty_ledger); trace := [] |}.


Definition ids (d : Ledger) (refs : list nat) : list Z := map id (deref d refs).

End Scenario.

(** ** The generation client of [images/generate_image.py]

    [NanoBananaProGenerator.generate_image], over the remote service and
    over [pathlib].  The service is a function [generate_content] of the
    model name, the request contents and a state of its own; it raises or
    returns [response.parts] (possibly [None]), and tells how long the call
    took.  The console lines, the directories and the metadata files of the
    client are kept in the client object. *)

(** A part of the response: [part.text], and the image of its inline data
    ([part.as_image()]), when it has any. *)
Record Part := {
  part_text : option string;
  part_image : option Image
}.

(** The two dictionaries [generate_image] returns. *)
Inductive NanoResult :=
| NanoSuccess (prompt enhanced_prompt : string) (style : option string)
    (resolution : string) (num_images_generated : nat) (saved : list string)
    (text_response : option string) (timestamp : Q)
| NanoFailure (error_msg prompt : string) (timestamp : Q).

(** What [result.get("success")], [result.get("saved_paths")] and
    [result.get("error")] find in them. *)
Definition as_result (r : NanoResult) : GenerationResult :=
  match r with
  | NanoSuccess _ _ _ _ _ saved _ _ =>
      {| success := true; saved_paths := saved; gr_error := None |}
  | NanoFailure error_msg _ _ =>
      {| success := false; saved_paths := []; gr_error := Some error_msg |}
  end.

(** The operations of [pathlib] the client uses, on paths given as text:
    [str(Path(p))], [Path(p).parent], [.stem], [.suffix], [Path(a) / b] and
    [Path(p).with_suffix(s)], which may raise. *)
Record PathLib := {
  path_str : string -> string;
  path_parent : string -> string;
  path_stem : string -> string;
  path_suffix : string -> string;
  path_join : string -> string -> string;
  path_with_suffix : string -> string -> Res string
}.

Inductive NanoLine :=
| LineSaved (path : string)
| LineMetadata (path : string)
| LineError (msg : string).

Record Nano (A : Type) := {
  nano_api_key : string;
  remote : A;
  nano_console : list NanoLine;
  nano_dirs : list string;
  nano_metadata : list (string * NanoResult)
}.
Arguments nano_api_key {A} _.
Arguments remote {A} _.
Arguments nano_console {A} _.
Arguments nano_dirs {A} _.
Arguments nano_metadata {A} _.

Definition model_name : string := "gemini-3-pro-image-preview".

(** A string or list taken as a condition. *)
Definition truthy (s : option string) : bool :=
  match s with
  | Some t => negb (String.eqb t "")
  | None => false
  end.

(** The prompt sent to the service. *)
Definition enhance (prompt : string) (style : option string) (resolution : string) : string :=
  (if truthy style
   then prompt +:+ ", in the style of " +:+ default "" style
   else prompt)
  +:+ ", high quality, " +:+ resolution +:+ " resolution".

(** [f"{n}"] *)
Definition decimal (n : nat) : string := NilZero.string_of_uint (Nat.to_uint n).

(** The texts and the images of a response: a part with a text counts as
    text, whatever else it holds. *)
Definition text_parts_of (parts : list Part) : list string := omap part_text parts.

Definition images_of (parts : list Part) : list Image :=
  omap (fun p => match part_text p with
                 | Some _ => None
                 | None => part_image p
                 end) parts.

Section NanoClient.
Context {A : Type}.
Variable pl : PathLib.
Variable generate_content : string -> list string -> A -> Res (option (list Part)) * A * Q.

(** [self.client.models.generate_content(model=..., contents=[...])] *)
Definition call_service (contents : list string) : M (Nano A * World) (option (list Part)) :=
  fun s =>
    let '(r, a', elapsed) := generate_content model_name contents (remote (fst s)) in
    (r,
     ({| nano_api_key := nano_api_key (fst s); remote := a';
         nano_console := nano_console (fst s); nano_dirs := nano_dirs (fst s);
         nano_metadata := nano_metadata (fst s) |},
      set_clock (clock (snd s) + elapsed)%Q (snd s))).

Definition nano_print (l : NanoLine) : M (Nano A * World) unit :=
  modify (fun s =>
    ({| nano_api_key := nano_api_key (fst s); remote := remote (fst s);
        nano_console := (nano_console (fst s) ++ [l])%list; nano_dirs := nano_dirs (fst s);
        nano_metadata := nano_metadata (fst s) |}, snd s)).

(** [Path(dir).mkdir(parents=True, exist_ok=True)] *)
Definition nano_mkdir (dir : string) : M (Nano A * World) unit :=
  modify (fun s =>
    ({| nano_api_key := nano_api_key (fst s); remote := remote (fst s);
        nano_console := nano_console (fst s); nano_dirs := (nano_dirs (fst s) ++ [dir])%list;
        nano_metadata := nano_metadata (fst s) |}, snd s)).

Definition write_metadata (path : string) (r : NanoResult) : M (Nano A * World) unit :=
  modify (fun s =>
    ({| nano_api_key := nano_api_key (fst s); remote := remote (fst s);
        nano_console := nano_console (fst s); nano_dirs := nano_dirs (fst s);
        nano_metadata := (nano_metadata (fst s) ++ [(path, r)])%list |}, snd s)).

Definition of_res {S B : Type} (r : Res B) : M S B :=
  match r with
  | Ok b => ret b
  | Raise e => raise e
  end.

(** [_save_result(result, output_path)] *)
Definition _save_result (result : NanoResult) (output_path : string) : M (Nano A * World) unit :=
  do nano_mkdir (path_parent pl output_path) ;;
  json_path <- of_res (path_with_suffix pl output_path ".json") ;;
  do write_metadata json_path result ;;
  nano_print (LineMetadata json_path).

(** The body of [for idx, image in enumerate(images)]; [many] is
    [len(images) > 1]. *)
Fixpoint save_images (base_path : string) (many : bool) (idx : nat) (imgs : list Image)
    : M (Nano A * World) (list string) :=
  match imgs with
  | [] => ret []
  | image :: rest =>
      image_path <-
        (if many
         then ret (path_join pl (path_parent pl base_path)
                     (path_stem pl base_path +:+ "_" +:+ decimal (idx + 1)
                      +:+ (if String.eqb (path_suffix pl base_path) ""
                           then ".png" else path_suffix pl base_path)))
         else if String.eqb (path_suffix pl base_path) ""
              then of_res (path_with_suffix pl base_path ".png")
              else ret (path_str pl base_path)) ;;
      do lift (Image_save image image_path) ;;
      do nano_print (LineSaved image_path) ;;
      saved <- save_images base_path many (S idx) rest ;;
      ret (image_path :: saved)
  end.

Definition generate_image_method (prompt : string) (output_path : option string)
    (style : option string) (resolution : string) : M (Nano A * World) NanoResult :=
  let enhanced_prompt := enhance prompt style resolution in
  try_except
    (parts <- call_service [enhanced_prompt] ;;
     parts <- match parts with
              | Some ps => ret ps
              | None => raise (ClientError "'NoneType' object is not iterable")
              end ;;
     let text_parts := text_parts_of parts in
     let imgs := images_of parts in
     saved_paths <-
       (if truthy output_path && negb (bool_decide (imgs = []))
        then
          let base_path := default "" output_path in
          do nano_mkdir (path_parent pl base_path) ;;
          save_images base_path (1 <? length imgs)%nat 0 imgs
        else ret []) ;;
     t <- lift now ;;
     let result :=
       NanoSuccess prompt enhanced_prompt style resolution (length imgs) saved_paths
         (if bool_decide (text_parts = []) then None
          else Some (String.concat " " text_parts)) t in
     do (if truthy output_path
         then _save_result result (default "" output_path)
         else ret tt) ;;
     ret result)
    (fun e =>
       let error_msg := "Error generating image: " +:+ exn_str e in
       do nano_print (LineError error_msg) ;;
       t <- lift now ;;
       ret (NanoFailure error_msg prompt t)).

(** The client as [generate_single] calls it: [generate_image(prompt=...,
    output_path=...)], the other arguments at their defaults. *)
Definition nano_client (prompt output_path : string) (s : Nano A * World)
    : GenOutcome * (Nano A * World) :=
  match generate_image_method prompt (Some output_path) None "1024x1024" s with
  | (Ok r, s') => (Returned (as_result r), s')
  | (Raise e, s') => (Raised (exn_str e), s')
  end.

End NanoClient.

(** What the dictionary returned by [generate_image] holds, [w'] being the
    world the call leaves. *)
Definition nano_shape (prompt : string) (output_path style : option string)
    (resolution : string) (w' : World) (r : NanoResult) : Prop :=
  match r with
  | NanoSuccess p ep st rs n saved _ t =>
      p = prompt /\ ep = enhance prompt style resolution /\ st = style /\ rs = resolution
      /\ length saved = (if truthy output_path then n else 0%nat)
      /\ t = clock w'
  | NanoFailure e p t =>
      p = prompt /\ (exists msg, e = "Error generating image: " +:+ msg) /\ t = clock w'
  end.

(** What a call of the client leaves alone in the world. *)
Definition client_keeps (w w' : World) : Prop :=
  trace w' = trace w /\ ledger_file w' = ledger_file w
  /\ env_api_key w' = env_api_key w.

(** A service that fails on every request with a text carrying the marker. *)
Definition service_always_500 {A : Type}
    (generate_content : string -> list string -> A -> Res (option (list Part)) * A * Q) : Prop :=
  forall model contents a,
    exists e a' elapsed,
      generate_content model contents a = (Raise e, a', elapsed)
      /\ Str.contains "500" (exn_str e) = true.

(** ** Style references ([carousel/code/generate_style_references.py])

    [update_prompts_with_references] reads the ["style_name"] of each
    ledger item and reads and writes its ["style_reference"]; the other
    keys of the item are carried along.  Of [STYLE_REFERENCE_PROMPTS] it
    uses the ["filename"] of each style. *)

Definition STYLE_REFERENCE_FILENAMES : list (string * string) :=
  [ ("Modern Clean", "ref_modern_clean.png");
    ("Minimalist", "ref_minimalist.png");
    ("Simple Bold", "ref_simple_bold.png");
    ("Elegant Premium", "ref_elegant_premium.png");
    ("Aesthetic Soft", "ref_aesthetic_soft.png");
    ("Professional Corporate", "ref_professional_corporate.png");
    ("Warm Friendly", "ref_warm_friendly.png");
    ("Dark Dramatic", "ref_dark_dramatic.png");
    ("Playful Colorful", "ref_playful_colorful.png");
    ("Soft Organic", "ref_soft_organic.png");
    ("Retro Vintage", "ref_retro_vintage.png");
    ("Tech Futuristic", "ref_tech_futuristic.png");
    ("Editorial Magazine", "ref_editorial_magazine.png");
    ("Bold Typography", "ref_bold_typography.png");
    ("Handcrafted Artisan", "ref_handcrafted_artisan.png");
    ("Lo-fi Raw", "ref_lofi_raw.png") ].

Record StyledPrompt (R : Type) := {
  sp_style_name : option string;
  sp_style_reference : option string;
  sp_other : R
}.
Arguments sp_style_name {R} _.
Arguments sp_style_reference {R} _.
Arguments sp_other {R} _.

(** [d[key]] when [key in d]. *)
Fixpoint dict_find (d : list (string * string)) (key : string) : option string :=
  match d with
  | [] => None
  | (k, v) :: rest => if String.eqb k key then Some v else dict_find rest key
  end.

(** The reference path of a style of the table. *)
Definition reference_path (style_name : option string) : option string :=
  match style_name with
  | Some st =>
      match dict_find STYLE_REFERENCE_FILENAMES st with
      | Some ref_filename => Some ("style_references/" +:+ ref_filename)
      | None => None
      end
  | None => None
  end.

Definition same_text (a b : option string) : bool :=
  match a, b with
  | Some x, Some y => String.eqb x y
  | None, None => true
  | _, _ => false
  end.

(** The loop of [update_prompts_with_references], from the count
    [updated]; it gives the final count and the items as it leaves them. *)
Fixpoint update_references_from {R : Type} (updated : nat) (prompts : list (StyledPrompt R))
    : nat * list (StyledPrompt R) :=
  match prompts with
  | [] => (updated, [])
  | prompt :: rest =>
      match reference_path (sp_style_name prompt) with
      | Some ref_path =>
          if negb (same_text (sp_style_reference prompt) (Some ref_path))
          then
            let '(n, rest') := update_references_from (updated + 1) rest in
            (n, {| sp_style_name := sp_style_name prompt;
                   sp_style_reference := Some ref_path;
                   sp_other := sp_other prompt |} :: rest')
          else
            let '(n, rest') := update_references_from updated rest in
            (n, prompt :: rest')
      | None =>
          let '(n, rest') := update_references_from updated rest in
          (n, prompt :: rest')
      end
  end.

Definition update_prompts_with_references {R : Type} (prompts : list (StyledPrompt R))
    : nat * list (StyledPrompt R) :=
  update_references_from 0 prompts.

(** The item needs no update: its style is not in the table, or its
    reference is the one of its style. *)
Definition reference_settled {R : Type} (p : StyledPrompt R) : Prop :=
  match reference_path (sp_style_name p) with
  | Some ref_path => sp_style_reference p = Some ref_path
  | None => True
  end.

(** ** Creation of the ledger ([carousel/code/generate_prompts.py])

    [generate_all_prompts] enumerates industries, their recommended packs
    and their styles.  The text of the ["prompt"] key comes from
    [build_prompt], which is kept as a parameter here: it is called once per
    item, its [content_examples] argument is looked up from the id of the
    industry, and nothing else depends on what it returns.  The input
    documents are taken to have the keys the code indexes. *)

Record Slide := {
  slide_number : Z;
  slide_element : string;
  slide_purpose : string
}.

Record Pack := {
  pk_pack_id : string;
  pk_pack_name : string;
  pk_hook_pattern_primary : string;
  pk_slide_sequence : list Slide
}.

(** An entry of [industry_mapping["industries"]];
    ["example_carousel_packs"] may be absent. *)
Record Industry := {
  in_id : string;
  in_name : string;
  in_sector : string;
  in_tone : string;
  in_example_carousel_packs : option (list string);
  in_primary_styles : list string;
  in_secondary_styles : list string
}.

Record GeneratedPrompt := {
  gp_id : nat;
  gp_industry_id : string;
  gp_industry_name : string;
  gp_sector : string;
  gp_pack_id : string;
  gp_pack_name : string;
  gp_style_name : string;
  gp_style_tier : string;
  gp_hook_pattern : string;
  gp_prompt : string;
  gp_filename : string
}.

Fixpoint zeros (k : nat) : string :=
  match k with
  | O => EmptyString
  | S k' => String "0" (zeros k')
  end.

(** [f"{n:03d}"] *)
Definition pad3 (n : nat) : string :=
  zeros (3 - String.length (decimal n)) +:+ decimal n.

(** [x in l] for a list of strings. *)
Definition str_in (x : string) (l : list string) : bool :=
  existsb (String.eqb x) l.

(** [{p["pack_id"]: p for p in packs}[pack_id]]: of two packs with the
    same id the later one is kept. *)
Fixpoint find_pack (packs : list Pack) (pack_id : string) : option Pack :=
  match packs with
  | [] => None
  | p :: rest =>
      match find_pack rest pack_id with
      | Some q => Some q
      | None => if String.eqb (pk_pack_id p) pack_id then Some p else None
      end
  end.

Definition prompt_filename (prompt_id : nat) (industry_id pack_id style_name : string) : string :=
  pad3 prompt_id +:+ "_" +:+ industry_id +:+ "_" +:+ pack_id +:+ "_"
  +:+ Str.replace " " "_" (str_lower style_name) +:+ ".png".

Section Creation.
Variable build_prompt : Industry -> Pack -> string -> string.

(** The body of [for style_name in all_styles], from the count [prompt_id]. *)
Fixpoint styles_loop (industry : Industry) (pack_id : string) (pack : Pack)
    (prompt_id : nat) (styles : list string) : nat * list GeneratedPrompt :=
  match styles with
  | [] => (prompt_id, [])
  | style_name :: rest =>
      let prompt_id := (prompt_id + 1)%nat in
      let prompt_text := build_prompt industry pack style_name in
      let item :=
        {| gp_id := prompt_id;
           gp_industry_id := in_id industry;
           gp_industry_name := in_name industry;
           gp_sector := in_sector industry;
           gp_pack_id := pack_id;
           gp_pack_name := pk_pack_name pack;
           gp_style_name := style_name;
           gp_style_tier := if str_in style_name (in_primary_styles industry)
                            then "primary" else "secondary";
           gp_hook_pattern := pk_hook_pattern_primary pack;
           gp_prompt := prompt_text;
           gp_filename := prompt_filename prompt_id (in_id industry) pack_id style_name |} in
      let '(n, items) := styles_loop industry pack_id pack prompt_id rest in
      (n, item :: items)
  end.

(** The body of [for pack_id in recommended_packs]. *)
Fixpoint packs_loop (packs : list Pack) (industry : Industry)
    (prompt_id : nat) (pack_ids : list string) : nat * list GeneratedPrompt :=
  match pack_ids with
  | [] => (prompt_id, [])
  | pack_id :: rest =>
      match find_pack packs pack_id with
      | None => packs_loop packs industry prompt_id rest
      | Some pack =>
          let all_styles := (in_primary_styles industry ++ in_secondary_styles industry)%list in
          let '(n, items) := styles_loop industry pack_id pack prompt_id all_styles in
          let '(n', items') := packs_loop packs industry n rest in
          (n', (items ++ items')%list)
      end
  end.

(** The body of [for industry in industry_mapping["industries"]]. *)
Fixpoint industries_loop (packs : list Pack) (prompt_id : nat)
    (industries : list Industry) : nat * list GeneratedPrompt :=
  match industries with
  | [] => (prompt_id, [])
  | industry :: rest =>
      let recommended_packs := default [] (in_example_carousel_packs industry) in
      let '(n, items) := packs_loop packs industry prompt_id recommended_packs in
      let '(n', items') := industries_loop packs n rest in
      (n', (items ++ items')%list)
  end.

Definition generate_all_prompts (industries : list Industry) (packs : list Pack)
    : list GeneratedPrompt :=
  snd (industries_loop packs 0 industries).

End Creation.

(** The keys of a created item that the driver reads. *)
Definition as_work_item (g : GeneratedPrompt) : WorkItem :=
  {| id := Z.of_nat (gp_id g); style_name := gp_style_name g;
     pack_name := gp_pack_name g; industry_name := gp_industry_name g;
     hook_pattern := gp_hook_pattern g; filename := gp_filename g;
     generation_status := None |}.

(** The document [main] of [generate_prompts.py] writes, as the driver
    reads it. *)
Definition created_ledger (prompts : list GeneratedPrompt) : Ledger :=
  {| version := "4.0";
     description := "Generated carousel prompts - Industry √ó Pack √ó Style combinations";
     total_prompts := Z.of_nat (length prompts);
     prompts := map as_work_item prompts |}.

(** The number of items the enumeration has for an industry. *)
Definition industry_count (packs : list Pack) (industry : Industry) : nat :=
  (length (List.filter (fun pack_id => bool_decide (is_Some (find_pack packs pack_id)))
             (default [] (in_example_carousel_packs industry)))
   * length (in_primary_styles industry ++ in_secondary_styles industry))%nat.

(** A string of decimal digits, and the number it stands for. *)
Definition digit (c : ascii) : bool :=
  let n := nat_of_ascii c in (48 <=? n)%nat && (n <=? 57)%nat.

Fixpoint digits_only (s : string) : bool :=
  match s with
  | EmptyString => true
  | String c rest => digit c && digits_only rest
  end.

Definition digits_value (s : string) : option nat :=
  option_map Nat.of_uint (NilEmpty.uint_of_string s).

(** An item whose file name is the one its own keys give. *)
Definition filename_from_keys (g : GeneratedPrompt) : Prop :=
  gp_filename g
  = prompt_filename (gp_id g) (gp_industry_id g) (gp_pack_id g) (gp_style_name g).

(** What a loop of the enumeration hands back when it starts from the count
    [start]: the new count and the items it appended, numbered from
    [start + 1] on. *)
Definition enumerates (start : nat) (r : nat * list GeneratedPrompt) : Prop :=
  r.1 = (start + length r.2)%nat
  /\ map gp_id r.2 = seq (S start) (length r.2)
  /\ Forall filename_from_keys r.2.

(** ** Further notions and inputs *)

(** The fields of a work item that describe the work; the driver writes
    none of them. *)
Definition descriptor (p : WorkItem) : Z * string * string * string * string * string :=
  (id p, style_name p, pack_name p, industry_name p, hook_pattern p, filename p).

(** [sub] occurs in [s]. *)
Definition occurs_in (sub s : string) : Prop :=
  exists pre post, s = pre +:+ sub +:+ post.

(** [t] is what [s[:n]] must be: the first [n] characters of [s], or all
    of [s] when it is shorter. *)
Definition prefix_of_length (n : nat) (s t : string) : Prop :=
  (exists rest, s = t +:+ rest) /\ String.length t = Nat.min n (String.length s).

(** The test of a transient failure as the specification words it, to be
    compared with the test of the source (the literal ["500"]): the error
    text carries the status code of a server-side failure, one of 500,
    501, ..., 599. *)
Definition names_server_side_failure (error : string) : bool :=
  existsb (fun code => Str.contains (decimal code) error) (seq 500 100).

(** The three statuses [generate_single] writes. *)
Definition written_status (st : string) : Prop :=
  st = "success" \/ st = "failed" \/ st = "exception".

(** A client that raises on every call. *)
Definition always_raising {G : Type}
    (generate_image : string -> string -> G * World -> GenOutcome * (G * World)) : Prop :=
  forall prompt path s, exists msg s1, generate_image prompt path s = (Raised msg, s1).

Definition is_backoff (e : Event) : bool :=
  match e with
  | EvSleep d => Qeq_bool d 5
  | _ => false
  end.

(** Number of 5-second sleeps recorded in a world. *)
Definition backoffs (w : World) : nat :=
  length (List.filter is_backoff (trace w)).

Definition is_write (e : Event) : bool :=
  match e with
  | EvOpenWrite => true
  | _ => false
  end.

(** Number of times the ledger file was opened for writing. *)
Definition ledger_writes (w : World) : nat :=
  length (List.filter is_write (trace w)).

(** Two ledgers with the same header fields. *)
Definition same_header (d d' : Ledger) : Prop :=
  version d' = version d /\ description d' = description d
  /\ total_prompts d' = total_prompts d.

(** An item as a run may leave it: untouched, or with a fresh status record
    that carries a written status and the file name of the item. *)
Definition left_as (p p' : WorkItem) : Prop :=
  p' = p
  \/ exists st, p' = set_generation_status st p
               /\ written_status (status st) /\ gs_filename st = filename p.

(** The line [print_status] prints for a ledger that has items. *)
Definition status_report (d : Ledger) : Event :=
  EvPrint (MsgStatus
             (count (status_is "success") (prompts d))
             (Z.of_nat (length (prompts d)))
             (inject_Z (100 * count (status_is "success") (prompts d))
              / inject_Z (Z.of_nat (length (prompts d))))%Q
             (count status_failed (prompts d))
             (Z.of_nat (length (prompts d))
              - count (status_is "success") (prompts d)
              - count status_failed (prompts d))).

(** The test each selection mode of [main] applies to an item. *)
Definition mode_filter (args : Args) (p : WorkItem) : bool :=
  if arg_resume args then negb (status_is "success" p)
  else if arg_retry_failed args then status_failed p
       else arg_start args <=? id p.

(** A client that reports success on every call. *)
Definition always_succeeds {G : Type}
    (generate_image : string -> string -> G * World -> GenOutcome * (G * World)) : Prop :=
  forall prompt path s,
    exists r s1, generate_image prompt path s = (Returned r, s1) /\ success r = true.

(** A client that returns on every call. *)
Definition never_raises {G : Type}
    (generate_image : string -> string -> G * World -> GenOutcome * (G * World)) : Prop :=
  forall prompt path s, exists r s1, generate_image prompt path s = (Returned r, s1).

Module Cases.

(** [pathlib] on plain file names (no directory, no dot). *)
Definition plain_names : PathLib :=
  {| path_str := fun p => p;
     path_parent := fun _ => ".";
     path_stem := fun p => p;
     path_suffix := fun _ => "";
     path_join := fun a b => if String.eqb a "." then b else a +:+ "/" +:+ b;
     path_with_suffix := fun p sfx => Ok (p +:+ sfx) |}.

(** A service that is down: every request fails with an internal error
    after one second. *)
Definition service_down (model : string) (contents : list string) (a : unit)
    : Res (option (list Part)) * unit * Q :=
  (Raise (ClientError "500 INTERNAL. An internal error has occurred."), a, 1%Q).

(** A service that answers with a text and no image. *)
Definition service_text_only (model : string) (contents : list string) (a : unit)
    : Res (option (list Part)) * unit * Q :=
  (Ok (Some [{| part_text := Some "I cannot draw that."; part_image := None |}]), a, 1%Q).

Definition nano0 : Nano unit :=
  {| nano_api_key := "test-key"; remote := tt; nano_console := [];
     nano_dirs := []; nano_metadata := [] |}.


(** A client that finds the service unavailable (status 503) on every
    call. *)
Definition unavailable_error : string :=
  "Error generating image: 503 UNAVAILABLE. The model is overloaded. Please try again later.".

Definition always_503 (prompt output_path : string) (s : unit * World)
    : GenOutcome * (unit * World) :=
  (Returned (Scenario.ko unavailable_error), s).

(** A client whose connection fails on every call. *)
Definition connection_reset (prompt output_path : string) (s : unit * World)
    : GenOutcome * (unit * World) :=
  (Raised "Connection reset by peer", s).

(** The three-item ledger with every item recorded as success. *)
Definition done (p : WorkItem) : WorkItem :=
  set_generation_status (status_success (filename p) 0) p.

Definition ledger_all_done : Ledger :=
  with_prompts Scenario.ledger
    [done Scenario.item1; done Scenario.item2; done Scenario.item3].

Definition world_all_done : World :=
  {| clock := 0; env_api_key := Some "test-key"; images := ∅;
     save_error := png_only;
     ledger_file := Some (json_dump ledger_all_done); trace := [] |}.

(** The world whose ledger file has item 1 recorded as success. *)
Definition world_item1_done : World :=
  {| clock := 0; env_api_key := Some "test-key"; images := ∅;
     save_error := png_only;
     ledger_file := Some (json_dump Scenario.ledger_after_item1); trace := [] |}.

(** A client object without state. *)
Definition no_state (key : string) : unit := tt.

Definition resume_args : Args :=
  {| arg_start := 1; arg_batch := 177; arg_resume := true;
     arg_retry_failed := false; arg_status := false; arg_delay := Finite 2 |}.

(** The world left by a save of the ledger that was cut after the header. *)
Definition world_torn : World :=
  save_prompts_interrupted 1 Scenario.ledger Scenario.world0.

(** A world that holds a 1024x1024 image under a name whose extension
    ([.5_style]) PIL has no writer for. *)
Definition dotted_name : string := "images/reference_carousels/001_v1.5_style".

Definition world_dotted : World :=
  {| clock := 0; env_api_key := Some "test-key";
     images := {[ dotted_name := Decoded 1024 1024 ]};
     save_error := png_only;
     ledger_file := None; trace := [] |}.

(** A delay [time.sleep] refuses. *)
Definition long_delay_args : Args :=
  {| arg_start := 1; arg_batch := 177; arg_resume := false;
     arg_retry_failed := false; arg_status := false;
     arg_delay := Finite 10000000000 |}.

Definition world_no_file : World :=
  {| clock := 0; env_api_key := Some "test-key"; images := ∅;
     save_error := png_only;
     ledger_file := None; trace := [] |}.

End Cases.

(** * Properties *)

(** ** Strings *)

Lemma prefix_spec (a s : string) :
  String.prefix a s = true <-> exists post, s = a +:+ post.
Proof.
  revert s. induction a as [|c a IH]; intros s.
  - split; [intros _; now exists s|intros _; now destruct s].
  - destruct s as [|c' s]; cbn [String.prefix].
    + split; [discriminate|intros [post Hp]; discriminate Hp].
    + destruct (ascii_dec c c') as [<-|Hne].
      * rewrite IH. split; intros [post Hp]; exists post.
        -- now rewrite Hp.
        -- change (String c a +:+ post) with (String c (a +:+ post)) in Hp.
           now injection Hp.
      * split; [discriminate|]. intros [post Hp].
        change (String c a +:+ post) with (String c (a +:+ post)) in Hp.
        injection Hp as Hc _. now destruct Hne.
Qed.

(** [sub in s] holds exactly when [sub] occurs somewhere in [s]. *)
Lemma contains_spec (sub s : string) :
  Str.contains sub s = true <-> occurs_in sub s.
Proof.
  split.
  - induction s as [|c s IH]; cbn [Str.contains]; intros H;
      apply orb_prop in H as [H|H].
    + apply prefix_spec in H as [post Hp]. now exists "", post.
    + discriminate H.
    + apply prefix_spec in H as [post Hp]. now exists "", post.
    + destruct (IH H) as (pre & post & ->). now exists (String c pre), post.
  - intros (pre & post & ->). induction pre as [|c pre IH].
    + change ("" +:+ sub +:+ post) with (sub +:+ post).
      assert (Hp : String.prefix sub (sub +:+ post) = true)
        by (apply prefix_spec; now exists post).
      destruct (sub +:+ post); cbn [Str.contains]; now rewrite Hp.
    + change (String c pre +:+ sub +:+ post) with (String c (pre +:+ sub +:+ post)).
      cbn [Str.contains]. rewrite IH. apply orb_true_r.
Qed.

(** [s[:n]] is the first [n] characters of [s], or [s] when it is shorter. *)
Lemma take_spec (n : nat) (s : string) : prefix_of_length n s (Str.take n s).
Proof.
  unfold Str.take. revert s. induction n as [|n IH]; intros s.
  - destruct s; (split; [now eexists|reflexivity]).
  - destruct s as [|c s]; [split; [now exists ""|reflexivity]|].
    destruct (IH s) as [[rest Hr] Hl]. cbn [substring]. split.
    + exists rest. change (String c (substring 0 n s) +:+ rest)
        with (String c (substring 0 n s +:+ rest)). now rewrite <- Hr.
    + cbn [String.length]. rewrite Hl. reflexivity.
Qed.

(** ** The ledger file *)

Lemma json_load_items_dump (ps : list WorkItem) :
  json_load_items (map ChunkItem ps ++ [ChunkClose]) = Some ps.
Proof.
  induction ps as [|p ps IH]; [reflexivity|].
  cbn [map app json_load_items]. now rewrite IH.
Qed.

Lemma json_load_dump (d : Ledger) : json_load (json_dump d) = Some d.
Proof.
  destruct d as [v dsc t ps]. unfold json_dump, json_load. cbn [version description total_prompts prompts].
  now rewrite json_load_items_dump.
Qed.

Lemma json_load_items_open (ps : list WorkItem) :
  json_load_items (map ChunkItem ps) = None.
Proof.
  induction ps as [|p ps IH]; [reflexivity|].
  cbn [map json_load_items]. now rewrite IH.
Qed.

(** A cut document is not a document. *)
Lemma json_load_cut (d : Ledger) (k : nat) :
  (k < length (json_dump d))%nat -> json_load (take k (json_dump d)) = None.
Proof.
  unfold json_dump. destruct k as [|k]; [reflexivity|].
  cbn [length take]. rewrite length_app, length_map. cbn [length]. intros Hk.
  rewrite take_app_le by (rewrite length_map; lia).
  rewrite firstn_map. cbn [json_load].
  now rewrite json_load_items_open.
Qed.

Lemma write_chunks_file (cs f : list Chunk) (w : World) :
  ledger_file w = Some f ->
  ledger_file (write_chunks cs w) = Some (f ++ cs)%list.
Proof.
  revert f w. induction cs as [|c cs IH]; intros f w Hf.
  - cbn. now rewrite app_nil_r.
  - cbn [write_chunks fold_left]. fold (write_chunks cs (write_chunk w c)).
    rewrite (IH (f ++ [c])%list).
    + now rewrite <- app_assoc.
    + unfold write_chunk. cbn. now rewrite Hf.
Qed.

Lemma save_prompts_file (data : Ledger) (w : World) :
  ledger_file (snd (save_prompts data w)) = Some (json_dump data).
Proof.
  unfold save_prompts, modify. cbn [snd].
  now rewrite (write_chunks_file _ []).
Qed.

(** C4 (as amended).  [save_prompts] rewrites the ledger file in place: the
    file is truncated when it is opened and the document is then written to
    it.  A call that completes leaves exactly the new collection, whatever
    the file held, and loading it gives the collection back.  A call cut
    short after [k] pieces leaves the first [k] pieces of the new document
    and nothing of the old one; unless all pieces were written, the file
    does not load. *)
Theorem save_prompts_rewrites_in_place (data : Ledger) (w : World) (k : nat) :
  ledger_file (snd (save_prompts data w)) = Some (json_dump data)
  /\ json_load (json_dump data) = Some data
  /\ ledger_file (save_prompts_interrupted k data w) = Some (take k (json_dump data))
  /\ json_load (take k (json_dump data))
     = if (k <? length (json_dump data))%nat then None else Some data.
Proof.
  split; [apply save_prompts_file|].
  split; [apply json_load_dump|].
  split.
  - unfold save_prompts_interrupted. now rewrite (write_chunks_file _ []).
  - destruct (Nat.ltb_spec k (length (json_dump data))) as [Hlt|Hge].
    + now apply json_load_cut.
    + rewrite take_ge by lia. apply json_load_dump.
Qed.

(** C4 (as stated) fails: a save of the ledger with item 1 recorded, cut
    short right after the file was opened, leaves a file that holds neither
    the old collection nor the new one, and that no longer loads. *)
Lemma save_prompts_not_atomic :
  let w := save_prompts_interrupted 0 Scenario.ledger_after_item1 Scenario.world0 in
  ledger_file Scenario.world0 = Some (json_dump Scenario.ledger)
  /\ ledger_file w <> Some (json_dump Scenario.ledger)
  /\ ledger_file w <> Some (json_dump Scenario.ledger_after_item1)
  /\ fst (load_prompts w) = Raise JSONDecodeError.
Proof.
  cbv zeta. split; [reflexivity|].
  split; [|split]; [discriminate | discriminate | reflexivity].
Qed.

(** ** Selection *)

Lemma deref_select_from (f : WorkItem -> bool) (ps pre : list WorkItem) :
  omap (fun r => (pre ++ ps)%list !! r) (select_from (length pre) f ps)
  = List.filter f ps.
Proof.
  revert pre. induction ps as [|p ps IH]; intros pre; [reflexivity|].
  assert (Hnext : omap (fun r => (pre ++ p :: ps)%list !! r)
                    (select_from (S (length pre)) f ps) = List.filter f ps).
  { specialize (IH (pre ++ [p])%list).
    rewrite length_app, Nat.add_1_r, <- app_assoc in IH. exact IH. }
  cbn [select_from List.filter]. destruct (f p).
  - cbn [omap list_omap]. rewrite list_lookup_middle by reflexivity.
    f_equal. exact Hnext.
  - exact Hnext.
Qed.

Lemma deref_select (f : WorkItem -> bool) (d : Ledger) :
  deref d (select f (prompts d)) = List.filter f (prompts d).
Proof. apply (deref_select_from f (prompts d) []). Qed.

Lemma select_from_length (f : WorkItem -> bool) (ps : list WorkItem) (i : nat) :
  length (select_from i f ps) = length (List.filter f ps).
Proof.
  revert i. induction ps as [|p ps IH]; intros i; [reflexivity|].
  cbn [select_from List.filter]. destruct (f p); cbn [length]; now rewrite IH.
Qed.

Lemma select_from_bounds (f : WorkItem -> bool) (ps : list WorkItem) (i : nat) :
  Forall (fun r => (i <= r < i + length ps)%nat) (select_from i f ps).
Proof.
  revert i. induction ps as [|p ps IH]; intros i; [constructor|].
  assert (Htail : Forall (fun r => (i <= r < i + length (p :: ps))%nat)
                    (select_from (S i) f ps)).
  { eapply List.Forall_impl; [|apply IH]. cbn [length]. intros r Hr. cbn beta in *. lia. }
  cbn [select_from]. destruct (f p); [constructor|]; try exact Htail.
  cbn [length]. lia.
Qed.

Lemma select_from_sorted (f : WorkItem -> bool) (ps : list WorkItem) (i : nat) :
  StronglySorted lt (select_from i f ps).
Proof.
  revert i. induction ps as [|p ps IH]; intros i; [constructor|].
  cbn [select_from]. destruct (f p); [|apply IH].
  constructor; [apply IH|].
  eapply List.Forall_impl; [|apply (select_from_bounds f ps (S i))].
  intros r Hr. cbn beta in *. lia.
Qed.

Lemma status_is_spec (s : string) (p : WorkItem) :
  status_is s p = bool_decide (item_status p = Some s).
Proof.
  unfold status_is. destruct (item_status p) as [t|].
  - destruct (String.eqb_spec t s) as [->|Hne].
    + now rewrite bool_decide_eq_true_2.
    + rewrite bool_decide_eq_false_2; [reflexivity|congruence].
  - now rewrite bool_decide_eq_false_2.
Qed.

(** C5 (as amended).  For every ledger, the pending items are, in ledger
    order, exactly the items whose status is not [success] (an item without
    status is pending), and the failed items are, in ledger order, exactly
    the items whose status is [failed] or [exception]; every selected
    position stands for an item, and positions increase.  Over the statuses
    success, pending, failed, success, exception the pending items are
    items 2, 3 and 5, and the failed items are items 3 and 5. *)
Theorem pending_and_failed_in_order :
  (forall d : Ledger,
     deref d (get_pending d)
     = List.filter (fun p => negb (bool_decide (item_status p = Some "success")))
         (prompts d)
     /\ deref d (get_failed d)
        = List.filter (fun p => bool_decide (item_status p = Some "failed")
                                || bool_decide (item_status p = Some "exception"))
            (prompts d)
     /\ length (deref d (get_pending d)) = length (get_pending d)
     /\ length (deref d (get_failed d)) = length (get_failed d)
     /\ StronglySorted lt (get_pending d)
     /\ StronglySorted lt (get_failed d))
  /\ Scenario.ids Scenario.ledger5 (get_pending Scenario.ledger5) = [2; 3; 5]
  /\ Scenario.ids Scenario.ledger5 (get_failed Scenario.ledger5) = [3; 5].
Proof.
  split; [|split; reflexivity].
  intros d. unfold get_pending, get_failed. rewrite !deref_select.
  split; [|split; [|split; [|split; [|split]]]].
  - apply filter_ext. intros p. now rewrite status_is_spec.
  - apply filter_ext. intros p. unfold status_failed. now rewrite !status_is_spec.
  - symmetry. apply select_from_length.
  - symmetry. apply select_from_length.
  - apply select_from_sorted.
  - apply select_from_sorted.
Qed.

(** C5 (as stated) fails on its own example: over the statuses success,
    pending, failed, success, exception the pending items are not item 2
    alone, since the failed item 3 and the exception item 5 are not
    [success] either. *)
Lemma pending_example_not_item2_alone :
  map item_status (prompts Scenario.ledger5)
  = [Some "success"; None; Some "failed"; Some "success"; Some "exception"]
  /\ Scenario.ids Scenario.ledger5 (get_pending Scenario.ledger5) <> [2].
Proof. split; [reflexivity|discriminate]. Qed.

(** ** Prompt builder *)

Lemma build_carousel_prompt_ignores_hook (p q : WorkItem) :
  style_name p = style_name q ->
  pack_name p = pack_name q ->
  industry_name p = industry_name q ->
  build_carousel_prompt p = build_carousel_prompt q.
Proof.
  intros Hs Hp Hi. unfold build_carousel_prompt. now rewrite Hs, Hp, Hi.
Qed.

(** C8.  The prompt is a function of the descriptor alone: two work items
    with the same style, pack, industry and hook get the same prompt text,
    whatever their identifiers, file names and recorded statuses are. *)
Theorem build_carousel_prompt_deterministic (p q : WorkItem) :
  style_name p = style_name q ->
  pack_name p = pack_name q ->
  industry_name p = industry_name q ->
  hook_pattern p = hook_pattern q ->
  build_carousel_prompt p = build_carousel_prompt q.
Proof. intros Hs Hp Hi _. now apply build_carousel_prompt_ignores_hook. Qed.

Lemma build_carousel_prompt_deterministic_witness :
  build_carousel_prompt Scenario.item1 = build_carousel_prompt Scenario.item1_done.
Proof.
  apply (build_carousel_prompt_deterministic Scenario.item1 Scenario.item1_done);
    reflexivity.
Defined.

(** ** Post-processing *)

Lemma crop_box_cases (w h : Z) :
  0 <= w -> 0 < h ->
  crop_box w h
  = if w <? 5 * h
    then (0, (h - w / 5) / 2, w, (h - w / 5) / 2 + w / 5)
    else ((w - 5 * h) / 2, 0, (w - 5 * h) / 2 + 5 * h, h).
Proof.
  intros Hw Hh. destruct h as [|h|h]; try lia.
  unfold crop_box, py_int, target_ratio, Qle_bool, Qdiv, Qmult, Qinv, Qfloor, inject_Z.
  cbn [Qnum Qden].
  replace (5 * Z.pos (1 * h) <=? w * 1 * 1) with (negb (w <? 5 * Z.pos h))
    by (rewrite Z.ltb_antisym, negb_involutive; f_equal; lia).
  rewrite negb_involutive.
  replace (0 * Z.pos (1 * 5) <=? w * 1 * 1) with true by (symmetry; apply Z.leb_le; lia).
  replace (0 * Z.pos (1 * 1) <=? Z.pos h * 5 * 1) with true by (symmetry; apply Z.leb_le; lia).
  change (Z.pos (1 * 5)) with 5. change (Z.pos (1 * 1)) with 1.
  replace (w * 1) with w by lia. rewrite Z.div_1_r.
  replace (Z.pos h * 5) with (5 * Z.pos h) by lia.
  reflexivity.
Qed.

(** For a source of positive size the crop box lies inside the source, so
    nothing is padded, and the two margins differ by at most one pixel. *)
Lemma crop_box_inside (w h : Z) :
  0 < w -> 0 < h ->
  let '(l, u, r, lo) := crop_box w h in
  box_inside (l, u, r, lo) (Decoded w h)
  /\ 0 <= (w - r) - l <= 1 /\ 0 <= (h - lo) - u <= 1.
Proof.
  intros Hw Hh. rewrite (crop_box_cases w h) by lia.
  destruct (Z.ltb_spec w (5 * h)) as [Hlt|Hge]; cbn [box_inside image_size].
  - Z.div_mod_to_equations. lia.
  - Z.div_mod_to_equations. lia.
Qed.

Lemma save_error_set_images (m : gmap string Image) (w : World) :
  save_error (set_images m w) = save_error w.
Proof. reflexivity. Qed.

(** C9.  A 1200x200 image is cut to the 1000x200 box that leaves out 100
    pixels on the left and 100 on the right; the box lies inside the image,
    so nothing is padded; the cut image is then resampled (LANCZOS) to
    1000x200, and that image replaces the file (unless PIL refuses to write
    to the path: then the file stays as it was). *)
Theorem crop_resize_1200x200 :
  let src := Decoded 1200 200 in
  let box := (100, 0, 1100, 200) in
  crop_box 1200 200 = box
  /\ box_inside box src
  /\ image_size (Crop box src) = (1000, 200)
  /\ crop_resize src = Ok (Resize (1000, 200) LANCZOS (Crop box src))
  /\ (forall (w : World) (path : string),
        let w0 := set_images (<[path := src]> (images w)) w in
        let out := Resize (1000, 200) LANCZOS (Crop box src) in
        post_process path w0
        = match save_error w path with
          | None => (Ok tt, set_images (<[path := out]> (images w0)) w0)
          | Some e => (Raise e, w0)
          end
        /\ image_size out = (1000, 200)).
Proof.
  cbv zeta. split; [reflexivity|]. split; [cbn; lia|].
  split; [reflexivity|]. split; [reflexivity|].
  intros w path. split; [|reflexivity].
  unfold post_process, bind, Image_open, Image_save.
  cbn [set_images images save_error].
  rewrite lookup_insert_eq. cbn [crop_resize].
  change (crop_resize (Decoded 1200 200))
    with (@Ok Image (Resize (1000, 200) LANCZOS (Crop (100, 0, 1100, 200) (Decoded 1200 200)))).
  cbv beta iota. rewrite save_error_set_images. now destruct (save_error w path).
Qed.

(** ** The record of events *)

Ltac count_calls :=
  unfold generation_calls; cbn;
  rewrite ?List.filter_app, ?length_app; cbn; lia.

Ltac counters :=
  unfold generation_calls, backoffs, ledger_writes, backed_off, after_call in *;
  cbn [trace clock ledger_file env_api_key log set_clock set_images set_ledger_file snd fst] in *;
  rewrite ?List.filter_app, ?length_app in *;
  cbn in *; change (Qeq_bool 5 5) with true in *; cbn in *;
  try lia; try assumption; try congruence.

Ltac frame_facts :=
  repeat match goal with
         | |- _ /\ _ => split
         end;
  try reflexivity; try congruence; try counters.

Lemma generation_calls_log (e : Event) (w : World) :
  generation_calls (log e w)
  = (generation_calls w + (if is_generate e then 1 else 0))%nat.
Proof.
  unfold generation_calls, log. cbn [trace].
  rewrite List.filter_app, length_app. cbn [List.filter].
  destruct (is_generate e); reflexivity.
Qed.

Lemma generation_calls_after_call (prompt path : string) (w w' : World) :
  generation_calls (after_call prompt path w w') = S (generation_calls w).
Proof.
  unfold after_call, set_clock, set_images, generation_calls. cbn [trace log].
  rewrite List.filter_app, length_app. cbn. lia.
Qed.

Lemma clock_after_call (prompt path : string) (w w' : World) :
  clock (after_call prompt path w w') = clock w'.
Proof. reflexivity. Qed.

(** ** One attempt *)

Section Attempt.
Context {G : Type}.
Variable generate_image : string -> string -> G * World -> GenOutcome * (G * World).
Variables fname prompt path : string.
Variable max_retries : Z.

Lemma attempt_failure (a : Z) (s s1 : G * World) (r : GenerationResult) :
  generate_image prompt path s = (Returned r, s1) ->
  success r = false ->
  let error := default "Unknown" (gr_error r) in
  let w1 := after_call prompt path (snd s) (snd s1) in
  attempt_body generate_image fname prompt path max_retries a s
  = if Str.contains "500" error && (a <? max_retries)
    then (Ok Continue, (fst s1, backed_off w1))
    else (Ok (Return (status_error "failed" fname (Str.take 200 error) (clock w1))),
          (fst s1, log (EvPrint (MsgFail (Str.take 40 error))) w1)).
Proof.
  intros Hcall Hfail. cbv zeta.
  unfold attempt_body, try_except, bind, call_generate_image.
  rewrite Hcall. destruct s1 as [g1 w1]. cbn [fst snd]. rewrite Hfail.
  cbn [andb ret].
  destruct (Str.contains "500" (default "Unknown" (gr_error r)) && (a <? max_retries));
    reflexivity.
Qed.

Lemma attempt_raised (a : Z) (s s1 : G * World) (msg : string) :
  generate_image prompt path s = (Raised msg, s1) ->
  let w1 := after_call prompt path (snd s) (snd s1) in
  attempt_body generate_image fname prompt path max_retries a s
  = if a <? max_retries
    then (Ok Continue, (fst s1, backed_off w1))
    else (Ok (Return (status_error "exception" fname (Str.take 200 msg) (clock w1))),
          (fst s1, log (EvPrint (MsgFail (Str.take 40 msg))) w1)).
Proof.
  intros Hcall. cbv zeta.
  unfold attempt_body, try_except, bind, call_generate_image.
  rewrite Hcall. destruct s1 as [g1 w1]. cbn [fst snd exn_str].
  destruct (a <? max_retries); reflexivity.
Qed.

Lemma attempt_success (a : Z) (s s1 : G * World) (r : GenerationResult) :
  generate_image prompt path s = (Returned r, s1) ->
  success r = true ->
  exists w', attempt_body generate_image fname prompt path max_retries a s
             = (Ok (Return (status_success fname (clock (snd s1)))), (fst s1, w'))
             /\ clock w' = clock (snd s1)
             /\ generation_calls w' = S (generation_calls (snd s)).
Proof.
  intros Hcall Hok.
  unfold attempt_body, try_except, bind, call_generate_image.
  rewrite Hcall. destruct s1 as [g1 w1]. cbn [fst snd]. rewrite Hok.
  cbn [andb].
  destruct (negb (bool_decide (saved_paths r = []))).
  - unfold lift at 1. cbn [snd fst].
    unfold post_process, bind, Image_open. cbn [after_call set_clock set_images images].
    destruct (images w1 !! List.hd "" (saved_paths r)) as [img|].
    + destruct (crop_resize img) as [img'|e].
      * unfold Image_save.
        destruct (save_error _ _);
          (eexists; split; [reflexivity|]; split; [reflexivity|]; count_calls).
      * eexists. split; [reflexivity|]. split; [reflexivity|].
        count_calls.
    + eexists. split; [reflexivity|]. split; [reflexivity|].
      count_calls.
  - eexists. split; [reflexivity|]. split; [reflexivity|].
    count_calls.
Qed.

End Attempt.

(** ** The attempt loop *)


Lemma range1_succ (m : Z) :
  1 <= m -> exists k, range1 (m + 1) = map Z.of_nat (seq 1 (S k)) /\ Z.of_nat (1 + k) = m.
Proof.
  intros Hm. exists (Z.to_nat (m - 1)). unfold range1. split.
  - do 2 f_equal. lia.
  - lia.
Qed.

Section Loop.
Context {G : Type}.
Variable generate_image : string -> string -> G * World -> GenOutcome * (G * World).
Variables fname prompt path : string.
Variable max_retries : Z.

Lemma retry_step_counts (s : G * World) :
  generation_calls (snd (retry_step generate_image prompt path s))
  = S (generation_calls (snd s))
  /\ backoffs (snd (retry_step generate_image prompt path s)) = S (backoffs (snd s)).
Proof. unfold retry_step. split; counters. Qed.

Lemma retried_counts (k : nat) (s : G * World) :
  generation_calls (snd (retried generate_image prompt path k s))
  = (generation_calls (snd s) + k)%nat
  /\ backoffs (snd (retried generate_image prompt path k s)) = (backoffs (snd s) + k)%nat.
Proof.
  revert s. induction k as [|k IH]; intros s; [cbn [retried]; lia|].
  cbn [retried]. destruct (IH (retry_step generate_image prompt path s)) as [Hg Hb].
  destruct (retry_step_counts s) as [Hg1 Hb1]. rewrite Hg, Hb, Hg1, Hb1. lia.
Qed.

(** An attempt that is not the last and whose outcome is retried leads to
    the next attempt in the state [retry_step] gives. *)
Lemma attempt_retried (a : Z) (s : G * World) :
  a < max_retries ->
  retriable (fst (generate_image prompt path s)) = true ->
  attempt_body generate_image fname prompt path max_retries a s
  = (Ok Continue, retry_step generate_image prompt path s).
Proof.
  intros Ha Hre. unfold retry_step.
  destruct (generate_image prompt path s) as [[r|msg] s1] eqn:Hcall; cbn [fst snd] in *.
  - apply andb_prop in Hre as [Hfail Hmark]. apply negb_true_iff in Hfail.
    rewrite (attempt_failure _ _ _ _ _ _ _ _ _ Hcall Hfail), Hmark.
    now replace (a <? max_retries) with true by (symmetry; now apply Z.ltb_lt).
  - rewrite (attempt_raised _ _ _ _ _ _ _ _ _ Hcall).
    now replace (a <? max_retries) with true by (symmetry; now apply Z.ltb_lt).
Qed.

(** When the first [k] outcomes are all retried, the loop comes to its last
    attempt in the state [retried k] gives. *)
Lemma attempt_loop_retried (k a : nat) (s : G * World) :
  Z.of_nat (a + k) = max_retries ->
  (forall j, (j < k)%nat ->
     retriable (fst (generate_image prompt path (retried generate_image prompt path j s)))
     = true) ->
  attempt_loop generate_image fname prompt path max_retries
    (map Z.of_nat (seq a (S k))) s
  = attempt_loop generate_image fname prompt path max_retries [max_retries]
      (retried generate_image prompt path k s).
Proof.
  revert a s. induction k as [|k IH]; intros a s Hlast Hall.
  - cbn [seq map retried]. now replace (Z.of_nat a) with max_retries by lia.
  - change (map Z.of_nat (seq a (S (S k))))
      with (Z.of_nat a :: map Z.of_nat (seq (S a) (S k))).
    cbn [attempt_loop retried]. unfold bind at 1.
    rewrite attempt_retried; [|lia|exact (Hall 0%nat ltac:(lia))].
    apply IH; [lia|]. intros j Hj. exact (Hall (S j) ltac:(lia)).
Qed.

(** The last attempt, when its outcome is not a success: the record carries
    the text of that outcome. *)
Lemma last_attempt_recorded (s : G * World) :
  let out := generate_image prompt path s in
  let err := outcome_text (fst out) in
  let w1 := after_call prompt path (snd s) (snd (snd out)) in
  match fst out with
  | Returned r => success r = false
  | Raised _ => True
  end ->
  attempt_loop generate_image fname prompt path max_retries [max_retries] s
  = (Ok (status_error (failure_status (fst out)) fname (Str.take 200 err)
           (clock (snd (snd out)))),
     (fst (snd out), log (EvPrint (MsgFail (Str.take 40 err))) w1)).
Proof.
  cbv zeta. cbn [attempt_loop]. unfold bind at 1.
  destruct (generate_image prompt path s) as [[r|msg] s1] eqn:Hcall;
    cbn [fst snd outcome_text failure_status]; intros Hfail.
  - rewrite (attempt_failure _ _ _ _ _ _ _ _ _ Hcall Hfail), Z.ltb_irrefl, andb_false_r.
    reflexivity.
  - rewrite (attempt_raised _ _ _ _ _ _ _ _ _ Hcall), Z.ltb_irrefl. reflexivity.
Qed.

(** A run of the loop in which no outcome is a success and all outcomes
    but the last are retried. *)
Lemma attempt_loop_exhausted (k : nat) (s : G * World) :
  Z.of_nat (1 + k) = max_retries ->
  (forall j, (j < k)%nat ->
     retriable (fst (generate_image prompt path (retried generate_image prompt path j s)))
     = true) ->
  let s_last := retried generate_image prompt path k s in
  let out := generate_image prompt path s_last in
  let err := outcome_text (fst out) in
  let run := attempt_loop generate_image fname prompt path max_retries
               (map Z.of_nat (seq 1 (S k))) s in
  match fst out with
  | Returned r => success r = false
  | Raised _ => True
  end ->
  run = (Ok (status_error (failure_status (fst out)) fname (Str.take 200 err)
               (clock (snd (snd out)))),
         (fst (snd out),
          log (EvPrint (MsgFail (Str.take 40 err)))
            (after_call prompt path (snd s_last) (snd (snd out)))))
  /\ generation_calls (snd (snd run)) = (generation_calls (snd s) + S k)%nat
  /\ backoffs (snd (snd run)) = (backoffs (snd s) + k)%nat
  /\ clock (snd (snd run)) = clock (snd (snd out)).
Proof.
  intros Hlast Hall. cbv zeta. intros Hfail.
  rewrite (attempt_loop_retried k 1 s Hlast Hall).
  rewrite (last_attempt_recorded _ Hfail). cbn [snd fst].
  destruct (retried_counts k s) as [Hg Hb].
  split; [reflexivity|]. split; [|split; [|reflexivity]].
  - rewrite generation_calls_log, generation_calls_after_call, Hg. cbn [is_generate]. lia.
  - rewrite <- Hb. counters.
Qed.

End Loop.

Lemma generate_single_unfold {G : Type}
    (generate_image : string -> string -> G * World -> GenOutcome * (G * World))
    (prompt_data : WorkItem) (output_dir : string) (max_retries : Z) (s : G * World) :
  generate_single generate_image prompt_data output_dir max_retries s
  = attempt_loop generate_image (filename prompt_data) (build_carousel_prompt prompt_data)
      (output_path_of output_dir prompt_data) max_retries (range1 (max_retries + 1))
      (announced prompt_data s).
Proof. reflexivity. Qed.

Lemma retriable_not_success (out : GenOutcome) :
  retriable out = true ->
  match out with
  | Returned r => success r = false
  | Raised _ => True
  end.
Proof.
  destruct out as [r|msg]; [|trivial]. cbn [retriable]. unfold transient.
  intros H. apply andb_prop in H as [H _]. now apply negb_true_iff in H.
Qed.

(** [generate_single] against a client none of whose outcomes ends the
    loop early: it makes [max_retries] calls and records the text of the
    last outcome. *)
Lemma generate_single_exhausted {G : Type}
    (generate_image : string -> string -> G * World -> GenOutcome * (G * World))
    (prompt_data : WorkItem) (output_dir : string) (max_retries : Z) (s : G * World) :
  1 <= max_retries ->
  (forall prompt path s1, retriable (fst (generate_image prompt path s1)) = true) ->
  let prompt := build_carousel_prompt prompt_data in
  let path := output_path_of output_dir prompt_data in
  let s_last :=
    retried generate_image prompt path (Z.to_nat (max_retries - 1))
      (announced prompt_data s) in
  let out := generate_image prompt path s_last in
  let err := outcome_text (fst out) in
  let run := generate_single generate_image prompt_data output_dir max_retries s in
  fst run
  = Ok (status_error (failure_status (fst out)) (filename prompt_data) (Str.take 200 err)
          (clock (snd (snd out))))
  /\ generation_calls (snd (snd run)) = (generation_calls (snd s) + Z.to_nat max_retries)%nat
  /\ backoffs (snd (snd run)) = (backoffs (snd s) + (Z.to_nat max_retries - 1))%nat
  /\ clock (snd (snd run)) = clock (snd (snd out)).
Proof.
  intros Hm Hall. cbv zeta.
  destruct (range1_succ max_retries Hm) as (k & Hrange & Hk).
  replace (Z.to_nat (max_retries - 1)) with k by lia.
  replace (Z.to_nat max_retries) with (S k) by lia.
  rewrite generate_single_unfold, Hrange.
  set (prompt := build_carousel_prompt prompt_data).
  set (path := output_path_of output_dir prompt_data).
  set (s0 := announced prompt_data s).
  destruct (attempt_loop_exhausted generate_image (filename prompt_data) prompt path
              max_retries k s0 Hk (fun j _ => Hall _ _ _))
    as (Hrun & Hg & Hb & Hc).
  { apply retriable_not_success, Hall. }
  assert (Hs0 : generation_calls (snd s0) = generation_calls (snd s)
                /\ backoffs (snd s0) = backoffs (snd s)).
  { unfold s0, announced. split; counters. }
  destruct Hs0 as [Hg0 Hb0].
  split; [now rewrite Hrun|]. split; [now rewrite Hg, Hg0|]. split; [|exact Hc].
  rewrite Hb, Hb0. lia.
Qed.



(** The record of that run: the whole text of the client (it is shorter
    than 200 characters), at the time left by the one pause. *)
Example always_500_record :
  fst (generate_single Scenario.always_500 Scenario.item2 OUTPUT_DIR 2 (tt, Scenario.world0))
  = Ok (status_error "failed" (filename Scenario.item2) Scenario.transient_error 5).
Proof. reflexivity. Qed.


(** C3.  When a call of the client reports a failure, what the loop does
    next is decided by whether the three characters ["500"] occur in the
    error text (anywhere: in "500 INTERNAL" as well as in "1500"): if they
    do and attempts remain, the driver announces a retry, sleeps 5 seconds
    and goes on with the next attempt; in every other case (a text without
    them, such as one that reports a 503, or no attempt left) it returns at
    once with status [failed] and the first 200 characters of the text,
    without sleeping and without a further call. *)
Theorem reported_failure_classification {G : Type}
    (generate_image : string -> string -> G * World -> GenOutcome * (G * World))
    (fname prompt path : string) (max_retries attempt : Z) (rest : list Z)
    (s s1 : G * World) (r : GenerationResult) :
  generate_image prompt path s = (Returned r, s1) ->
  success r = false ->
  let error := default "Unknown" (gr_error r) in
  let w1 := after_call prompt path (snd s) (snd s1) in
  let run := attempt_loop generate_image fname prompt path max_retries (attempt :: rest) s in
  run
  = (if Str.contains "500" error && (attempt <? max_retries)
     then attempt_loop generate_image fname prompt path max_retries rest
            (fst s1, backed_off w1)
     else (Ok (status_error "failed" fname (Str.take 200 error) (clock w1)),
           (fst s1, log (EvPrint (MsgFail (Str.take 40 error))) w1)))
  /\ (Str.contains "500" error = true <-> occurs_in "500" error)
  /\ (occurs_in "500" error /\ attempt < max_retries ->
      run = attempt_loop generate_image fname prompt path max_retries rest
              (fst s1, backed_off w1))
  /\ (~ (occurs_in "500" error /\ attempt < max_retries) ->
      run = (Ok (status_error "failed" fname (Str.take 200 error) (clock w1)),
             (fst s1, log (EvPrint (MsgFail (Str.take 40 error))) w1))
      /\ generation_calls (snd (snd run)) = S (generation_calls (snd s))
      /\ backoffs (snd (snd run)) = backoffs (snd s))
  /\ prefix_of_length 200 error (Str.take 200 error)
  /\ trace (backed_off w1) = (trace (snd s) ++ [EvGenerate prompt path; EvPrint MsgRetry; EvSleep 5])%list
  /\ clock (backed_off w1) = (clock (snd s1) + 5)%Q.
Proof.
  intros Hcall Hfail. cbv zeta.
  assert (Hrun : attempt_loop generate_image fname prompt path max_retries (attempt :: rest) s
                 = (if Str.contains "500" (default "Unknown" (gr_error r))
                       && (attempt <? max_retries)
                    then attempt_loop generate_image fname prompt path max_retries rest
                           (fst s1, backed_off (after_call prompt path (snd s) (snd s1)))
                    else (Ok (status_error "failed" fname
                                (Str.take 200 (default "Unknown" (gr_error r)))
                                (clock (after_call prompt path (snd s) (snd s1)))),
                          (fst s1,
                           log (EvPrint (MsgFail (Str.take 40 (default "Unknown" (gr_error r)))))
                             (after_call prompt path (snd s) (snd s1)))))).
  { cbn [attempt_loop]. unfold bind at 1.
    rewrite (attempt_failure _ _ _ _ _ _ _ _ _ Hcall Hfail).
    destruct (Str.contains "500" (default "Unknown" (gr_error r)) && (attempt <? max_retries));
      reflexivity. }
  split; [exact Hrun|]. split; [apply contains_spec|].
  split; [|split; [|split; [apply take_spec|split]]].
  - intros [Hocc Hlt]. rewrite Hrun.
    apply contains_spec in Hocc. rewrite Hocc.
    now replace (attempt <? max_retries) with true by (symmetry; now apply Z.ltb_lt).
  - intros Hnot.
    assert (Hno : Str.contains "500" (default "Unknown" (gr_error r))
                  && (attempt <? max_retries) = false).
    { apply not_true_is_false. intros Hyes. apply andb_prop in Hyes as [Hocc Hlt].
      apply Hnot. split; [now apply contains_spec|now apply Z.ltb_lt]. }
    rewrite Hrun, Hno. split; [reflexivity|]. cbn [snd]. split; counters.
  - cbn. now rewrite <- !app_assoc.
  - reflexivity.
Qed.

Lemma reported_failure_classification_witness :
  let s := ([], Scenario.world0) in
  let path := Scenario.path_of Scenario.item2 in
  let w1 := after_call "prompt" path Scenario.world0 Scenario.world0 in
  Scenario.stub "prompt" path s
  = (Returned (Scenario.ko Scenario.transient_error), ([path], Scenario.world0))
  /\ attempt_loop Scenario.stub "002.png" "prompt" path 2 [1; 2] s
     = attempt_loop Scenario.stub "002.png" "prompt" path 2 [2] ([path], backed_off w1).
Proof.
  cbv zeta. split; [reflexivity|].
  pose proof (reported_failure_classification Scenario.stub "002.png" "prompt"
                (Scenario.path_of Scenario.item2) 2 1 [2] ([], Scenario.world0)
                ([Scenario.path_of Scenario.item2], Scenario.world0)
                (Scenario.ko Scenario.transient_error) eq_refl eq_refl) as H.
  cbv zeta in H. destruct H as (_ & _ & Hretry & _).
  apply Hretry. split; [|lia].
  exists "Error generating image: ", " INTERNAL. An internal error has occurred.".
  reflexivity.
Defined.

(** C3 (as stated) fails: a reported failure whose text names a
    server-side failure other than 500 (a 503, with four attempts left) is
    not retried: one call, no pause, status [failed] at once. *)
Lemma server_side_503_not_retried :
  let error := Cases.unavailable_error in
  let path := Scenario.path_of Scenario.item2 in
  let run := attempt_loop Cases.always_503 "002.png" "prompt" path 5 [1; 2; 3; 4; 5]
               (tt, Scenario.world0) in
  Cases.always_503 "prompt" path (tt, Scenario.world0)
  = (Returned (Scenario.ko error), (tt, Scenario.world0))
  /\ names_server_side_failure error = true
  /\ Str.contains "500" error = false
  /\ fst run = Ok (status_error "failed" "002.png" error 0)
  /\ generation_calls (snd (snd run)) = 1%nat
  /\ backoffs (snd (snd run)) = 0%nat
  /\ run <> attempt_loop Cases.always_503 "002.png" "prompt" path 5 [2; 3; 4; 5]
              (tt, backed_off (after_call "prompt" path Scenario.world0 Scenario.world0)).
Proof.
  cbv zeta. split; [reflexivity|]. split; [vm_compute; reflexivity|].
  split; [vm_compute; reflexivity|]. split; [reflexivity|]. split; [reflexivity|].
  split; [reflexivity|].
  intros H. apply (f_equal (fun r => generation_calls (snd (snd r)))) in H.
  vm_compute in H. discriminate H.
Qed.

(** A failure without the marker is final even on the first of two
    attempts. *)
Example terminal_failure_not_retried :
  let path := Scenario.path_of Scenario.item3 in
  let r := attempt_loop Scenario.stub "003.png" "prompt" path 2 [1; 2] ([], Scenario.world0) in
  fst r = Ok (status_error "failed" "003.png" Scenario.terminal_error 0)
  /\ generation_calls (snd (snd r)) = 1%nat.
Proof. split; reflexivity. Qed.

(** C6.  When a call of the client reports success, the loop returns the
    record with status [success], the file name, its URL and the time the
    client left on the clock.  Neither the image files nor the outcome of
    post-processing (a missing file, a division by zero, a refused save, a
    completed crop) enter the record, and post-processing leaves the clock
    alone. *)
Theorem post_processing_never_reverts_success {G : Type}
    (generate_image : string -> string -> G * World -> GenOutcome * (G * World))
    (fname prompt path : string) (max_retries attempt : Z) (rest : list Z)
    (s s1 : G * World) (r : GenerationResult) :
  generate_image prompt path s = (Returned r, s1) ->
  success r = true ->
  exists w',
    attempt_loop generate_image fname prompt path max_retries (attempt :: rest) s
    = (Ok {| status := "success"; gs_filename := fname;
             url := Some (URL_PREFIX +:+ fname); error := None;
             generated_at := Some (clock (snd s1)); attempted_at := None |},
       (fst s1, w'))
    /\ clock w' = clock (snd s1)
    /\ generation_calls w' = S (generation_calls (snd s)).
Proof.
  intros Hcall Hok.
  destruct (attempt_success generate_image fname prompt path max_retries attempt
              s s1 r Hcall Hok) as (w' & Hbody & Hclock & Hcalls).
  exists w'. split; [|split; assumption].
  cbn [attempt_loop]. unfold bind at 1. now rewrite Hbody.
Qed.

Lemma post_processing_never_reverts_success_witness :
  let s := (tt, Scenario.world0) in
  Scenario.ok_without_file "prompt" "out/001" s = (Returned (Scenario.ok "out/001"), s)
  /\ fst (post_process "out/001.png" Scenario.world0) = Raise (FileNotFoundError "out/001.png")
  /\ exists w',
       attempt_loop Scenario.ok_without_file "001.png" "prompt" "out/001" 2 [1; 2] s
       = (Ok {| status := "success"; gs_filename := "001.png";
                url := Some (URL_PREFIX +:+ "001.png"); error := None;
                generated_at := Some (clock (snd s)); attempted_at := None |},
          (fst s, w'))
       /\ clock w' = clock (snd s)
       /\ generation_calls w' = S (generation_calls (snd s)).
Proof.
  cbv zeta. split; [reflexivity|]. split; [reflexivity|].
  apply (post_processing_never_reverts_success Scenario.ok_without_file "001.png"
           "prompt" "out/001" 2 1 [2] (tt, Scenario.world0) (tt, Scenario.world0)
           (Scenario.ok "out/001"));
    reflexivity.
Defined.

(** The same item, once with a client that leaves no file (the crop fails
    and says so) and once with a client that leaves a 1200x200 image (the
    crop is done): the two records are the same. *)
Example crop_failure_same_record :
  let run c := generate_single c Scenario.item1 OUTPUT_DIR 2 (tt, Scenario.world0) in
  fst (run Scenario.ok_without_file) = fst (run Scenario.ok_with_file)
  /\ In (EvPrint (MsgCropFailed
           "[Errno 2] No such file or directory: 'images/reference_carousels/001_devtools_edu_modern_clean.png'"))
        (trace (snd (snd (run Scenario.ok_without_file))))
  /\ (image_size <$> images (snd (snd (run Scenario.ok_with_file)))
        !! "images/reference_carousels/001_devtools_edu_modern_clean.png")
     = Some (1000, 200).
Proof.
  cbv zeta. split; [reflexivity|]. split; [|reflexivity].
  vm_compute. tauto.
Qed.

(** ** The status report *)

Lemma count_bounds (f : WorkItem -> bool) (ps : list WorkItem) :
  0 <= count f ps <= Z.of_nat (length ps).
Proof.
  unfold count. pose proof (List.filter_length_le f ps). lia.
Qed.

Lemma percent_bounds (n t : Z) :
  0 <= n <= t -> 0 < t ->
  (0 <= inject_Z (100 * n) / inject_Z t)%Q /\ (inject_Z (100 * n) / inject_Z t <= 100)%Q.
Proof.
  intros Hn Ht. destruct t as [|t|t]; try lia.
  unfold Qle, Qdiv, Qmult, Qinv, inject_Z. cbn. split; nia.
Qed.

Lemma print_status_spec (d : Ledger) (w : World) :
  print_status d w
  = if bool_decide (prompts d = [])
    then (Raise ZeroDivisionError, w)
    else (Ok tt,
          log (EvPrint (MsgStatus
                 (count (status_is "success") (prompts d))
                 (Z.of_nat (length (prompts d)))
                 (inject_Z (100 * count (status_is "success") (prompts d))
                  / inject_Z (Z.of_nat (length (prompts d))))%Q
                 (count status_failed (prompts d))
                 (Z.of_nat (length (prompts d))
                  - count (status_is "success") (prompts d)
                  - count status_failed (prompts d)))) w).
Proof.
  unfold print_status. destruct (prompts d) as [|p ps]; reflexivity.
Qed.

Lemma load_prompts_ok (w : World) (cs : list Chunk) (d : Ledger) :
  ledger_file w = Some cs -> json_load cs = Some d ->
  load_prompts w = (Ok d, log EvLoad w).
Proof.
  intros Hf Hl. unfold load_prompts, bind, emit, modify, gets.
  cbn [log ledger_file]. now rewrite Hf, Hl.
Qed.

Lemma slice_to_nil {A : Type} (n : Z) : slice_to n (@nil A) = [].
Proof. unfold slice_to. destruct (0 <=? n); now rewrite take_nil. Qed.

Lemma select_batch_empty (args : Args) (d : Ledger) :
  prompts d = [] -> select_batch args d = [].
Proof.
  intros He. unfold select_batch, get_pending, get_failed, select. rewrite He.
  cbn [select_from]. destruct (arg_resume args), (arg_retry_failed args);
    apply slice_to_nil.
Qed.

(** C10.  The report divides by the number of items without a guard.  With
    an empty ledger it raises [ZeroDivisionError] and prints nothing; with a
    non-empty ledger it prints the counts and the percentage
    [100 * success / total], which lies between 0 and 100.  Hence, on an
    empty ledger, [main] ends with [ZeroDivisionError] and a nonzero exit
    status whatever its flags are ([--status] or a run), without having
    printed a report. *)
Theorem print_status_divides_by_total {G : Type}
    (generate_image : string -> string -> G * World -> GenOutcome * (G * World))
    (new_client : string -> G) :
  (forall (d : Ledger) (w : World),
     print_status d w
     = if bool_decide (prompts d = [])
       then (Raise ZeroDivisionError, w)
       else (Ok tt,
             log (EvPrint (MsgStatus
                    (count (status_is "success") (prompts d))
                    (Z.of_nat (length (prompts d)))
                    (inject_Z (100 * count (status_is "success") (prompts d))
                     / inject_Z (Z.of_nat (length (prompts d))))%Q
                    (count status_failed (prompts d))
                    (Z.of_nat (length (prompts d))
                     - count (status_is "success") (prompts d)
                     - count status_failed (prompts d)))) w))
  /\ (forall d : Ledger,
        prompts d <> [] ->
        let percent := (inject_Z (100 * count (status_is "success") (prompts d))
                        / inject_Z (Z.of_nat (length (prompts d))))%Q in
        (0 <= percent)%Q /\ (percent <= 100)%Q)
  /\ (forall (args : Args) (w : World) (cs : list Chunk) (d : Ledger),
        ledger_file w = Some cs ->
        json_load cs = Some d ->
        prompts d = [] ->
        exists w',
          main generate_image new_client args w = (Raise ZeroDivisionError, w')
          /\ exit_code (fst (main generate_image new_client args w)) = 1
          /\ List.filter is_status_report (trace w') = List.filter is_status_report (trace w)).
Proof.
  split; [apply print_status_spec|]. split.
  - intros d Hne. apply percent_bounds.
    + apply count_bounds.
    + destruct (prompts d); [congruence|cbn [length]; lia].
  - intros args w cs d Hf Hl He. unfold main, bind.
    rewrite (load_prompts_ok w cs d Hf Hl).
    destruct (arg_status args).
    + rewrite print_status_spec, He. cbn [bool_decide decide_rel].
      rewrite bool_decide_eq_true_2 by reflexivity.
      eexists. split; [reflexivity|]. split; [reflexivity|].
      cbn [trace log]. rewrite List.filter_app. cbn. now rewrite app_nil_r.
    + rewrite (select_batch_empty args d He).
      rewrite bool_decide_eq_true_2 by reflexivity.
      cbn [print emit modify]. rewrite print_status_spec, He.
      rewrite bool_decide_eq_true_2 by reflexivity.
      eexists. split; [reflexivity|]. split; [reflexivity|].
      cbn [trace log]. rewrite !List.filter_app. cbn. now rewrite !app_nil_r.
Qed.

(** ** Whole runs *)



(** With three attempts allowed, item 2 does reach success on its third
    call. *)
Example item2_with_three_attempts :
  let r := generate_single Scenario.stub Scenario.item2 OUTPUT_DIR 3 ([], Scenario.world0) in
  (status <$> fst_ok r) = Some "success"
  /\ generation_calls (snd (snd r)) = 3%nat.
Proof. cbv zeta. split; vm_compute; reflexivity. Qed.

Lemma main_without_key {G : Type}
    (generate_image : string -> string -> G * World -> GenOutcome * (G * World))
    (new_client : string -> G) (args : Args) (w : World)
    (cs : list Chunk) (data : Ledger) :
  env_api_key w = None ->
  ledger_file w = Some cs ->
  json_load cs = Some data ->
  arg_status args = false ->
  select_batch args data <> [] ->
  main generate_image new_client args w
  = (Raise (ValueError "API key required. Set GEMINI_API_KEY environment variable or pass api_key parameter."),
     log EvMkdir (log EvLoad w)).
Proof.
  intros Hkey Hf Hl Hst Hsel. unfold main, bind.
  rewrite (load_prompts_ok w cs data Hf Hl), Hst.
  rewrite bool_decide_eq_false_2 by exact Hsel.
  cbn [emit modify]. unfold NanoBananaProGenerator, bind, gets.
  cbn [log env_api_key]. now rewrite Hkey.
Qed.

(** C7 (as amended).  Without the API key in the environment, a run that
    has work to do (the ledger loads, [--status] is not given, the selection
    is not empty) stops with [ValueError] and exit status 1 when the client
    is built: after the ledger file has been read and the output directory
    made, and before any call of the client and any write of the ledger
    file. *)
Theorem missing_key_fails_after_load {G : Type}
    (generate_image : string -> string -> G * World -> GenOutcome * (G * World))
    (new_client : string -> G) (args : Args) (w : World)
    (cs : list Chunk) (data : Ledger) :
  env_api_key w = None ->
  ledger_file w = Some cs ->
  json_load cs = Some data ->
  arg_status args = false ->
  select_batch args data <> [] ->
  let r := main generate_image new_client args w in
  (exists msg, fst r = Raise (ValueError msg))
  /\ exit_code (fst r) = 1
  /\ trace (snd r) = (trace w ++ [EvLoad; EvMkdir])%list
  /\ ledger_file (snd r) = ledger_file w
  /\ generation_calls (snd r) = generation_calls w.
Proof.
  intros Hkey Hf Hl Hst Hsel. cbv zeta.
  rewrite (main_without_key generate_image new_client args w cs data Hkey Hf Hl Hst Hsel).
  cbn [fst snd]. split; [eexists; reflexivity|]. split; [reflexivity|].
  split; [cbn; now rewrite <- app_assoc|]. split; [reflexivity|].
  rewrite !generation_calls_log. cbn. lia.
Qed.

Lemma missing_key_fails_after_load_witness :
  let w := Scenario.world_no_key in
  let r := main Scenario.stub Scenario.new_stub default_args w in
  env_api_key w = None
  /\ json_load (json_dump Scenario.ledger) = Some Scenario.ledger
  /\ select_batch default_args Scenario.ledger = [0; 1; 2]%nat
  /\ (exists msg, fst r = Raise (ValueError msg))
  /\ exit_code (fst r) = 1
  /\ trace (snd r) = (trace w ++ [EvLoad; EvMkdir])%list
  /\ ledger_file (snd r) = ledger_file w
  /\ generation_calls (snd r) = generation_calls w.
Proof.
  cbv zeta. split; [reflexivity|]. split; [reflexivity|]. split; [reflexivity|].
  apply (missing_key_fails_after_load Scenario.stub Scenario.new_stub default_args
           Scenario.world_no_key (json_dump Scenario.ledger) Scenario.ledger);
    try reflexivity.
  vm_compute. discriminate.
Defined.

(** C7 (as stated) fails twice over.  With work to do, the run without key
    does stop on the setup error, but only after it has read the ledger
    file; with [--status], the key is never asked for and the run ends
    normally. *)
Lemma missing_key_not_before_ledger_access :
  let run := main Scenario.stub Scenario.new_stub default_args Scenario.world_no_key in
  let report := main Scenario.stub Scenario.new_stub Scenario.status_args Scenario.world_no_key in
  env_api_key Scenario.world_no_key = None
  /\ ~ fails_before_ledger_access run
  /\ trace (snd run) = [EvLoad; EvMkdir]
  /\ ~ fails_before_ledger_access report
  /\ fst report = Ok tt.
Proof.
  cbv zeta. split; [reflexivity|]. split; [|split; [reflexivity|split; [|reflexivity]]].
  - intros (_ & _ & Hload & _). apply Hload. vm_compute. tauto.
  - intros ((msg & Hraise) & _). vm_compute in Hraise. discriminate.
Qed.

Lemma print_status_divides_by_total_witness :
  json_load (json_dump Scenario.empty_ledger) = Some Scenario.empty_ledger
  /\ prompts Scenario.empty_ledger = []
  /\ (exists w',
        main Scenario.stub Scenario.new_stub Scenario.status_args Scenario.world_empty_ledger
        = (Raise ZeroDivisionError, w')
        /\ exit_code (fst (main Scenario.stub Scenario.new_stub Scenario.status_args
                             Scenario.world_empty_ledger)) = 1
        /\ List.filter is_status_report (trace w')
           = List.filter is_status_report (trace Scenario.world_empty_ledger))
  /\ (exists w',
        main Scenario.stub Scenario.new_stub default_args Scenario.world_empty_ledger
        = (Raise ZeroDivisionError, w')
        /\ exit_code (fst (main Scenario.stub Scenario.new_stub default_args
                             Scenario.world_empty_ledger)) = 1
        /\ List.filter is_status_report (trace w')
           = List.filter is_status_report (trace Scenario.world_empty_ledger)).
Proof.
  split; [reflexivity|]. split; [reflexivity|]. split.
  - apply (proj2 (proj2 (print_status_divides_by_total Scenario.stub Scenario.new_stub))
             Scenario.status_args Scenario.world_empty_ledger
             (json_dump Scenario.empty_ledger) Scenario.empty_ledger);
      reflexivity.
  - apply (proj2 (proj2 (print_status_divides_by_total Scenario.stub Scenario.new_stub))
             default_args Scenario.world_empty_ledger
             (json_dump Scenario.empty_ledger) Scenario.empty_ledger);
      reflexivity.
Defined.

(** * Further properties *)

(** ** One item, any client *)

Lemma post_process_guarded {G : Type} (img_path : string) (s : G * World) :
  exists w',
    try_except (lift (post_process img_path))
      (fun crop_err => lift (print (MsgCropFailed (exn_str crop_err)))) s
    = (Ok tt, (fst s, w'))
    /\ clock w' = clock (snd s)
    /\ ledger_file w' = ledger_file (snd s)
    /\ env_api_key w' = env_api_key (snd s)
    /\ generation_calls w' = generation_calls (snd s)
    /\ backoffs w' = backoffs (snd s)
    /\ ledger_writes w' = ledger_writes (snd s).
Proof.
  unfold try_except, lift, post_process, bind, Image_open.
  destruct (images (snd s) !! img_path) as [img|].
  - destruct (crop_resize img) as [img'|e].
    + unfold Image_save. destruct (save_error (snd s) img_path);
        (eexists; split; [reflexivity|]; frame_facts).
    + eexists. split; [reflexivity|]. frame_facts.
  - eexists. split; [reflexivity|]. frame_facts.
Qed.

Section AnyClient.
Context {G : Type}.
Variable generate_image : string -> string -> G * World -> GenOutcome * (G * World).
Variables fname prompt path : string.
Variable max_retries : Z.

Lemma attempt_body_any (a : Z) (s : G * World) :
  exists step s',
    attempt_body generate_image fname prompt path max_retries a s = (Ok step, s')
    /\ generation_calls (snd s') = S (generation_calls (snd s))
    /\ ledger_file (snd s') = ledger_file (snd s)
    /\ env_api_key (snd s') = env_api_key (snd s)
    /\ ledger_writes (snd s') = ledger_writes (snd s)
    /\ match step with
       | Continue => a < max_retries /\ backoffs (snd s') = S (backoffs (snd s))
       | Return st =>
           gs_filename st = fname /\ written_status (status st)
           /\ backoffs (snd s') = backoffs (snd s)
       end.
Proof.
  unfold attempt_body. unfold try_except at 1. unfold bind at 1.
  unfold call_generate_image.
  destruct (generate_image prompt path s) as [[r|msg] [g1 w1]].
  - cbn [fst snd].
    assert (Hpp : exists w2,
               (if success r && negb (bool_decide (saved_paths r = []))
                then try_except (lift (post_process (List.hd "" (saved_paths r))))
                       (fun crop_err => lift (print (MsgCropFailed (exn_str crop_err))))
                else ret tt) (g1, after_call prompt path (snd s) w1)
               = (Ok tt, (g1, w2))
               /\ clock w2 = clock w1
               /\ ledger_file w2 = ledger_file (snd s)
               /\ env_api_key w2 = env_api_key (snd s)
               /\ generation_calls w2 = S (generation_calls (snd s))
               /\ backoffs w2 = backoffs (snd s)
               /\ ledger_writes w2 = ledger_writes (snd s)).
    { destruct (success r && negb (bool_decide (saved_paths r = []))).
      - destruct (post_process_guarded (List.hd "" (saved_paths r))
                    (g1, after_call prompt path (snd s) w1))
          as (w2 & Heq & Hc & Hl & He & Hg & Hb & Hw).
        exists w2. split; [exact Heq|]. frame_facts.
      - eexists. split; [reflexivity|]. frame_facts. }
    destruct Hpp as (w2 & Heq & Hc & Hl & He & Hg & Hb & Hw).
    unfold bind at 1. rewrite Heq.
    destruct (success r).
    + eexists _, _. split; [reflexivity|]. unfold written_status. frame_facts.
      now left.
    + destruct (Str.contains "500" (default "Unknown" (gr_error r)) && (a <? max_retries))
        eqn:Hretry.
      * apply andb_prop in Hretry as [_ Hlt]. apply Z.ltb_lt in Hlt.
        eexists _, _. split; [reflexivity|]. frame_facts.
      * eexists _, _. split; [reflexivity|]. unfold written_status. frame_facts.
        right; now left.
  - cbn [fst snd]. destruct (a <? max_retries) eqn:Hlt.
    + apply Z.ltb_lt in Hlt. eexists _, _. split; [reflexivity|]. frame_facts.
    + eexists _, _. split; [reflexivity|]. unfold written_status. frame_facts.
      right; now right.
Qed.

(** The loop over the attempts [a, a+1, ..., max_retries]. *)
Lemma attempt_loop_any (k a : nat) (s : G * World) :
  Z.of_nat (a + k) = max_retries ->
  exists st s' n,
    attempt_loop generate_image fname prompt path max_retries
      (map Z.of_nat (seq a (S k))) s = (Ok st, s')
    /\ (1 <= n <= S k)%nat
    /\ generation_calls (snd s') = (generation_calls (snd s) + n)%nat
    /\ backoffs (snd s') = (backoffs (snd s) + (n - 1))%nat
    /\ ledger_file (snd s') = ledger_file (snd s)
    /\ env_api_key (snd s') = env_api_key (snd s)
    /\ ledger_writes (snd s') = ledger_writes (snd s)
    /\ gs_filename st = fname
    /\ written_status (status st).
Proof.
  revert a s. induction k as [|k IH]; intros a s Hlast.
  - destruct (attempt_body_any (Z.of_nat a) s)
      as (step & s1 & Hbody & Hg & Hl & He & Hw & Hstep).
    cbn [seq map attempt_loop]. unfold bind at 1. rewrite Hbody.
    destruct step as [|st].
    + destruct Hstep as [Hlt _]. lia.
    + destruct Hstep as (Hf & Hst & Hb).
      exists st, s1, 1%nat. split; [reflexivity|].
      repeat split; try assumption; try lia.
  - destruct (attempt_body_any (Z.of_nat a) s)
      as (step & s1 & Hbody & Hg & Hl & He & Hw & Hstep).
    cbn [seq map attempt_loop]. unfold bind at 1. rewrite Hbody.
    destruct step as [|st].
    + destruct Hstep as [_ Hb].
      destruct (IH (S a) s1) as (st & s' & n & Hloop & Hn & Hg' & Hb' & Hl' & He' & Hw' & Hf & Hst);
        [lia|].
      cbn [seq map] in Hloop. exists st, s', (S n). split; [exact Hloop|].
      repeat split; try assumption; try lia; congruence.
    + destruct Hstep as (Hf & Hst & Hb).
      exists st, s1, 1%nat. split; [reflexivity|].
      repeat split; try assumption; try lia.
Qed.

End AnyClient.

Lemma range1_nil (m : Z) : m <= 0 -> range1 (m + 1) = [].
Proof.
  intros Hm. unfold range1. replace (Z.to_nat (m + 1 - 1)) with 0%nat by lia.
  reflexivity.
Qed.

Lemma generate_single_total {G : Type}
    (generate_image : string -> string -> G * World -> GenOutcome * (G * World))
    (prompt_data : WorkItem) (output_dir : string) (max_retries : Z) (s : G * World) :
  exists st s' n,
    generate_single generate_image prompt_data output_dir max_retries s = (Ok st, s')
    /\ gs_filename st = filename prompt_data
    /\ written_status (status st)
    /\ (Nat.min 1 (Z.to_nat max_retries) <= n <= Z.to_nat max_retries)%nat
    /\ generation_calls (snd s') = (generation_calls (snd s) + n)%nat
    /\ backoffs (snd s') = (backoffs (snd s) + (n - 1))%nat
    /\ ledger_file (snd s') = ledger_file (snd s)
    /\ ledger_writes (snd s') = ledger_writes (snd s)
    /\ env_api_key (snd s') = env_api_key (snd s).
Proof.
  unfold generate_single. unfold bind at 1. unfold lift at 1.
  cbn [print emit modify snd fst].
  destruct (Z_le_gt_dec max_retries 0) as [Hle|Hgt].
  - rewrite (range1_nil max_retries Hle). cbn [attempt_loop].
    eexists _, _, 0%nat. split; [reflexivity|].
    unfold written_status. frame_facts.
    + right; now left.
    + replace (Z.to_nat max_retries) with 0%nat by lia. lia.
  - destruct (range1_succ max_retries) as (k & Hrange & Hk); [lia|].
    rewrite Hrange.
    match goal with
    | |- context [attempt_loop _ ?f ?p ?o _ _ ?s0] =>
        destruct (attempt_loop_any generate_image f p o max_retries k 1 s0 Hk)
          as (st & s' & n & Hloop & Hn & Hg & Hb & Hl & He & Hw & Hf & Hst)
    end.
    exists st, s', n. split; [exact Hloop|].
    split; [exact Hf|]. split; [exact Hst|]. split; [lia|].
    rewrite Hg, Hb, Hl, He, Hw. frame_facts.
Qed.

(** X1.  Whatever the client does (return a success, report a failure,
    raise), [generate_single] returns a status record and raises nothing.
    The record carries the file name of the item and one of the statuses
    success, failed, exception.  The client is called at most [max_retries]
    times, and at least once when [max_retries >= 1]; the driver sleeps 5
    seconds between two calls and never after the last one.  The ledger
    file and the environment are left alone. *)
Theorem generate_single_any_client {G : Type}
    (generate_image : string -> string -> G * World -> GenOutcome * (G * World))
    (prompt_data : WorkItem) (output_dir : string) (max_retries : Z) (s : G * World) :
  exists st s' n,
    generate_single generate_image prompt_data output_dir max_retries s = (Ok st, s')
    /\ gs_filename st = filename prompt_data
    /\ written_status (status st)
    /\ (Nat.min 1 (Z.to_nat max_retries) <= n <= Z.to_nat max_retries)%nat
    /\ generation_calls (snd s') = (generation_calls (snd s) + n)%nat
    /\ backoffs (snd s') = (backoffs (snd s) + (n - 1))%nat
    /\ ledger_file (snd s') = ledger_file (snd s)
    /\ ledger_writes (snd s') = ledger_writes (snd s)
    /\ env_api_key (snd s') = env_api_key (snd s).
Proof. apply generate_single_total. Qed.

(** X2.  With a client that raises on every call and [max_retries >= 1],
    [generate_single] calls the client exactly [max_retries] times, whatever
    the text of the exceptions, with a 5-second pause before each call but
    the first, and returns status [exception].  The error text is the text
    of the exception raised by the last call, cut to its first 200
    characters; the time is the time at which that call ended. *)
Theorem generate_single_raising_client {G : Type}
    (generate_image : string -> string -> G * World -> GenOutcome * (G * World))
    (prompt_data : WorkItem) (output_dir : string) (max_retries : Z) (s : G * World) :
  1 <= max_retries ->
  always_raising generate_image ->
  let prompt := build_carousel_prompt prompt_data in
  let path := output_path_of output_dir prompt_data in
  let s_last :=
    retried generate_image prompt path (Z.to_nat (max_retries - 1))
      (announced prompt_data s) in
  let out := generate_image prompt path s_last in
  let run := generate_single generate_image prompt_data output_dir max_retries s in
  exists msg,
    fst out = Raised msg
    /\ fst run
       = Ok {| status := "exception"; gs_filename := filename prompt_data; url := None;
               error := Some (Str.take 200 msg); generated_at := None;
               attempted_at := Some (clock (snd (snd out))) |}
    /\ prefix_of_length 200 msg (Str.take 200 msg)
    /\ generation_calls (snd (snd run))
       = (generation_calls (snd s) + Z.to_nat max_retries)%nat
    /\ backoffs (snd (snd run)) = (backoffs (snd s) + (Z.to_nat max_retries - 1))%nat
    /\ clock (snd (snd run)) = clock (snd (snd out)).
Proof.
  intros Hm Hraise.
  assert (Hall : forall prompt path s1,
             retriable (fst (generate_image prompt path s1)) = true).
  { intros prompt path s1. destruct (Hraise prompt path s1) as (msg & s2 & ->).
    reflexivity. }
  pose proof (generate_single_exhausted generate_image prompt_data output_dir max_retries s
                Hm Hall) as Hrun.
  cbv zeta in Hrun |- *. destruct Hrun as (Hrun & Hg & Hb & Hc).
  destruct (Hraise (build_carousel_prompt prompt_data)
              (output_path_of output_dir prompt_data)
              (retried generate_image (build_carousel_prompt prompt_data)
                 (output_path_of output_dir prompt_data) (Z.to_nat (max_retries - 1))
                 (announced prompt_data s)))
    as (msg & s1 & Hcall).
  rewrite Hcall in Hrun |- *. cbn [fst snd outcome_text failure_status] in Hrun |- *.
  exists msg. split; [reflexivity|]. split; [exact Hrun|]. split; [apply take_spec|].
  split; [exact Hg|]. split; [exact Hb|]. rewrite Hc, Hcall. reflexivity.
Qed.

Lemma generate_single_raising_client_witness :
  let generate_image := Cases.connection_reset in
  let prompt_data := Scenario.item1 in
  let s := (tt, Scenario.world0) in
  let prompt := build_carousel_prompt prompt_data in
  let path := output_path_of OUTPUT_DIR prompt_data in
  let s_last := retried generate_image prompt path (Z.to_nat (2 - 1)) (announced prompt_data s) in
  let out := generate_image prompt path s_last in
  let run := generate_single generate_image prompt_data OUTPUT_DIR 2 s in
  always_raising Cases.connection_reset
  /\ exists msg,
       fst out = Raised msg
       /\ fst run
          = Ok {| status := "exception"; gs_filename := filename prompt_data; url := None;
                  error := Some (Str.take 200 msg); generated_at := None;
                  attempted_at := Some (clock (snd (snd out))) |}
       /\ prefix_of_length 200 msg (Str.take 200 msg)
       /\ generation_calls (snd (snd run)) = (generation_calls (snd s) + Z.to_nat 2)%nat
       /\ backoffs (snd (snd run)) = (backoffs (snd s) + (Z.to_nat 2 - 1))%nat
       /\ clock (snd (snd run)) = clock (snd (snd out)).
Proof.
  assert (Hr : always_raising Cases.connection_reset).
  { intros prompt path s. eexists _, _. reflexivity. }
  cbv zeta. split; [exact Hr|].
  apply (generate_single_raising_client Cases.connection_reset Scenario.item1 OUTPUT_DIR 2
           (tt, Scenario.world0)).
  - lia.
  - exact Hr.
Defined.

(** The record of that run. *)
Example connection_reset_record :
  fst (generate_single Cases.connection_reset Scenario.item1 OUTPUT_DIR 2
         (tt, Scenario.world0))
  = Ok (status_error "exception" (filename Scenario.item1) "Connection reset by peer" 5).
Proof. reflexivity. Qed.

(** X3.  With [max_retries <= 0] the client is not called at all: the item
    is announced and the result is status [failed] with the error text
    "Max retries". *)
Theorem generate_single_no_attempt {G : Type}
    (generate_image : string -> string -> G * World -> GenOutcome * (G * World))
    (prompt_data : WorkItem) (output_dir : string) (max_retries : Z) (s : G * World) :
  max_retries <= 0 ->
  generate_single generate_image prompt_data output_dir max_retries s
  = (Ok {| status := "failed"; gs_filename := filename prompt_data; url := None;
           error := Some "Max retries"; generated_at := None;
           attempted_at := Some (clock (snd s)) |},
     (fst s, log (EvPrint (MsgItem (id prompt_data)
                             (Str.take 15 (style_name prompt_data))
                             (Str.take 20 (pack_name prompt_data))
                             (Str.take 15 (industry_name prompt_data)))) (snd s))).
Proof.
  intros Hm. unfold generate_single. rewrite (range1_nil max_retries Hm).
  reflexivity.
Qed.

Lemma generate_single_no_attempt_witness :
  0 <= 0
  /\ fst (generate_single Scenario.stub Scenario.item1 OUTPUT_DIR 0 ([], Scenario.world0))
     = Ok (status_error "failed" (filename Scenario.item1) "Max retries" 0)
  /\ generation_calls
       (snd (snd (generate_single Scenario.stub Scenario.item1 OUTPUT_DIR 0
                    ([], Scenario.world0)))) = 0%nat.
Proof.
  split; [lia|].
  rewrite (generate_single_no_attempt Scenario.stub Scenario.item1 OUTPUT_DIR 0
             ([], Scenario.world0)) by lia.
  split; reflexivity.
Defined.

(** ** Selection and report *)

Lemma select_batch_mode (args : Args) (data : Ledger) :
  select_batch args data
  = slice_to (arg_batch args) (select (mode_filter args) (prompts data)).
Proof.
  unfold select_batch, mode_filter, get_pending, get_failed.
  destruct (arg_resume args); [reflexivity|].
  destruct (arg_retry_failed args); reflexivity.
Qed.

Lemma select_from_lookup (f : WorkItem -> bool) (ps pre : list WorkItem) :
  Forall (fun r => exists p, (pre ++ ps)%list !! r = Some p /\ f p = true)
    (select_from (length pre) f ps).
Proof.
  revert pre. induction ps as [|p ps IH]; intros pre; [constructor|].
  assert (Hnext : Forall (fun r => exists q, (pre ++ p :: ps)%list !! r = Some q /\ f q = true)
                    (select_from (S (length pre)) f ps)).
  { specialize (IH (pre ++ [p])%list).
    rewrite length_app, Nat.add_1_r, <- app_assoc in IH. exact IH. }
  cbn [select_from]. destruct (f p) eqn:Hp; [|exact Hnext].
  constructor; [|exact Hnext].
  exists p. split; [|exact Hp]. now apply list_lookup_middle.
Qed.

Lemma select_lookup (f : WorkItem -> bool) (ps : list WorkItem) (r : nat) :
  In r (select f ps) -> exists p, ps !! r = Some p /\ f p = true.
Proof.
  intros Hin. pose proof (select_from_lookup f ps []) as Hall.
  rewrite List.Forall_forall in Hall. exact (Hall r Hin).
Qed.

Lemma slice_to_incl {A : Type} (n : Z) (l : list A) (x : A) :
  In x (slice_to n l) -> In x l.
Proof.
  unfold slice_to. destruct (0 <=? n); intros Hin.
  - rewrite <- (firstn_skipn (Z.to_nat n) l). apply in_or_app. now left.
  - rewrite <- (firstn_skipn (length l - Z.to_nat (- n)) l). apply in_or_app. now left.
Qed.

Lemma omap_take_total {A B : Type} (f : A -> option B) (l : list A) (n : nat) :
  Forall (fun x => is_Some (f x)) l ->
  omap f (take n l) = take n (omap f l).
Proof.
  intros Hall. revert n. induction Hall as [|x l [y Hy] _ IH]; intros n.
  - destruct n; reflexivity.
  - destruct n as [|n]; [reflexivity|].
    cbn [take omap list_omap]. rewrite Hy. cbn [take]. f_equal. apply IH.
Qed.

Lemma select_total (f : WorkItem -> bool) (d : Ledger) :
  Forall (fun r => is_Some (prompts d !! r)) (select f (prompts d)).
Proof.
  apply List.Forall_forall. intros r Hin.
  destruct (select_lookup f (prompts d) r Hin) as (p & Hp & _). now exists p.
Qed.

(** X4.  Whatever the mode, [main] selects the first [--batch] items of the
    ledger that pass the test of the mode ([--resume]: status other than
    success; [--retry-failed]: status failed or exception; otherwise: id at
    least [--start]), in ledger order; with a batch size [n >= 0] these are
    at most [n] items.  A negative batch size cuts the last [-n] matching
    items off instead. *)
Theorem select_batch_first_matching (args : Args) (data : Ledger) :
  deref data (select_batch args data)
  = slice_to (arg_batch args) (List.filter (mode_filter args) (prompts data))
  /\ length (deref data (select_batch args data)) = length (select_batch args data)
  /\ (if 0 <=? arg_batch args
      then deref data (select_batch args data)
           = take (Z.to_nat (arg_batch args)) (List.filter (mode_filter args) (prompts data))
           /\ (length (select_batch args data) <= Z.to_nat (arg_batch args))%nat
      else deref data (select_batch args data)
           = take (length (List.filter (mode_filter args) (prompts data))
                   - Z.to_nat (- arg_batch args))
               (List.filter (mode_filter args) (prompts data))).
Proof.
  rewrite select_batch_mode.
  assert (Hlen : length (select (mode_filter args) (prompts data))
                 = length (List.filter (mode_filter args) (prompts data)))
    by apply select_from_length.
  assert (Heq : deref data (slice_to (arg_batch args) (select (mode_filter args) (prompts data)))
                = slice_to (arg_batch args) (List.filter (mode_filter args) (prompts data))).
  { unfold slice_to, deref. rewrite Hlen.
    destruct (0 <=? arg_batch args);
      (rewrite omap_take_total by apply select_total; f_equal; apply deref_select). }
  split; [exact Heq|]. split.
  - rewrite Heq. unfold slice_to. rewrite Hlen.
    destruct (0 <=? arg_batch args); rewrite !length_take, Hlen; reflexivity.
  - rewrite Heq. unfold slice_to. rewrite Hlen.
    destruct (0 <=? arg_batch args); [|reflexivity].
    split; [reflexivity|]. rewrite length_take. lia.
Qed.

Lemma filter_length_mono {A : Type} (f g : A -> bool) (l : list A) :
  (forall x, f x = true -> g x = true) ->
  (length (List.filter f l) <= length (List.filter g l))%nat.
Proof.
  intros Himp. induction l as [|x l IH]; [reflexivity|].
  cbn [List.filter]. destruct (f x) eqn:Hf.
  - rewrite (Himp x Hf). cbn [length]. lia.
  - destruct (g x); cbn [length]; lia.
Qed.

Lemma filter_length_split {A : Type} (f : A -> bool) (l : list A) :
  (length (List.filter f l) + length (List.filter (fun x => negb (f x)) l))%nat = length l.
Proof.
  induction l as [|x l IH]; [reflexivity|].
  cbn [List.filter]. destruct (f x); cbn [negb length]; lia.
Qed.

Lemma failed_not_success (p : WorkItem) :
  status_failed p = true -> negb (status_is "success" p) = true.
Proof.
  unfold status_failed, status_is. destruct (item_status p) as [t|]; [|discriminate].
  intros Hf. apply negb_true_iff.
  destruct (String.eqb_spec t "success") as [->|]; [discriminate Hf|reflexivity].
Qed.

(** X5.  The numbers of the status report add up: the pending count it
    prints, [total - success - failed], is never negative, and the items
    [--resume] would take up are the failed ones and those pending ones
    together, while [--retry-failed] would take up the failed ones. *)
Theorem report_counts_add_up (d : Ledger) :
  let total := Z.of_nat (length (prompts d)) in
  let n_success := count (status_is "success") (prompts d) in
  let n_failed := count status_failed (prompts d) in
  0 <= n_success /\ 0 <= n_failed /\ 0 <= total - n_success - n_failed
  /\ Z.of_nat (length (get_pending d)) = n_failed + (total - n_success - n_failed)
  /\ Z.of_nat (length (get_failed d)) = n_failed.
Proof.
  cbv zeta. unfold get_pending, get_failed, select, count.
  rewrite !select_from_length.
  pose proof (filter_length_split (status_is "success") (prompts d)) as Hsplit.
  pose proof (filter_length_mono status_failed (fun p => negb (status_is "success" p))
                (prompts d) failed_not_success) as Hmono.
  lia.
Qed.

(** ** The loop over the selected items *)

Lemma write_chunks_frame (cs : list Chunk) (w : World) :
  trace (write_chunks cs w) = trace w
  /\ env_api_key (write_chunks cs w) = env_api_key w
  /\ clock (write_chunks cs w) = clock w
  /\ images (write_chunks cs w) = images w.
Proof.
  revert w. induction cs as [|c cs IH]; intros w; [repeat split|].
  cbn [write_chunks fold_left]. fold (write_chunks cs (write_chunk w c)).
  destruct (IH (write_chunk w c)) as (Ht & He & Hc & Hi).
  rewrite Ht, He, Hc, Hi. repeat split.
Qed.

Lemma saved_world (d : Ledger) (w : World) :
  let w' := write_chunks (json_dump d) (open_write w) in
  ledger_file w' = Some (json_dump d)
  /\ env_api_key w' = env_api_key w
  /\ generation_calls w' = generation_calls w
  /\ ledger_writes w' = S (ledger_writes w).
Proof.
  cbv zeta. destruct (write_chunks_frame (json_dump d) (open_write w)) as (Ht & He & _ & _).
  split; [now rewrite (write_chunks_file _ [])|]. split; [now rewrite He|].
  unfold generation_calls, ledger_writes. rewrite Ht. unfold open_write.
  split; counters.
Qed.

Lemma descriptor_insert (l : list WorkItem) (r : nat) (p : WorkItem) (st : GenerationStatus) :
  l !! r = Some p ->
  map descriptor (<[r := set_generation_status st p]> l) = map descriptor l.
Proof.
  intros Hr. change (map descriptor) with (fmap (M := list) descriptor).
  rewrite list_fmap_insert. apply list_insert_id.
  rewrite list_lookup_fmap, Hr. reflexivity.
Qed.

Lemma left_as_trans (p q q' : WorkItem) :
  left_as p q -> left_as q q' -> left_as p q'.
Proof.
  intros [->|(st & -> & Hst & Hf)] [->|(st' & -> & Hst' & Hf')].
  - now left.
  - right. now exists st'.
  - right. now exists st.
  - right. exists st'. repeat split; assumption.
Qed.

Lemma to_nanoseconds_range (d : Q) :
  (0 <= d <= 9000000000)%Q -> 0 <= to_nanoseconds d <= 9000000000000000000.
Proof.
  intros [Hlo Hhi]. unfold to_nanoseconds.
  replace (Qle_bool 0 d) with true by (symmetry; now apply Qle_bool_iff).
  split.
  - change 0 with (Qceiling 0). apply Qceiling_resp_le.
    apply Qmult_le_0_compat; [exact Hlo|discriminate].
  - change 9000000000000000000 with (Qceiling (9000000000 * 1000000000)).
    apply Qceiling_resp_le. apply Qmult_le_compat_r; [exact Hhi|discriminate].
Qed.

(** A sleep of at most 9 000 000 000 seconds is carried out. *)
Lemma sleep_accepted (d : Q) (w : World) :
  (0 <= d <= 9000000000)%Q ->
  sleep (Finite d) w = (Ok tt, log (EvSleep d) (set_clock (clock w + d)%Q w)).
Proof.
  intros Hd. pose proof (to_nanoseconds_range d Hd) as [Hlo Hhi].
  assert (HM : PyTime_MAX = 9223372036854775807) by reflexivity.
  unfold sleep. cbv zeta.
  destruct (Z.ltb_spec (to_nanoseconds d) (- PyTime_MAX - 1)) as [H1|_];
    [rewrite HM in H1; lia|].
  destruct (Z.ltb_spec PyTime_MAX (to_nanoseconds d)) as [H2|_];
    [rewrite HM in H2; lia|].
  destruct (Z.ltb_spec (to_nanoseconds d) 0) as [H3|_]; [lia|].
  reflexivity.
Qed.

(** [time.sleep] either moves the clock or raises and changes nothing. *)
Lemma sleep_result (d : PyFloat) (w : World) :
  (exists q, d = Finite q
             /\ sleep d w = (Ok tt, log (EvSleep q) (set_clock (clock w + q)%Q w)))
  \/ (exists e, sleep d w = (Raise e, w)).
Proof.
  unfold sleep. destruct d as [q| | |]; try (right; eexists; reflexivity).
  cbv zeta.
  destruct ((to_nanoseconds q <? - PyTime_MAX - 1) || (PyTime_MAX <? to_nanoseconds q));
    [right; eexists; reflexivity|].
  destruct (to_nanoseconds q <? 0); [right; eexists; reflexivity|].
  left. exists q. split; reflexivity.
Qed.

Section Items.
Context {G : Type}.
Variable generate_image : string -> string -> G * World -> GenOutcome * (G * World).
Variable args : Args.
Variable n : nat.
Variable delay : Q.
Hypothesis Hdelay : arg_delay args = Finite delay.
Hypothesis Hrange : (0 <= delay <= 9000000000)%Q.

Lemma process_items_inv (to_process : list nat) :
  forall (i : nat) (data : Ledger) (s : G * World),
  exists data' s',
    process_items generate_image args n i to_process data s = (Ok data', s')
    /\ map descriptor (prompts data') = map descriptor (prompts data)
    /\ same_header data data'
    /\ (forall k, ~ In k to_process -> prompts data' !! k = prompts data !! k)
    /\ (arg_retry_failed args = false ->
        forall k p, prompts data !! k = Some p -> status_is "success" p = true ->
                    prompts data' !! k = Some p)
    /\ (forall k p, prompts data !! k = Some p ->
                    exists p', prompts data' !! k = Some p' /\ left_as p p')
    /\ env_api_key (snd s') = env_api_key (snd s)
    /\ (generation_calls (snd s') <= generation_calls (snd s) + 2 * length to_process)%nat
    /\ ((data' = data /\ ledger_file (snd s') = ledger_file (snd s)
         /\ ledger_writes (snd s') = ledger_writes (snd s))
        \/ (ledger_file (snd s') = Some (json_dump data')
            /\ (ledger_writes (snd s) < ledger_writes (snd s'))%nat)).
Proof.
  induction to_process as [|r rest IH]; intros i data s.
  - exists data, s. split; [reflexivity|].
    split; [reflexivity|]. split; [repeat split|]. split; [reflexivity|].
    split; [auto|]. split; [intros k p Hk; exists p; split; [exact Hk|now left]|].
    split; [reflexivity|]. split; [lia|]. left. repeat split.
  - cbn [process_items].
    assert (Hskip : forall data0 s0,
               data0 = data -> s0 = s ->
               exists data' s',
                 process_items generate_image args n (S i) rest data0 s0 = (Ok data', s')
                 /\ map descriptor (prompts data') = map descriptor (prompts data)
                 /\ same_header data data'
                 /\ (forall k, ~ In k (r :: rest) -> prompts data' !! k = prompts data !! k)
                 /\ (arg_retry_failed args = false ->
                     forall k p, prompts data !! k = Some p -> status_is "success" p = true ->
                                 prompts data' !! k = Some p)
                 /\ (forall k p, prompts data !! k = Some p ->
                                 exists p', prompts data' !! k = Some p' /\ left_as p p')
                 /\ env_api_key (snd s') = env_api_key (snd s)
                 /\ (generation_calls (snd s') <= generation_calls (snd s) + 2 * length (r :: rest))%nat
                 /\ ((data' = data /\ ledger_file (snd s') = ledger_file (snd s)
                      /\ ledger_writes (snd s') = ledger_writes (snd s))
                     \/ (ledger_file (snd s') = Some (json_dump data')
                         /\ (ledger_writes (snd s) < ledger_writes (snd s'))%nat))).
    { intros data0 s0 -> ->.
      destruct (IH (S i) data s) as (data' & s' & Hrun & Hd & Hh & Hfr & Hsu & Hla & He & Hg & Hfile).
      exists data', s'. split; [exact Hrun|]. split; [exact Hd|]. split; [exact Hh|].
      split; [intros k Hk; apply Hfr; intros Hin; apply Hk; now right|].
      split; [exact Hsu|]. split; [exact Hla|]. split; [exact He|].
      split; [cbn [length]; lia|exact Hfile]. }
    destruct (prompts data !! r) as [p|] eqn:Hr; [|now apply Hskip].
    destruct (negb (arg_retry_failed args) && status_is "success" p) eqn:Hsk;
      [now apply Hskip|].
    clear Hskip.
    destruct (generate_single_total generate_image p OUTPUT_DIR 2 s)
      as (st & s1 & n0 & Hgs & Hf & Hst & Hn & Hg1 & _ & Hl1 & Hw1 & He1).
    unfold bind at 1. rewrite Hgs.
    set (data1 := with_prompts data (<[r := set_generation_status st p]> (prompts data))).
    unfold bind at 1. unfold lift at 1, save_prompts, modify. cbn [fst snd].
    destruct (saved_world data1 (snd s1)) as (Hl2 & He2 & Hg2 & Hw2).
    set (w2 := write_chunks (json_dump data1) (open_write (snd s1))) in *.
    assert (Hsleep : exists w3,
               (if Z.of_nat i <? Z.of_nat n - 1
                then lift (sleep (arg_delay args)) else ret tt) (fst s1, w2)
               = (Ok tt, (fst s1, w3))
               /\ ledger_file w3 = Some (json_dump data1)
               /\ env_api_key w3 = env_api_key (snd s)
               /\ generation_calls w3 = (generation_calls (snd s) + n0)%nat
               /\ ledger_writes w3 = S (ledger_writes (snd s))).
    { destruct (Z.of_nat i <? Z.of_nat n - 1).
      - unfold lift. rewrite Hdelay, (sleep_accepted delay _ Hrange). cbn [fst snd].
        eexists. split; [reflexivity|].
        unfold generation_calls, ledger_writes in *. cbn [ledger_file env_api_key trace log set_clock].
        rewrite !List.filter_app, !length_app. cbn [List.filter is_generate is_write length].
        repeat split; try congruence; lia.
      - exists w2. split; [reflexivity|]. repeat split; congruence. }
    destruct Hsleep as (w3 & Hsl & Hl3 & He3 & Hg3 & Hw3).
    unfold bind at 1. rewrite Hsl.
    destruct (IH (S i) data1 (fst s1, w3))
      as (data' & s' & Hrun & Hd & Hh & Hfr & Hsu & Hla & He & Hg & Hfile).
    cbn [snd] in He, Hg, Hfile.
    assert (Hrlt : (r < length (prompts data))%nat) by (eapply lookup_lt_Some; exact Hr).
    exists data', s'. split; [exact Hrun|].
    split.
    { rewrite Hd. unfold data1. cbn [prompts with_prompts]. now apply descriptor_insert. }
    split.
    { destruct Hh as (Hv & Hds & Ht). unfold data1 in Hv, Hds, Ht.
      cbn [version description total_prompts with_prompts] in Hv, Hds, Ht.
      repeat split; assumption. }
    split.
    { intros k Hk. rewrite Hfr by (intros Hin; apply Hk; now right).
      unfold data1. cbn [prompts with_prompts].
      apply list_lookup_insert_ne. intros ->. apply Hk. now left. }
    split.
    { intros Hrf k q Hq Hsucc. apply (Hsu Hrf); [|exact Hsucc].
      unfold data1. cbn [prompts with_prompts].
      rewrite list_lookup_insert_ne; [exact Hq|].
      intros ->. rewrite Hr in Hq. injection Hq as ->.
      rewrite Hrf, Hsucc in Hsk. discriminate Hsk. }
    split.
    { intros k q Hq. destruct (Nat.eq_dec r k) as [->|Hne].
      - rewrite Hr in Hq. injection Hq as ->.
        destruct (Hla k (set_generation_status st q)) as (p' & Hp' & Hleft).
        { unfold data1. cbn [prompts with_prompts]. now apply list_lookup_insert_eq. }
        exists p'. split; [exact Hp'|].
        apply (left_as_trans q (set_generation_status st q)); [|exact Hleft].
        right. exists st. repeat split; assumption.
      - apply Hla. unfold data1. cbn [prompts with_prompts].
        now rewrite list_lookup_insert_ne. }
    split; [congruence|].
    split; [cbn [length]; lia|].
    right. destruct Hfile as [(-> & Hfl & Hwr)|(Hfl & Hwr)].
    + split; [congruence|lia].
    + split; [exact Hfl|lia].
Qed.

End Items.

(** ** Whole runs, any client *)

Lemma select_batch_lookup (args : Args) (data : Ledger) (r : nat) :
  In r (select_batch args data) ->
  exists p, prompts data !! r = Some p /\ mode_filter args p = true.
Proof.
  rewrite select_batch_mode. intros Hin. apply slice_to_incl in Hin.
  now apply select_lookup.
Qed.

Lemma success_not_selected (args : Args) (data : Ledger) (k : nat) (p : WorkItem) :
  arg_retry_failed args = true ->
  prompts data !! k = Some p -> status_is "success" p = true ->
  ~ In k (select_batch args data).
Proof.
  intros Hrf Hk Hsucc Hin.
  destruct (select_batch_lookup args data k Hin) as (q & Hq & Hmode).
  rewrite Hk in Hq. injection Hq as <-.
  unfold mode_filter in Hmode. rewrite Hrf in Hmode.
  destruct (arg_resume args).
  - rewrite Hsucc in Hmode. discriminate.
  - apply failed_not_success in Hmode. rewrite Hsucc in Hmode. discriminate.
Qed.

Lemma main_run {G : Type}
    (generate_image : string -> string -> G * World -> GenOutcome * (G * World))
    (new_client : string -> G) (args : Args) (w : World)
    (cs : list Chunk) (data : Ledger) (key : string) :
  env_api_key w = Some key -> key <> "" ->
  ledger_file w = Some cs -> json_load cs = Some data ->
  arg_status args = false ->
  select_batch args data <> [] ->
  forall delay : Q,
  arg_delay args = Finite delay -> (0 <= delay <= 9000000000)%Q ->
  exists data' w' cs' tr,
    main generate_image new_client args w = (Ok tt, w')
    /\ ledger_file w' = Some cs' /\ json_load cs' = Some data'
    /\ trace w' = (tr ++ [status_report data'])%list
    /\ (generation_calls w' <= generation_calls w + 2 * length (select_batch args data))%nat
    /\ map descriptor (prompts data') = map descriptor (prompts data)
    /\ same_header data data'
    /\ (forall k, ~ In k (select_batch args data) -> prompts data' !! k = prompts data !! k)
    /\ (forall k p, prompts data !! k = Some p -> status_is "success" p = true ->
                    prompts data' !! k = Some p)
    /\ (forall k p, prompts data !! k = Some p ->
                    exists p', prompts data' !! k = Some p' /\ left_as p p').
Proof.
  intros Hkey Hne Hf Hl Hst Hsel delay Hdelay Hrange. unfold main. unfold bind at 1.
  rewrite (load_prompts_ok w cs data Hf Hl), Hst.
  rewrite bool_decide_eq_false_2 by exact Hsel.
  unfold bind at 1. cbn [emit modify]. unfold bind at 1.
  unfold NanoBananaProGenerator, bind at 1, gets. cbn [log env_api_key]. rewrite Hkey.
  replace (String.eqb key "") with false by (symmetry; now apply String.eqb_neq).
  unfold bind at 1. cbn [emit modify ret]. unfold bind at 1. cbn [print emit modify].
  unfold bind at 1, with_client.
  set (w0 := log (EvPrint (MsgBanner (length (select_batch args data))))
               (log EvNewGenerator (log EvMkdir (log EvLoad w)))).
  destruct (process_items_inv generate_image args (length (select_batch args data))
              delay Hdelay Hrange
              (select_batch args data) 0%nat data (new_client key, w0))
    as (data' & s' & Hrun & Hd & Hh & Hfr & Hsu & Hla & He & Hg & Hfile).
  rewrite Hrun. cbn [snd] in *.
  assert (Hnonempty : prompts data' <> []).
  { intros Hnil. apply (f_equal (@length _)) in Hd. rewrite !length_map, Hnil in Hd.
    destruct (select_batch args data) as [|r rest] eqn:Hsb; [now apply Hsel|].
    destruct (select_batch_lookup args data r) as (p & Hp & _); [rewrite Hsb; now left|].
    apply lookup_lt_Some in Hp. cbn [length] in Hd. lia. }
  rewrite print_status_spec. rewrite bool_decide_eq_false_2 by exact Hnonempty.
  assert (Hfile' : exists cs', ledger_file (snd s') = Some cs' /\ json_load cs' = Some data').
  { destruct Hfile as [(-> & Hfl & _)|(Hfl & _)].
    - exists cs. split; [rewrite Hfl; exact Hf|exact Hl].
    - exists (json_dump data'). split; [exact Hfl|apply json_load_dump]. }
  destruct Hfile' as (cs' & Hcs' & Hload').
  exists data', (log (status_report data') (snd s')), cs', (trace (snd s')).
  split; [reflexivity|]. split; [exact Hcs'|]. split; [exact Hload'|].
  split; [reflexivity|].
  split.
  { rewrite generation_calls_log. cbn [status_report is_generate].
    assert (generation_calls w0 = generation_calls w) by (unfold w0; counters). lia. }
  split; [exact Hd|]. split; [exact Hh|]. split; [exact Hfr|].
  split; [|exact Hla].
  intros k p Hk Hsucc. destruct (arg_retry_failed args) eqn:Hrf.
  - rewrite Hfr; [exact Hk|]. now apply (success_not_selected args data k p).
  - now apply (Hsu eq_refl k p).
Qed.

(** X6.  A run that has work to do, a non-empty key, a ledger that loads
    and a [--delay] between 0 and 9 000 000 000 seconds (a number
    [time.sleep] accepts) always ends normally, whatever the client does on
    each call: no failure of an item stops the batch.  At the end the
    ledger file holds the ledger as the run left it, the report printed
    last is the report of that ledger, and the client was called at most
    twice per selected item. *)
Theorem main_completes {G : Type}
    (generate_image : string -> string -> G * World -> GenOutcome * (G * World))
    (new_client : string -> G) (args : Args) (w : World)
    (cs : list Chunk) (data : Ledger) (key : string) :
  env_api_key w = Some key -> key <> "" ->
  ledger_file w = Some cs -> json_load cs = Some data ->
  arg_status args = false ->
  select_batch args data <> [] ->
  forall delay : Q,
  arg_delay args = Finite delay -> (0 <= delay <= 9000000000)%Q ->
  exists data' w' cs' tr,
    main generate_image new_client args w = (Ok tt, w')
    /\ exit_code (fst (main generate_image new_client args w)) = 0
    /\ ledger_file w' = Some cs' /\ json_load cs' = Some data'
    /\ trace w' = (tr ++ [status_report data'])%list
    /\ (generation_calls w' <= generation_calls w + 2 * length (select_batch args data))%nat.
Proof.
  intros Hkey Hne Hf Hl Hst Hsel delay Hdelay Hrange.
  destruct (main_run generate_image new_client args w cs data key
              Hkey Hne Hf Hl Hst Hsel delay Hdelay Hrange)
    as (data' & w' & cs' & tr & Hmain & Hcs & Hload & Htr & Hcalls & _).
  exists data', w', cs', tr. rewrite Hmain. repeat split; assumption.
Qed.

Lemma main_completes_witness :
  env_api_key Scenario.world0 = Some "test-key"
  /\ json_load (json_dump Scenario.ledger) = Some Scenario.ledger
  /\ select_batch default_args Scenario.ledger = [0; 1; 2]%nat
  /\ arg_delay default_args = Finite 2
  /\ exists data' w' cs' tr,
       main Scenario.stub Scenario.new_stub default_args Scenario.world0 = (Ok tt, w')
       /\ exit_code (fst (main Scenario.stub Scenario.new_stub default_args Scenario.world0)) = 0
       /\ ledger_file w' = Some cs' /\ json_load cs' = Some data'
       /\ trace w' = (tr ++ [status_report data'])%list
       /\ (generation_calls w'
           <= generation_calls Scenario.world0
              + 2 * length (select_batch default_args Scenario.ledger))%nat.
Proof.
  split; [reflexivity|]. split; [reflexivity|]. split; [reflexivity|].
  split; [reflexivity|].
  apply (main_completes Scenario.stub Scenario.new_stub default_args Scenario.world0
           (json_dump Scenario.ledger) Scenario.ledger "test-key"
           eq_refl ltac:(discriminate) eq_refl eq_refl eq_refl ltac:(discriminate)
           2%Q eq_refl).
  split; discriminate.
Defined.

(** X7.  What a run with work to do, a non-empty key, a ledger that loads
    and a [--delay] between 0 and 9 000 000 000 seconds may change in the
    ledger.  The header and the
    descriptor of every item (id, style, pack, industry, hook, file name)
    stay as they were, and so does the number of items; an item outside the
    selection is untouched; an item recorded as success is untouched in
    every mode; any other item is either untouched or gets a fresh status
    record with status success, failed or exception and its own file
    name. *)
Theorem main_changes_statuses_only {G : Type}
    (generate_image : string -> string -> G * World -> GenOutcome * (G * World))
    (new_client : string -> G) (args : Args) (w : World)
    (cs : list Chunk) (data : Ledger) (key : string) :
  env_api_key w = Some key -> key <> "" ->
  ledger_file w = Some cs -> json_load cs = Some data ->
  arg_status args = false ->
  select_batch args data <> [] ->
  forall delay : Q,
  arg_delay args = Finite delay -> (0 <= delay <= 9000000000)%Q ->
  exists data' w' cs',
    main generate_image new_client args w = (Ok tt, w')
    /\ ledger_file w' = Some cs' /\ json_load cs' = Some data'
    /\ map descriptor (prompts data') = map descriptor (prompts data)
    /\ length (prompts data') = length (prompts data)
    /\ same_header data data'
    /\ (forall k, ~ In k (select_batch args data) -> prompts data' !! k = prompts data !! k)
    /\ (forall k p, prompts data !! k = Some p -> status_is "success" p = true ->
                    prompts data' !! k = Some p)
    /\ (forall k p, prompts data !! k = Some p ->
                    exists p', prompts data' !! k = Some p' /\ left_as p p').
Proof.
  intros Hkey Hne Hf Hl Hst Hsel delay Hdelay Hrange.
  destruct (main_run generate_image new_client args w cs data key
              Hkey Hne Hf Hl Hst Hsel delay Hdelay Hrange)
    as (data' & w' & cs' & tr & Hmain & Hcs & Hload & _ & _ & Hd & Hh & Hfr & Hsu & Hla).
  exists data', w', cs'. repeat split; try assumption; try apply Hh.
  apply (f_equal (@length _)) in Hd. now rewrite !length_map in Hd.
Qed.

Lemma main_changes_statuses_only_witness :
  env_api_key Scenario.world0 = Some "test-key"
  /\ json_load (json_dump Scenario.ledger_after_item1) = Some Scenario.ledger_after_item1
  /\ select_batch Cases.resume_args Scenario.ledger_after_item1 = [1; 2]%nat
  /\ arg_delay Cases.resume_args = Finite 2
  /\ exists data' w' cs',
       main Scenario.stub Scenario.new_stub Cases.resume_args Cases.world_item1_done
       = (Ok tt, w')
       /\ ledger_file w' = Some cs' /\ json_load cs' = Some data'
       /\ map descriptor (prompts data') = map descriptor (prompts Scenario.ledger_after_item1)
       /\ length (prompts data') = length (prompts Scenario.ledger_after_item1)
       /\ same_header Scenario.ledger_after_item1 data'
       /\ (forall k, ~ In k (select_batch Cases.resume_args Scenario.ledger_after_item1) ->
                     prompts data' !! k = prompts Scenario.ledger_after_item1 !! k)
       /\ (forall k p, prompts Scenario.ledger_after_item1 !! k = Some p ->
                       status_is "success" p = true -> prompts data' !! k = Some p)
       /\ (forall k p, prompts Scenario.ledger_after_item1 !! k = Some p ->
                       exists p', prompts data' !! k = Some p' /\ left_as p p').
Proof.
  split; [reflexivity|]. split; [reflexivity|]. split; [reflexivity|].
  split; [reflexivity|].
  apply (main_changes_statuses_only Scenario.stub Scenario.new_stub Cases.resume_args
           Cases.world_item1_done (json_dump Scenario.ledger_after_item1)
           Scenario.ledger_after_item1 "test-key"
           eq_refl ltac:(discriminate) eq_refl eq_refl eq_refl ltac:(discriminate)
           2%Q eq_refl).
  split; discriminate.
Defined.

(** [time.sleep] refuses an infinite length, NaN, a negative length and a
    length of 10^10 seconds or more, whatever the world. *)
Lemma sleep_refused (d : PyFloat) (w : World) :
  match d with
  | Finite q => (q < 0)%Q \/ (10000000000 <= q)%Q
  | _ => True
  end ->
  exists e, sleep d w = (Raise e, w).
Proof.
  destruct (sleep_result d w) as [(q & -> & Hs)|He]; [|intros _; exact He].
  intros [Hneg|Hbig]; exfalso.
  - unfold sleep in Hs. cbv zeta in Hs.
    assert (Hns : to_nanoseconds q < 0).
    { unfold to_nanoseconds.
      replace (Qle_bool 0 q) with false
        by (symmetry; apply not_true_is_false; rewrite Qle_bool_iff;
            now apply Qlt_not_le).
      assert (Hx : (q * 1000000000 < 0)%Q).
      { change 0%Q with (0 * 1000000000)%Q. apply Qmult_lt_r; [reflexivity|exact Hneg]. }
      destruct (Z_lt_ge_dec (Qfloor (q * 1000000000)) 0) as [Hlt|Hge]; [exact Hlt|].
      exfalso. apply (Qlt_not_le _ _ Hx).
      eapply Qle_trans; [|apply Qfloor_le].
      change 0%Q with (inject_Z 0). rewrite <- Zle_Qle. lia. }
    destruct ((to_nanoseconds q <? - PyTime_MAX - 1) || (PyTime_MAX <? to_nanoseconds q));
      [discriminate Hs|].
    replace (to_nanoseconds q <? 0) with true in Hs by (symmetry; now apply Z.ltb_lt).
    discriminate Hs.
  - unfold sleep in Hs. cbv zeta in Hs.
    assert (Hns : 10000000000000000000 <= to_nanoseconds q).
    { unfold to_nanoseconds.
      replace (Qle_bool 0 q) with true
        by (symmetry; apply Qle_bool_iff; eapply Qle_trans; [|exact Hbig]; discriminate).
      change 10000000000000000000 with (Qceiling (10000000000 * 1000000000)).
      apply Qceiling_resp_le. apply Qmult_le_compat_r; [exact Hbig|discriminate]. }
    replace (PyTime_MAX <? to_nanoseconds q) with true in Hs
      by (symmetry; apply Z.ltb_lt; change PyTime_MAX with 9223372036854775807; lia).
    rewrite orb_true_r in Hs. discriminate Hs.
Qed.

(** With [--delay 1e10] the run stops at its first pause: item 1 has been
    generated and recorded, items 2 and 3 are not reached, and the process
    ends with status 1. *)
Example delay_out_of_range_stops_run :
  let run := main Scenario.stub Scenario.new_stub Cases.long_delay_args Scenario.world0 in
  fst run = Raise (OverflowError "timestamp too large to convert to C _PyTime_t")
  /\ exit_code (fst run) = 1
  /\ Scenario.recorded_statuses (snd run) = Some [Some "success"; None; None]
  /\ generation_calls (snd run) = 1%nat.
Proof. cbv zeta. repeat split; vm_compute; reflexivity. Qed.

(** X8.  With [--status] and a ledger that loads and has items, [main]
    reads the ledger, prints the report and ends normally; it asks for no
    key, makes no directory, calls no client, writes no file and does not
    sleep. *)
Theorem main_status_only {G : Type}
    (generate_image : string -> string -> G * World -> GenOutcome * (G * World))
    (new_client : string -> G) (args : Args) (w : World)
    (cs : list Chunk) (data : Ledger) :
  ledger_file w = Some cs -> json_load cs = Some data ->
  prompts data <> [] ->
  arg_status args = true ->
  main generate_image new_client args w
  = (Ok tt, log (status_report data) (log EvLoad w)).
Proof.
  intros Hf Hl Hne Hst. unfold main, bind.
  rewrite (load_prompts_ok w cs data Hf Hl), Hst.
  rewrite print_status_spec. now rewrite bool_decide_eq_false_2 by exact Hne.
Qed.

Lemma main_status_only_witness :
  json_load (json_dump Scenario.ledger) = Some Scenario.ledger
  /\ env_api_key Scenario.world_no_key = None
  /\ main Scenario.stub Scenario.new_stub Scenario.status_args Scenario.world_no_key
     = (Ok tt, log (status_report Scenario.ledger) (log EvLoad Scenario.world_no_key)).
Proof.
  split; [reflexivity|]. split; [reflexivity|].
  apply (main_status_only Scenario.stub Scenario.new_stub Scenario.status_args
           Scenario.world_no_key (json_dump Scenario.ledger) Scenario.ledger);
    try reflexivity; discriminate.
Defined.

(** X9.  When the ledger file is missing or does not parse, [main] stops
    right after the attempt to read it, in every mode ([--status]
    included), with [FileNotFoundError] or [JSONDecodeError] and exit
    status 1.  In particular a save that was cut short leaves a file on
    which every later run stops this way. *)
Theorem main_unreadable_ledger {G : Type}
    (generate_image : string -> string -> G * World -> GenOutcome * (G * World))
    (new_client : string -> G) (args : Args) (w : World) :
  (ledger_file w = None
   -> main generate_image new_client args w
      = (Raise (FileNotFoundError PROMPTS_FILE), log EvLoad w))
  /\ (forall cs, ledger_file w = Some cs -> json_load cs = None
       -> main generate_image new_client args w = (Raise JSONDecodeError, log EvLoad w))
  /\ (forall (k : nat) (data : Ledger),
        (k < length (json_dump data))%nat
        -> main generate_image new_client args (save_prompts_interrupted k data w)
           = (Raise JSONDecodeError, log EvLoad (save_prompts_interrupted k data w))).
Proof.
  assert (Hbad : forall w0 cs, ledger_file w0 = Some cs -> json_load cs = None ->
                   main generate_image new_client args w0 = (Raise JSONDecodeError, log EvLoad w0)).
  { intros w0 cs Hf Hl. unfold main, bind at 1, load_prompts, bind, emit, modify, gets.
    cbn [log ledger_file]. now rewrite Hf, Hl. }
  split; [|split].
  - intros Hf. unfold main, bind at 1, load_prompts, bind, emit, modify, gets.
    cbn [log ledger_file]. now rewrite Hf.
  - apply Hbad.
  - intros k data Hk. apply (Hbad _ (take k (json_dump data))).
    + unfold save_prompts_interrupted. now rewrite (write_chunks_file _ []).
    + now apply json_load_cut.
Qed.

Lemma main_unreadable_ledger_witness :
  ledger_file Cases.world_no_file = None
  /\ main Scenario.stub Scenario.new_stub default_args Cases.world_no_file
     = (Raise (FileNotFoundError PROMPTS_FILE), log EvLoad Cases.world_no_file)
  /\ (1 < length (json_dump Scenario.ledger))%nat
  /\ main Scenario.stub Scenario.new_stub Scenario.status_args
       (save_prompts_interrupted 1 Scenario.ledger Scenario.world0)
     = (Raise JSONDecodeError,
        log EvLoad (save_prompts_interrupted 1 Scenario.ledger Scenario.world0)).
Proof.
  split; [reflexivity|]. split.
  - apply (proj1 (main_unreadable_ledger Scenario.stub Scenario.new_stub default_args
                    Cases.world_no_file)). reflexivity.
  - split; [cbn; lia|].
    apply (proj2 (proj2 (main_unreadable_ledger Scenario.stub Scenario.new_stub
                           Scenario.status_args Scenario.world0))).
    cbn. lia.
Defined.

Lemma process_items_skip {G : Type}
    (generate_image : string -> string -> G * World -> GenOutcome * (G * World))
    (args : Args) (n : nat) (data : Ledger) :
  arg_retry_failed args = false ->
  Forall (fun p => status_is "success" p = true) (prompts data) ->
  forall (to_process : list nat) (i : nat) (s : G * World),
    process_items generate_image args n i to_process data s = (Ok data, s).
Proof.
  intros Hrf Hall to_process. induction to_process as [|r rest IH]; intros i s.
  - reflexivity.
  - cbn [process_items]. destruct (prompts data !! r) as [p|] eqn:Hr; [|apply IH].
    rewrite List.Forall_forall in Hall.
    rewrite Hrf, (Hall p) by (apply list_elem_of_In, list_elem_of_lookup; eauto).
    cbn [negb andb]. apply IH.
Qed.

(** X10.  On a ledger that loads, has items, and whose items are all
    recorded as success, a run without [--status] calls no client, writes
    no file and does not sleep.  With [--resume] or [--retry-failed] (or
    when no id reaches [--start]) nothing is selected: the run says so,
    prints the report and ends normally, and it asks for no key.  Otherwise
    the run makes the output directory and needs the key: without one (or
    with an empty one) it stops there with a [ValueError]; with one it
    builds the client, skips every selected item, prints the report and
    ends normally. *)
Theorem main_all_success_idle {G : Type}
    (generate_image : string -> string -> G * World -> GenOutcome * (G * World))
    (new_client : string -> G) (args : Args) (w : World)
    (cs : list Chunk) (data : Ledger) :
  ledger_file w = Some cs -> json_load cs = Some data ->
  prompts data <> [] ->
  Forall (fun p => status_is "success" p = true) (prompts data) ->
  arg_status args = false ->
  let run := main generate_image new_client args w in
  (select_batch args data = [] ->
   run = (Ok tt, log (status_report data) (log (EvPrint MsgNothing) (log EvLoad w))))
  /\ (select_batch args data <> [] ->
      match env_api_key w with
      | Some key =>
          if String.eqb key ""
          then exists msg, run = (Raise (ValueError msg), log EvMkdir (log EvLoad w))
          else run = (Ok tt,
                      log (status_report data)
                        (log (EvPrint (MsgBanner (length (select_batch args data))))
                           (log EvNewGenerator (log EvMkdir (log EvLoad w)))))
      | None => exists msg, run = (Raise (ValueError msg), log EvMkdir (log EvLoad w))
      end)
  /\ (arg_resume args || arg_retry_failed args = true -> select_batch args data = [])
  /\ generation_calls (snd run) = generation_calls w
  /\ ledger_writes (snd run) = ledger_writes w
  /\ ledger_file (snd run) = ledger_file w
  /\ Forall (fun e => match e with EvSleep _ => False | _ => True end)
       (drop (length (trace w)) (trace (snd run))).
Proof.
  intros Hf Hl Hitems Hall Hst. cbv zeta.
  assert (Hempty : select_batch args data = [] ->
            main generate_image new_client args w
            = (Ok tt, log (status_report data) (log (EvPrint MsgNothing) (log EvLoad w)))).
  { intros Hsel. unfold main. unfold bind at 1.
    rewrite (load_prompts_ok w cs data Hf Hl), Hst.
    rewrite bool_decide_eq_true_2 by exact Hsel.
    unfold bind at 1. cbn [print emit modify].
    rewrite print_status_spec. now rewrite bool_decide_eq_false_2 by exact Hitems. }
  assert (Hwork : select_batch args data <> [] ->
            match env_api_key w with
            | Some key =>
                if String.eqb key ""
                then exists msg, main generate_image new_client args w
                                 = (Raise (ValueError msg), log EvMkdir (log EvLoad w))
                else main generate_image new_client args w
                     = (Ok tt,
                        log (status_report data)
                          (log (EvPrint (MsgBanner (length (select_batch args data))))
                             (log EvNewGenerator (log EvMkdir (log EvLoad w)))))
            | None => exists msg, main generate_image new_client args w
                                  = (Raise (ValueError msg), log EvMkdir (log EvLoad w))
            end).
  { intros Hsel.
    assert (Hrf : arg_retry_failed args = false).
    { destruct (arg_retry_failed args) eqn:Hrf; [|reflexivity].
      destruct (select_batch args data) as [|r rest] eqn:Hsb; [congruence|].
      destruct (select_batch_lookup args data r) as (p & Hp & _); [rewrite Hsb; now left|].
      exfalso. apply (success_not_selected args data r p Hrf Hp).
      * rewrite List.Forall_forall in Hall. apply Hall.
        apply list_elem_of_In, list_elem_of_lookup. eauto.
      * rewrite Hsb. now left. }
    assert (Hstart : main generate_image new_client args w
                     = bind (NanoBananaProGenerator new_client)
                         (fun generator =>
                            bind (print (MsgBanner (length (select_batch args data))))
                              (fun _ =>
                                 bind (with_client generator
                                         (process_items generate_image args
                                            (length (select_batch args data)) 0
                                            (select_batch args data) data))
                                   print_status))
                         (log EvMkdir (log EvLoad w))).
    { unfold main. unfold bind at 1.
      rewrite (load_prompts_ok w cs data Hf Hl), Hst.
      rewrite bool_decide_eq_false_2 by exact Hsel. reflexivity. }
    destruct (env_api_key w) as [key|] eqn:Hkey; [destruct (String.eqb key "") eqn:Hk|].
    - eexists. rewrite Hstart. unfold bind at 1, NanoBananaProGenerator, bind at 1, gets.
      cbn [log env_api_key]. rewrite Hkey, Hk. reflexivity.
    - rewrite Hstart. unfold bind at 1, NanoBananaProGenerator, bind at 1, gets.
      cbn [log env_api_key]. rewrite Hkey, Hk.
      unfold bind at 1. cbn [emit modify ret]. unfold bind at 1. cbn [print emit modify].
      unfold bind at 1, with_client.
      rewrite (process_items_skip generate_image args _ data Hrf Hall). cbn [snd].
      rewrite print_status_spec. now rewrite bool_decide_eq_false_2 by exact Hitems.
    - eexists. rewrite Hstart. unfold bind at 1, NanoBananaProGenerator, bind at 1, gets.
      cbn [log env_api_key]. rewrite Hkey. reflexivity. }
  split; [exact Hempty|]. split; [exact Hwork|]. split.
  { intros Hmode. destruct (select_batch args data) as [|r rest] eqn:Hsb; [reflexivity|].
    exfalso.
    destruct (select_batch_lookup args data r) as (p & Hp & Hm); [rewrite Hsb; now left|].
    assert (Hs : status_is "success" p = true).
    { rewrite List.Forall_forall in Hall. apply Hall.
      apply list_elem_of_In, list_elem_of_lookup. eauto. }
    unfold mode_filter in Hm. destruct (arg_resume args).
    + rewrite Hs in Hm. discriminate.
    + cbn [orb] in Hmode. rewrite Hmode in Hm.
      apply failed_not_success in Hm. rewrite Hs in Hm. discriminate. }
  assert (Hquiet : forall tail tr,
             tr = (trace w ++ tail)%list ->
             Forall (fun e => match e with EvSleep _ => False | _ => True end) tail ->
             Forall (fun e => match e with EvSleep _ => False | _ => True end)
               (drop (length (trace w)) tr)).
  { intros tail tr -> Htail. now rewrite drop_app_length. }
  destruct (decide (select_batch args data = [])) as [Hsel|Hsel].
  - rewrite (Hempty Hsel). cbn [snd]. repeat split; try counters.
    apply (Hquiet [EvLoad; EvPrint MsgNothing; status_report data]).
    + now rewrite <- !app_assoc.
    + repeat constructor.
  - specialize (Hwork Hsel). destruct (env_api_key w) as [key|].
    + destruct (String.eqb key "").
      * destruct Hwork as [msg ->]. cbn [snd]. repeat split; try counters.
        apply (Hquiet [EvLoad; EvMkdir]); [now rewrite <- !app_assoc|].
        repeat constructor.
      * rewrite Hwork. cbn [snd]. repeat split; try counters.
        apply (Hquiet [EvLoad; EvMkdir; EvNewGenerator;
                       EvPrint (MsgBanner (length (select_batch args data)));
                       status_report data]).
        -- now rewrite <- !app_assoc.
        -- repeat constructor.
    + destruct Hwork as [msg ->]. cbn [snd]. repeat split; try counters.
      apply (Hquiet [EvLoad; EvMkdir]); [now rewrite <- !app_assoc|].
      repeat constructor.
Qed.

Lemma main_all_success_idle_witness :
  json_load (json_dump Cases.ledger_all_done) = Some Cases.ledger_all_done
  /\ Forall (fun p => status_is "success" p = true) (prompts Cases.ledger_all_done)
  /\ main Scenario.stub Scenario.new_stub default_args Cases.world_all_done
     = (Ok tt,
        log (status_report Cases.ledger_all_done)
          (log (EvPrint (MsgBanner 3))
             (log EvNewGenerator (log EvMkdir (log EvLoad Cases.world_all_done)))))
  /\ main Scenario.stub Scenario.new_stub Cases.resume_args Cases.world_all_done
     = (Ok tt,
        log (status_report Cases.ledger_all_done)
          (log (EvPrint MsgNothing) (log EvLoad Cases.world_all_done))).
Proof.
  assert (Hall : Forall (fun p => status_is "success" p = true) (prompts Cases.ledger_all_done)).
  { repeat constructor. }
  split; [reflexivity|]. split; [exact Hall|]. split.
  - pose proof (main_all_success_idle Scenario.stub Scenario.new_stub default_args
                  Cases.world_all_done (json_dump Cases.ledger_all_done)
                  Cases.ledger_all_done eq_refl eq_refl ltac:(discriminate) Hall eq_refl)
      as H.
    cbv zeta in H. destruct H as (_ & Hwork & _).
    exact (Hwork ltac:(discriminate)).
  - pose proof (main_all_success_idle Scenario.stub Scenario.new_stub Cases.resume_args
                  Cases.world_all_done (json_dump Cases.ledger_all_done)
                  Cases.ledger_all_done eq_refl eq_refl ltac:(discriminate) Hall eq_refl)
      as H.
    cbv zeta in H. destruct H as (Hempty & _).
    exact (Hempty eq_refl).
Defined.

(** ** Post-processing, any image *)

(** X11.  For every source of positive size the crop is centred and inside
    the source: a source narrower than 5:1 keeps its width and is cut to
    the height [w / 5] (rounded down), a wider one keeps its height and is
    cut to the width [5 * h]; the two margins that are cut off differ by at
    most one pixel, nothing is padded, and the result is the crop resampled
    to 1000x200. *)
Theorem crop_resize_centred (img : Image) (w h : Z) :
  image_size img = (w, h) -> 0 < w -> 0 < h ->
  let '(l, u, r, lo) := crop_box w h in
  crop_resize img = Ok (Resize (1000, 200) LANCZOS (Crop (l, u, r, lo) img))
  /\ box_inside (l, u, r, lo) img
  /\ image_size (Crop (l, u, r, lo) img) = (if w <? 5 * h then (w, w / 5) else (5 * h, h))
  /\ 0 <= (w - r) - l <= 1
  /\ 0 <= (h - lo) - u <= 1.
Proof.
  intros Hsize Hw Hh.
  assert (Hres : crop_resize img
                 = Ok (Resize (1000, 200) LANCZOS (Crop (crop_box w h) img))).
  { unfold crop_resize. rewrite Hsize.
    replace (h =? 0) with false by (symmetry; apply Z.eqb_neq; lia). reflexivity. }
  rewrite Hres. rewrite (crop_box_cases w h) by lia.
  unfold box_inside. rewrite Hsize.
  destruct (Z.ltb_spec w (5 * h)) as [Hlt|Hge]; cbn [image_size].
  - split; [reflexivity|]. split; [Z.div_mod_to_equations; lia|].
    split; [f_equal; lia|]. Z.div_mod_to_equations. lia.
  - split; [reflexivity|]. split; [Z.div_mod_to_equations; lia|].
    split; [f_equal; lia|]. Z.div_mod_to_equations. lia.
Qed.

Lemma crop_resize_centred_witness :
  image_size (Decoded 1024 1024) = (1024, 1024)
  /\ crop_resize (Decoded 1024 1024)
     = Ok (Resize (1000, 200) LANCZOS (Crop (0, 410, 1024, 614) (Decoded 1024 1024)))
  /\ box_inside (0, 410, 1024, 614) (Decoded 1024 1024)
  /\ image_size (Crop (0, 410, 1024, 614) (Decoded 1024 1024)) = (1024, 204)
  /\ 0 <= (1024 - 1024) - 0 <= 1
  /\ 0 <= (1024 - 614) - 410 <= 1.
Proof.
  split; [reflexivity|].
  apply (crop_resize_centred (Decoded 1024 1024) 1024 1024); [reflexivity|lia|lia].
Defined.

(** X12.  Post-processing touches one file at most.  It fails when the
    file is missing ([FileNotFoundError]), when the image has height 0
    ([ZeroDivisionError]), or when PIL refuses to write to the path (the
    exception of [img.save], as for a name whose extension it does not
    know), and then the world is exactly as before, the file included;
    otherwise the file holds a 1000x200 image afterwards.  Other files, the
    clock, the ledger file and the record of events never change. *)
Theorem post_process_one_file (img_path : string) (w : World) :
  exists r w',
    post_process img_path w = (r, w')
    /\ trace w' = trace w /\ clock w' = clock w
    /\ ledger_file w' = ledger_file w /\ env_api_key w' = env_api_key w
    /\ (forall other, other <> img_path -> images w' !! other = images w !! other)
    /\ match r with
       | Ok _ => (image_size <$> images w' !! img_path) = Some (1000, 200)
                 /\ save_error w img_path = None
                 /\ exists img, images w !! img_path = Some img /\ snd (image_size img) <> 0
       | Raise e =>
           w' = w
           /\ ((e = FileNotFoundError img_path /\ images w !! img_path = None)
               \/ (e = ZeroDivisionError
                   /\ exists img, images w !! img_path = Some img
                                  /\ snd (image_size img) = 0)
               \/ (save_error w img_path = Some e
                   /\ exists img, images w !! img_path = Some img
                                  /\ snd (image_size img) <> 0))
       end.
Proof.
  unfold post_process, bind, Image_open.
  destruct (images w !! img_path) as [img|] eqn:Himg.
  - unfold crop_resize. destruct (image_size img) as [iw ih] eqn:Hsize.
    destruct (Z.eqb_spec ih 0) as [->|Hne].
    + eexists _, _. split; [reflexivity|]. repeat split.
      right; left. split; [reflexivity|]. exists img. rewrite Hsize. now split.
    + unfold Image_save. destruct (save_error w img_path) as [e|] eqn:Hsave.
      * eexists _, _. split; [reflexivity|]. repeat split.
        right; right. split; [reflexivity|]. exists img. rewrite Hsize. now split.
      * eexists _, _. split; [reflexivity|].
        cbn [set_images trace clock ledger_file env_api_key images].
        repeat split.
        -- intros other Hother. now rewrite lookup_insert_ne.
        -- now rewrite lookup_insert_eq.
        -- exists img. rewrite Hsize. now split.
  - eexists _, _. split; [reflexivity|]. repeat split. left. now split.
Qed.

(** A file whose name has an extension PIL does not know (the text after
    the last dot of ["001_v1.5_style"]) is left as it was, 1024x1024. *)
Example refused_save_keeps_file :
  post_process Cases.dotted_name Cases.world_dotted
  = (Raise (ValueError "unknown file extension: .5_style"), Cases.world_dotted)
  /\ (image_size <$> images Cases.world_dotted !! Cases.dotted_name) = Some (1024, 1024).
Proof. split; reflexivity. Qed.

(** ** Prompt builder, unknown keys *)

Lemma dict_get_absent (d : list (string * string)) (key default : string) :
  ~ In key (map fst d) -> Str.dict_get d key default = default.
Proof.
  induction d as [|[k v] d IH]; intros Hnot; [reflexivity|].
  cbn [Str.dict_get]. destruct (String.eqb_spec k key) as [->|Hne].
  - exfalso. apply Hnot. now left.
  - apply IH. intros Hin. apply Hnot. now right.
Qed.

Lemma dict_get_present (d : list (string * string)) (key value default : string) :
  List.NoDup (map fst d) -> In (key, value) d -> Str.dict_get d key default = value.
Proof.
  induction d as [|[k v] d IH]; intros Hnd Hin; [destruct Hin|].
  cbn [map fst] in Hnd. apply List.NoDup_cons_iff in Hnd as [Hk Hnd].
  cbn [Str.dict_get]. destruct Hin as [Heq|Hin].
  - injection Heq as -> ->. now rewrite String.eqb_refl.
  - destruct (String.eqb_spec k key) as [->|Hne]; [|now apply IH].
    exfalso. apply Hk. change key with (fst (key, value)). now apply in_map.
Qed.

(** X13.  The prompt builder has an answer for every style and pack.  The
    keys of its two tables are distinct, so a style or pack of the table
    gets the text of its entry; a style that is not in the table is
    described by its own name, and a pack that is not in the table gets the
    generic five-slide sequence. *)
Theorem build_carousel_prompt_fallback (p : WorkItem) :
  let text visual content :=
    "Create a horizontal banner showing 5 carousel slides in a row." +:+ Str.nl +:+
    Str.nl +:+
    "STYLE: " +:+ Str.upper (style_name p) +:+ " - " +:+ visual +:+ Str.nl +:+
    Str.nl +:+
    "Show 5 slides side by side. Each slide has bold text:" +:+ Str.nl +:+
    content +:+ Str.nl +:+
    Str.nl +:+
    "Make it clean and cohesive in the " +:+ style_name p +:+ " style for "
      +:+ industry_name p +:+ "." in
  List.NoDup (map fst style_visuals) /\ List.NoDup (map fst pack_content)
  /\ (forall visual content,
        In (style_name p, visual) style_visuals ->
        In (pack_name p, content) pack_content ->
        build_carousel_prompt p = text visual content)
  /\ (~ In (style_name p) (map fst style_visuals) ->
      ~ In (pack_name p) (map fst pack_content) ->
      build_carousel_prompt p = text (style_name p) default_pack_content)
  /\ (forall visual,
        In (style_name p, visual) style_visuals ->
        ~ In (pack_name p) (map fst pack_content) ->
        build_carousel_prompt p = text visual default_pack_content)
  /\ (forall content,
        ~ In (style_name p) (map fst style_visuals) ->
        In (pack_name p, content) pack_content ->
        build_carousel_prompt p = text (style_name p) content).
Proof.
  cbv zeta.
  assert (Hs : List.NoDup (map fst style_visuals)).
  { apply NoDup_ListNoDup. apply (bool_decide_unpack _). vm_compute. exact I. }
  assert (Hp : List.NoDup (map fst pack_content)).
  { apply NoDup_ListNoDup. apply (bool_decide_unpack _). vm_compute. exact I. }
  split; [exact Hs|]. split; [exact Hp|]. unfold build_carousel_prompt.
  split; [|split; [|split]].
  - intros visual content Hv Hc.
    now rewrite (dict_get_present _ _ visual _ Hs Hv), (dict_get_present _ _ content _ Hp Hc).
  - intros Hv Hc. now rewrite (dict_get_absent _ _ _ Hv), (dict_get_absent _ _ _ Hc).
  - intros visual Hv Hc.
    now rewrite (dict_get_present _ _ visual _ Hs Hv), (dict_get_absent _ _ _ Hc).
  - intros content Hv Hc.
    now rewrite (dict_get_absent _ _ _ Hv), (dict_get_present _ _ content _ Hp Hc).
Qed.

(** ** The client of [generate_image.py] *)

Section NanoFacts.
Context {A : Type}.
Variable pl : PathLib.
Variable generate_content : string -> list string -> A -> Res (option (list Part)) * A * Q.

Lemma save_result_world (result : NanoResult) (output_path : string) (s : Nano A * World) :
  exists r s', _save_result pl result output_path s = (r, s') /\ snd s' = snd s.
Proof.
  unfold _save_result, bind, nano_mkdir, write_metadata, nano_print, modify, of_res.
  destruct (path_with_suffix pl output_path ".json") as [jp|e];
    eexists _, _; split; reflexivity.
Qed.

Lemma save_images_world (base_path : string) (many : bool) (imgs : list Image) :
  forall (idx : nat) (s : Nano A * World),
  exists r s',
    save_images pl base_path many idx imgs s = (r, s')
    /\ client_keeps (snd s) (snd s') /\ clock (snd s') = clock (snd s)
    /\ match r with
       | Ok paths => length paths = length imgs
       | Raise _ => True
       end.
Proof.
  induction imgs as [|image rest IH]; intros idx s.
  - eexists _, _. split; [reflexivity|]. repeat split.
  - cbn [save_images]. unfold bind at 1.
    assert (Hpath : exists r,
               (if many
                then ret (path_join pl (path_parent pl base_path)
                            (path_stem pl base_path +:+ "_" +:+ decimal (idx + 1)
                             +:+ (if String.eqb (path_suffix pl base_path) ""
                                  then ".png" else path_suffix pl base_path)))
                else if String.eqb (path_suffix pl base_path) ""
                     then of_res (path_with_suffix pl base_path ".png")
                     else ret (path_str pl base_path)) s = (r, s)).
    { destruct many; [eexists; reflexivity|].
      destruct (String.eqb (path_suffix pl base_path) ""); [|eexists; reflexivity].
      unfold of_res. destruct (path_with_suffix pl base_path ".png"); eexists; reflexivity. }
    destruct Hpath as ([image_path|e] & ->).
    + unfold bind at 1. unfold lift at 1, Image_save. cbn [fst snd].
      destruct (save_error (snd s) image_path) as [e|].
      { eexists _, _. split; [reflexivity|]. repeat split. }
      unfold bind at 1. unfold nano_print at 1, modify. cbn [fst snd].
      unfold bind at 1.
      match goal with
      | |- context [save_images pl base_path many (S idx) rest ?s0] =>
          destruct (IH (S idx) s0) as (r & s' & Hrun & (Ht & Hl & He) & Hc & Hlen)
      end.
      rewrite Hrun. cbn [snd] in Ht, Hl, He, Hc.
      destruct r as [paths|e].
      * eexists _, _. split; [reflexivity|]. cbn [snd length].
        repeat split; try assumption. now rewrite Hlen.
      * eexists _, _. split; [reflexivity|]. cbn [snd]. repeat split; assumption.
    + eexists _, _. split; [reflexivity|]. repeat split.
Qed.

Lemma handler_world (prompt : string) (e : Exn) (s : Nano A * World) :
  exists s',
    (do nano_print (LineError ("Error generating image: " +:+ exn_str e)) ;;
     t <- lift now ;;
     ret (NanoFailure ("Error generating image: " +:+ exn_str e) prompt t))%py s
    = (Ok (NanoFailure ("Error generating image: " +:+ exn_str e) prompt (clock (snd s))), s')
    /\ snd s' = snd s.
Proof. eexists. split; reflexivity. Qed.

Lemma generate_image_method_total (prompt : string) (output_path style : option string)
    (resolution : string) (s : Nano A * World) :
  exists r s',
    generate_image_method pl generate_content prompt output_path style resolution s = (Ok r, s')
    /\ client_keeps (snd s) (snd s')
    /\ nano_shape prompt output_path style resolution (snd s') r.
Proof.
  unfold generate_image_method, try_except. unfold bind at 1. unfold call_service at 1.
  destruct (generate_content model_name [enhance prompt style resolution] (remote (fst s)))
    as [[r a'] elapsed].
  set (s1 := ({| nano_api_key := nano_api_key (fst s); remote := a';
                 nano_console := nano_console (fst s); nano_dirs := nano_dirs (fst s);
                 nano_metadata := nano_metadata (fst s) |},
              set_clock (clock (snd s) + elapsed)%Q (snd s))).
  assert (Hk1 : client_keeps (snd s) (snd s1)) by (repeat split).
  assert (Hfail : forall (e : Exn) (s2 : Nano A * World),
             client_keeps (snd s) (snd s2) ->
             exists r s',
               (do nano_print (LineError ("Error generating image: " +:+ exn_str e)) ;;
                t <- lift now ;;
                ret (NanoFailure ("Error generating image: " +:+ exn_str e) prompt t))%py s2
               = (Ok r, s')
               /\ client_keeps (snd s) (snd s')
               /\ nano_shape prompt output_path style resolution (snd s') r).
  { intros e s2 Hk. destruct (handler_world prompt e s2) as (s' & Hrun & Hw).
    eexists _, s'. split; [exact Hrun|]. rewrite Hw. split; [exact Hk|].
    cbn [nano_shape]. split; [reflexivity|]. split; [eexists; reflexivity|reflexivity]. }
  destruct r as [[ps|]|e]; [| |now apply Hfail].
  2:{ unfold bind at 1. cbn [raise]. now apply Hfail. }
  unfold bind at 1. cbn [ret]. unfold bind at 1.
  assert (Hsaved : exists r2 s2,
             (if truthy output_path && negb (bool_decide (images_of ps = []))
              then (do nano_mkdir (path_parent pl (default "" output_path)) ;;
                    save_images pl (default "" output_path)
                      (1 <? length (images_of ps))%nat 0 (images_of ps))%py
              else ret []) s1 = (r2, s2)
             /\ client_keeps (snd s) (snd s2)
             /\ match r2 with
                | Ok paths => length paths
                              = (if truthy output_path then length (images_of ps) else 0%nat)
                | Raise _ => True
                end).
  { destruct (truthy output_path) eqn:Ht.
    - destruct (bool_decide (images_of ps = [])) eqn:Hi; cbn [andb negb].
      + apply bool_decide_eq_true in Hi. rewrite Hi.
        eexists _, _. split; [reflexivity|]. split; [exact Hk1|reflexivity].
      + unfold bind at 1. unfold nano_mkdir at 1, modify.
        match goal with
        | |- context [save_images pl ?b ?m 0%nat ?i ?s0] =>
            destruct (save_images_world b m i 0%nat s0)
              as (r2 & s2 & Hrun & (Ht2 & Hl2 & He2) & _ & Hlen)
        end.
        rewrite Hrun. exists r2, s2. split; [reflexivity|].
        cbn [snd] in Ht2, Hl2, He2.
        split; [repeat split; assumption|exact Hlen].
    - cbn [andb]. eexists _, _. split; [reflexivity|]. split; [exact Hk1|reflexivity]. }
  destruct Hsaved as (r2 & s2 & Hrun & Hk2 & Hlen). rewrite Hrun.
  destruct r2 as [paths|e]; [|now apply Hfail].
  unfold bind at 1. unfold lift at 1, now, gets. cbn [fst snd].
  unfold bind at 1.
  destruct (truthy output_path) eqn:Ht.
  - match goal with
    | |- context [_save_result pl ?res ?op ?s0] =>
        destruct (save_result_world res op s0) as (r3 & s3 & Hsr & Hw3)
    end.
    rewrite Hsr. cbn [snd] in Hw3. destruct r3 as [[]|e].
    + eexists _, _. split; [reflexivity|]. cbn [snd]. rewrite Hw3.
      split; [exact Hk2|]. cbn [nano_shape]. rewrite Ht. repeat split. exact Hlen.
    + apply Hfail. now rewrite Hw3.
  - eexists _, _. split; [reflexivity|]. cbn [snd].
    split; [exact Hk2|]. cbn [nano_shape]. rewrite Ht. repeat split. exact Hlen.
Qed.

End NanoFacts.


Lemma contains_append (sub pre s : string) :
  Str.contains sub s = true -> Str.contains sub (pre +:+ s) = true.
Proof.
  intros Hs. induction pre as [|c pre IH]; [exact Hs|].
  change (String c pre +:+ s) with (String c (pre +:+ s)).
  cbn [Str.contains]. rewrite IH. apply orb_true_r.
Qed.

Section NanoDriver.
Context {A : Type}.
Variable pl : PathLib.
Variable generate_content : string -> list string -> A -> Res (option (list Part)) * A * Q.

Lemma nano_client_returns : never_raises (nano_client pl generate_content).
Proof.
  intros prompt path s. unfold nano_client.
  destruct (generate_image_method_total pl generate_content prompt (Some path) None
              "1024x1024" s) as (r & s' & Hrun & _).
  rewrite Hrun. now eexists _, _.
Qed.

Lemma nano_client_service_raises (prompt path : string) (s : Nano A * World)
    (e : Exn) (a' : A) (elapsed : Q) :
  generate_content model_name [enhance prompt None "1024x1024"] (remote (fst s))
  = (Raise e, a', elapsed) ->
  nano_client pl generate_content prompt path s
  = (Returned {| success := false; saved_paths := [];
                 gr_error := Some ("Error generating image: " +:+ exn_str e) |},
     ({| nano_api_key := nano_api_key (fst s); remote := a';
         nano_console := (nano_console (fst s)
                          ++ [LineError ("Error generating image: " +:+ exn_str e)])%list;
         nano_dirs := nano_dirs (fst s); nano_metadata := nano_metadata (fst s) |},
      set_clock (clock (snd s) + elapsed)%Q (snd s))).
Proof.
  intros Hcall. unfold nano_client, generate_image_method, try_except.
  unfold bind at 1. unfold call_service at 1. rewrite Hcall. reflexivity.
Qed.

Lemma nano_client_transient :
  service_always_500 generate_content ->
  always_transient (nano_client pl generate_content).
Proof.
  intros Hdown prompt path s.
  destruct (Hdown model_name [enhance prompt None "1024x1024"] (remote (fst s)))
    as (e & a' & elapsed & Hcall & Hmark).
  rewrite (nano_client_service_raises prompt path s e a' elapsed Hcall).
  eexists _, _. split; [reflexivity|].
  unfold transient. cbn [success gr_error negb andb default].
  now apply contains_append.
Qed.

End NanoDriver.

Lemma attempt_loop_no_exception {G : Type}
    (generate_image : string -> string -> G * World -> GenOutcome * (G * World))
    (fname prompt path : string) (max_retries : Z) :
  never_raises generate_image ->
  forall (attempts : list Z) (s : G * World),
  exists st s',
    attempt_loop generate_image fname prompt path max_retries attempts s = (Ok st, s')
    /\ (status st = "success" \/ status st = "failed").
Proof.
  intros Hret attempts. induction attempts as [|a rest IH]; intros s.
  - eexists _, _. split; [reflexivity|]. now right.
  - destruct (Hret prompt path s) as (r & s1 & Hcall).
    cbn [attempt_loop]. unfold bind at 1.
    destruct (success r) eqn:Hok.
    + destruct (attempt_success generate_image fname prompt path max_retries a s s1 r
                  Hcall Hok) as (w' & Hbody & _).
      rewrite Hbody. eexists _, _. split; [reflexivity|]. now left.
    + rewrite (attempt_failure generate_image fname prompt path max_retries a s s1 r
                 Hcall Hok).
      destruct (Str.contains "500" (default "Unknown" (gr_error r)) && (a <? max_retries)).
      * apply IH.
      * eexists _, _. split; [reflexivity|]. now right.
Qed.

(** X15.  With the client of [generate_image.py], [generate_single] never
    records the status [exception]: the client turns every exception of the
    service into a reported failure, so the result is success or failed
    for every item, service and [max_retries]. *)
Theorem generate_single_nano_no_exception {A : Type} (pl : PathLib)
    (generate_content : string -> list string -> A -> Res (option (list Part)) * A * Q)
    (prompt_data : WorkItem) (output_dir : string) (max_retries : Z)
    (s : Nano A * World) :
  exists st s',
    generate_single (nano_client pl generate_content) prompt_data output_dir max_retries s
    = (Ok st, s')
    /\ (status st = "success" \/ status st = "failed").
Proof.
  unfold generate_single. unfold bind at 1. unfold lift at 1.
  cbn [print emit modify snd fst].
  apply attempt_loop_no_exception. apply nano_client_returns.
Qed.

(** X16.  When the service fails on every request with a text that carries
    "500", [generate_single] with the client of [generate_image.py] and
    [max_retries >= 1] asks the service exactly [max_retries] times, with a
    5-second pause before each request but the first, and records status
    [failed].  The error text is "Error generating image: " followed by the
    text of the exception the service raised on the last request, cut to
    its first 200 characters; the time is the time at which that request
    ended. *)
Theorem generate_single_nano_service_down {A : Type} (pl : PathLib)
    (generate_content : string -> list string -> A -> Res (option (list Part)) * A * Q)
    (prompt_data : WorkItem) (output_dir : string) (max_retries : Z)
    (s : Nano A * World) :
  1 <= max_retries ->
  service_always_500 generate_content ->
  let client := nano_client pl generate_content in
  let prompt := build_carousel_prompt prompt_data in
  let path := output_path_of output_dir prompt_data in
  let s_last :=
    retried client prompt path (Z.to_nat (max_retries - 1)) (announced prompt_data s) in
  let run := generate_single client prompt_data output_dir max_retries s in
  exists e a' elapsed,
    generate_content model_name [enhance prompt None "1024x1024"] (remote (fst s_last))
    = (Raise e, a', elapsed)
    /\ fst run
       = Ok {| status := "failed"; gs_filename := filename prompt_data; url := None;
               error := Some (Str.take 200 ("Error generating image: " +:+ exn_str e));
               generated_at := None;
               attempted_at := Some (clock (snd s_last) + elapsed)%Q |}
    /\ prefix_of_length 200 ("Error generating image: " +:+ exn_str e)
         (Str.take 200 ("Error generating image: " +:+ exn_str e))
    /\ occurs_in "500" (exn_str e)
    /\ generation_calls (snd (snd run))
       = (generation_calls (snd s) + Z.to_nat max_retries)%nat
    /\ backoffs (snd (snd run)) = (backoffs (snd s) + (Z.to_nat max_retries - 1))%nat.
Proof.
  intros Hm Hdown.
  assert (Hall : forall prompt path s1,
             retriable (fst (nano_client pl generate_content prompt path s1)) = true).
  { intros prompt path s1.
    destruct (nano_client_transient pl generate_content Hdown prompt path s1)
      as (r & s2 & -> & Hr). exact Hr. }
  pose proof (generate_single_exhausted (nano_client pl generate_content) prompt_data
                output_dir max_retries s Hm Hall) as Hrun.
  cbv zeta in Hrun |- *. destruct Hrun as (Hrun & Hg & Hb & _).
  set (s_last := retried (nano_client pl generate_content)
                   (build_carousel_prompt prompt_data)
                   (output_path_of output_dir prompt_data) (Z.to_nat (max_retries - 1))
                   (announced prompt_data s)) in *.
  destruct (Hdown model_name [enhance (build_carousel_prompt prompt_data) None "1024x1024"]
              (remote (fst s_last))) as (e & a' & elapsed & Hcall & Hmark).
  rewrite (nano_client_service_raises pl generate_content _
             (output_path_of output_dir prompt_data) s_last e a' elapsed Hcall) in Hrun.
  cbn [fst snd outcome_text failure_status gr_error default clock set_clock] in Hrun.
  exists e, a', elapsed. split; [exact Hcall|]. split; [exact Hrun|].
  split; [apply take_spec|]. split; [now apply contains_spec|]. split; assumption.
Qed.

Lemma generate_single_nano_service_down_witness :
  let client := nano_client Cases.plain_names Cases.service_down in
  let prompt_data := Scenario.item1 in
  let s := (Cases.nano0, Scenario.world0) in
  let prompt := build_carousel_prompt prompt_data in
  let path := output_path_of OUTPUT_DIR prompt_data in
  let s_last := retried client prompt path (Z.to_nat (2 - 1)) (announced prompt_data s) in
  let run := generate_single client prompt_data OUTPUT_DIR 2 s in
  service_always_500 Cases.service_down
  /\ exists e a' elapsed,
       Cases.service_down model_name [enhance prompt None "1024x1024"] (remote (fst s_last))
       = (Raise e, a', elapsed)
       /\ fst run
          = Ok {| status := "failed"; gs_filename := filename prompt_data; url := None;
                  error := Some (Str.take 200 ("Error generating image: " +:+ exn_str e));
                  generated_at := None;
                  attempted_at := Some (clock (snd s_last) + elapsed)%Q |}
       /\ prefix_of_length 200 ("Error generating image: " +:+ exn_str e)
            (Str.take 200 ("Error generating image: " +:+ exn_str e))
       /\ occurs_in "500" (exn_str e)
       /\ generation_calls (snd (snd run)) = (generation_calls (snd s) + Z.to_nat 2)%nat
       /\ backoffs (snd (snd run)) = (backoffs (snd s) + (Z.to_nat 2 - 1))%nat.
Proof.
  assert (Hdown : service_always_500 Cases.service_down).
  { intros model contents a. eexists _, _, _. split; reflexivity. }
  cbv zeta. split; [exact Hdown|].
  apply (generate_single_nano_service_down Cases.plain_names Cases.service_down
           Scenario.item1 OUTPUT_DIR 2 (Cases.nano0, Scenario.world0)).
  - lia.
  - exact Hdown.
Defined.

(** The record of that run: the service was down twice, one second each
    time, with the 5-second pause in between. *)
Example service_down_record :
  fst (generate_single (nano_client Cases.plain_names Cases.service_down) Scenario.item1
         OUTPUT_DIR 2 (Cases.nano0, Scenario.world0))
  = Ok (status_error "failed" (filename Scenario.item1)
          "Error generating image: 500 INTERNAL. An internal error has occurred." 7).
Proof. reflexivity. Qed.

Lemma nano_client_no_image {A : Type} (pl : PathLib)
    (generate_content : string -> list string -> A -> Res (option (list Part)) * A * Q)
    (prompt path json_path : string) (s : Nano A * World)
    (ps : list Part) (a' : A) (elapsed : Q) :
  generate_content model_name [enhance prompt None "1024x1024"] (remote (fst s))
  = (Ok (Some ps), a', elapsed) ->
  images_of ps = [] ->
  path <> "" ->
  path_with_suffix pl path ".json" = Ok json_path ->
  exists c',
    nano_client pl generate_content prompt path s
    = (Returned {| success := true; saved_paths := []; gr_error := None |},
       (c', set_clock (clock (snd s) + elapsed)%Q (snd s))).
Proof.
  intros Hcall Himgs Hpath Hjson.
  unfold nano_client, generate_image_method, try_except.
  unfold bind at 1. unfold call_service at 1. rewrite Hcall.
  unfold bind at 1. cbn [ret]. unfold bind at 1.
  rewrite Himgs. rewrite (bool_decide_eq_true_2 (@nil Image = [])) by reflexivity.
  rewrite andb_false_r. cbn [ret]. unfold bind at 1. unfold lift at 1, now, gets.
  cbn [fst snd]. unfold bind at 1.
  assert (Htruthy : truthy (Some path) = true).
  { cbn [truthy]. apply negb_true_iff. now apply String.eqb_neq. }
  rewrite Htruthy. cbn [default].
  unfold _save_result, bind, nano_mkdir, write_metadata, nano_print, modify, of_res.
  change (Datatypes.id path) with path. rewrite Hjson. cbn [ret fst snd as_result]. eexists. reflexivity.
Qed.

(** X17.  An answer of the service without any image part still counts as
    a success: the client of [generate_image.py] returns [success = True]
    with no saved path, and [generate_single] then skips post-processing
    and returns status success with the URL of the item, although no
    image file was written. *)
Theorem imageless_answer_recorded_as_success {A : Type} (pl : PathLib)
    (generate_content : string -> list string -> A -> Res (option (list Part)) * A * Q)
    (fname prompt path json_path : string) (max_retries attempt : Z) (rest : list Z)
    (s : Nano A * World) (ps : list Part) (a' : A) (elapsed : Q) :
  generate_content model_name [enhance prompt None "1024x1024"] (remote (fst s))
  = (Ok (Some ps), a', elapsed) ->
  images_of ps = [] ->
  path <> "" ->
  path_with_suffix pl path ".json" = Ok json_path ->
  exists s',
    attempt_loop (nano_client pl generate_content) fname prompt path max_retries
      (attempt :: rest) s
    = (Ok {| status := "success"; gs_filename := fname;
             url := Some (URL_PREFIX +:+ fname); error := None;
             generated_at := Some (clock (snd s) + elapsed)%Q; attempted_at := None |}, s')
    /\ images (snd s') = images (snd s)
    /\ generation_calls (snd s') = S (generation_calls (snd s)).
Proof.
  intros Hcall Himgs Hpath Hjson.
  destruct (nano_client_no_image pl generate_content prompt path json_path s ps a' elapsed
              Hcall Himgs Hpath Hjson) as (c' & Hclient).
  cbn [attempt_loop]. unfold bind at 1.
  unfold attempt_body, try_except. unfold bind at 1. unfold call_generate_image.
  rewrite Hclient. cbn [success saved_paths andb fst snd].
  rewrite (bool_decide_eq_true_2 (@nil string = [])) by reflexivity.
  cbn [negb andb]. eexists. split; [reflexivity|]. split; [reflexivity|].
  cbn [snd]. counters.
Qed.

Lemma imageless_answer_recorded_as_success_witness :
  let s := (Cases.nano0, Scenario.world0) in
  Cases.service_text_only model_name [enhance "prompt" None "1024x1024"] tt
  = (Ok (Some [{| part_text := Some "I cannot draw that."; part_image := None |}]), tt, 1%Q)
  /\ exists s',
       attempt_loop (nano_client Cases.plain_names Cases.service_text_only)
         "001.png" "prompt" "001" 2 [1; 2] s
       = (Ok {| status := "success"; gs_filename := "001.png";
                url := Some (URL_PREFIX +:+ "001.png"); error := None;
                generated_at := Some (clock (snd s) + 1)%Q; attempted_at := None |}, s')
       /\ images (snd s') = images (snd s)
       /\ generation_calls (snd s') = S (generation_calls (snd s)).
Proof.
  cbv zeta. split; [reflexivity|].
  apply (imageless_answer_recorded_as_success Cases.plain_names Cases.service_text_only
           "001.png" "prompt" "001" "001.json" 2 1 [2] (Cases.nano0, Scenario.world0)
           [{| part_text := Some "I cannot draw that."; part_image := None |}] tt 1%Q);
    try reflexivity.
  discriminate.
Defined.

(** ** Style references *)

Lemma same_text_spec (a b : option string) : same_text a b = true <-> a = b.
Proof.
  destruct a as [x|], b as [y|]; cbn [same_text]; try (split; [discriminate|congruence]).
  - rewrite String.eqb_eq. split; congruence.
  - split; reflexivity.
Qed.

Lemma update_references_from_spec {R : Type} (prompts : list (StyledPrompt R)) :
  forall updated : nat,
  exists changed,
    fst (update_references_from updated prompts) = (updated + changed)%nat
    /\ (changed <= length prompts)%nat
    /\ length (snd (update_references_from updated prompts)) = length prompts
    /\ map sp_style_name (snd (update_references_from updated prompts))
       = map sp_style_name prompts
    /\ map sp_other (snd (update_references_from updated prompts)) = map sp_other prompts
    /\ Forall reference_settled (snd (update_references_from updated prompts))
    /\ (Forall reference_settled prompts ->
        changed = 0%nat /\ snd (update_references_from updated prompts) = prompts)
    /\ (changed = 0%nat -> snd (update_references_from updated prompts) = prompts)
    /\ (forall i p, prompts !! i = Some p -> reference_path (sp_style_name p) = None ->
                    snd (update_references_from updated prompts) !! i = Some p).
Proof.
  induction prompts as [|p rest IH]; intros updated.
  - exists 0%nat. cbn. repeat split; auto; try lia.
  - cbn [update_references_from].
    destruct (reference_path (sp_style_name p)) as [ref_path|] eqn:Hpath.
    + destruct (same_text (sp_style_reference p) (Some ref_path)) eqn:Hsame; cbn [negb].
      * apply same_text_spec in Hsame.
        destruct (IH updated) as (c & Hn & Hc & Hlen & Hst & Hot & Hall & Hid & Hz & Hun).
        destruct (update_references_from updated rest) as [n rest'].
        cbn [fst snd] in *. exists c. cbn [length map].
        split; [exact Hn|]. split; [lia|]. split; [now rewrite Hlen|].
        split; [now rewrite Hst|]. split; [now rewrite Hot|].
        split; [constructor; [unfold reference_settled; now rewrite Hpath|exact Hall]|].
        split; [intros Hs; apply Forall_cons in Hs as [_ Hs];
                destruct (Hid Hs) as [-> ->]; now split|].
        split; [intros Hc0; now rewrite (Hz Hc0)|].
        intros [|i] q Hq Hnone; cbn in Hq |- *; [exact Hq|now apply Hun].
      * destruct (IH (updated + 1)%nat)
          as (c & Hn & Hc & Hlen & Hst & Hot & Hall & Hid & Hz & Hun).
        destruct (update_references_from (updated + 1) rest) as [n rest'].
        cbn [fst snd] in *. exists (S c). cbn [length map sp_style_name sp_other].
        split; [lia|]. split; [lia|]. split; [now rewrite Hlen|].
        split; [now rewrite Hst|]. split; [now rewrite Hot|].
        split; [constructor; [unfold reference_settled; cbn [sp_style_name sp_style_reference];
                              now rewrite Hpath|exact Hall]|].
        split.
        { intros Hs. apply Forall_cons in Hs as [Hp _]. unfold reference_settled in Hp.
          rewrite Hpath in Hp. apply same_text_spec in Hp. congruence. }
        split; [intros Hc0; discriminate Hc0|].
        intros [|i] q Hq Hnone; cbn in Hq |- *; [|now apply Hun].
        injection Hq as <-. congruence.
    + destruct (IH updated) as (c & Hn & Hc & Hlen & Hst & Hot & Hall & Hid & Hz & Hun).
      destruct (update_references_from updated rest) as [n rest'].
      cbn [fst snd] in *. exists c. cbn [length map].
      split; [exact Hn|]. split; [lia|]. split; [now rewrite Hlen|].
      split; [now rewrite Hst|]. split; [now rewrite Hot|].
      split; [constructor; [unfold reference_settled; now rewrite Hpath|exact Hall]|].
      split; [intros Hs; apply Forall_cons in Hs as [_ Hs];
              destruct (Hid Hs) as [-> ->]; now split|].
      split; [intros Hc0; now rewrite (Hz Hc0)|].
      intros [|i] q Hq Hnone; cbn in Hq |- *; [exact Hq|now apply Hun].
Qed.

(** X18.  [update_prompts_with_references] keeps the items in number and
    order and changes nothing but style references: afterwards every item
    whose style is in the table refers to "style_references/" followed by
    the file of its style, and an item with an unknown or absent style is
    as before.  The count it returns is at most the number of items and is
    0 exactly when nothing changed; a second update changes nothing and
    returns 0. *)
Theorem update_references_idempotent {R : Type} (prompts : list (StyledPrompt R)) :
  let updated := fst (update_prompts_with_references prompts) in
  let prompts' := snd (update_prompts_with_references prompts) in
  length prompts' = length prompts
  /\ map sp_style_name prompts' = map sp_style_name prompts
  /\ map sp_other prompts' = map sp_other prompts
  /\ Forall reference_settled prompts'
  /\ (forall i p, prompts !! i = Some p -> reference_path (sp_style_name p) = None ->
                  prompts' !! i = Some p)
  /\ (updated <= length prompts)%nat
  /\ (updated = 0%nat <-> prompts' = prompts)
  /\ update_prompts_with_references prompts' = (0%nat, prompts').
Proof.
  cbv zeta. unfold update_prompts_with_references.
  destruct (update_references_from_spec prompts 0)
    as (c & Hn & Hc & Hlen & Hst & Hot & Hall & Hid & Hz & Hun).
  cbn [Nat.add] in Hn.
  split; [exact Hlen|]. split; [exact Hst|]. split; [exact Hot|].
  split; [exact Hall|]. split; [exact Hun|]. split; [lia|]. split.
  - split.
    + intros H0. apply Hz. lia.
    + intros Heq.
      destruct (update_references_from_spec prompts 0)
        as (c' & Hn' & _ & _ & _ & _ & _ & _ & _ & _).
      assert (Hsettled : Forall reference_settled prompts) by (rewrite <- Heq; exact Hall).
      destruct (Hid Hsettled) as [-> _]. lia.
  - destruct (update_references_from_spec (snd (update_references_from 0 prompts)) 0)
      as (c' & Hn' & _ & _ & _ & _ & _ & Hid' & _ & _).
    destruct (Hid' Hall) as [-> Hsame]. cbn [Nat.add] in Hn'.
    destruct (update_references_from 0 (snd (update_references_from 0 prompts))) as [n l].
    cbn [fst snd] in *. congruence.
Qed.

(** ** A run with a client that always succeeds *)

Lemma generate_single_succeeds {G : Type}
    (generate_image : string -> string -> G * World -> GenOutcome * (G * World))
    (prompt_data : WorkItem) (output_dir : string) (max_retries : Z) (s : G * World) :
  always_succeeds generate_image -> 1 <= max_retries ->
  exists t s1,
    generate_single generate_image prompt_data output_dir max_retries s
    = (Ok (status_success (filename prompt_data) t), s1)
    /\ generation_calls (snd s1) = S (generation_calls (snd s))
    /\ ledger_file (snd s1) = ledger_file (snd s).
Proof.
  intros Hok Hm. destruct (range1_succ max_retries Hm) as (k & Hrange & _).
  unfold generate_single. rewrite Hrange. unfold bind at 1. unfold lift at 1.
  cbn [print emit modify snd fst seq map attempt_loop]. unfold bind at 1.
  match goal with
  | |- context [attempt_body _ ?f ?p ?o _ ?a ?s0] =>
      destruct (Hok p o s0) as (r & s1 & Hcall & Hsucc);
      destruct (attempt_body_any generate_image f p o max_retries a s0)
        as (step & s2 & Hbody & Hg & Hl & _);
      destruct (attempt_success generate_image f p o max_retries a s0 s1 r Hcall Hsucc)
        as (w' & Hbody' & _)
  end.
  rewrite Hbody' in Hbody. injection Hbody as <- <-. rewrite Hbody'.
  eexists _, _. split; [reflexivity|]. cbn [snd] in *.
  split; [rewrite Hg; counters|exact Hl].
Qed.

Lemma success_status_is (fname : string) (t : Q) (p : WorkItem) :
  status_is "success" (set_generation_status (status_success fname t) p) = true.
Proof. reflexivity. Qed.

Section Healthy.
Context {G : Type}.
Variable generate_image : string -> string -> G * World -> GenOutcome * (G * World).
Variable args : Args.
Variable n : nat.
Hypothesis Hok : always_succeeds generate_image.

Lemma process_items_success (to_process : list nat) :
  forall (i : nat) (data : Ledger) (s : G * World) (data' : Ledger) (s' : G * World),
    process_items generate_image args n i to_process data s = (Ok data', s') ->
    (forall k p, prompts data !! k = Some p ->
       exists p', prompts data' !! k = Some p'
                  /\ (status_is "success" p = true -> status_is "success" p' = true)
                  /\ (In k to_process -> status_is "success" p' = true))
    /\ (generation_calls (snd s') <= generation_calls (snd s) + length to_process)%nat.
Proof.
  induction to_process as [|r rest IH]; intros i data s data' s' Hrun.
  - cbn in Hrun. injection Hrun as <- <-. split; [|lia].
    intros k p Hk. exists p. split; [exact Hk|]. split; [auto|intros []].
  - cbn [process_items] in Hrun.
    destruct (prompts data !! r) as [q|] eqn:Hr.
    + destruct (negb (arg_retry_failed args) && status_is "success" q) eqn:Hsk.
      * destruct (IH _ _ _ _ _ Hrun) as (Hitems & Hcalls). split; [|cbn [length]; lia].
        intros k p Hk. destruct (Hitems k p Hk) as (p' & Hp' & Hkeep & Hsel).
        exists p'. split; [exact Hp'|]. split; [exact Hkeep|].
        intros [<-|Hin]; [|now apply Hsel].
        apply Hkeep. apply andb_prop in Hsk as [_ Hs]. congruence.
      * destruct (generate_single_succeeds generate_image q OUTPUT_DIR 2 s Hok ltac:(lia))
          as (t & s1 & Hgs & Hg1 & _).
        unfold bind at 1 in Hrun. rewrite Hgs in Hrun.
        unfold bind at 1 in Hrun. unfold lift at 1, save_prompts, modify in Hrun.
        cbn [fst snd] in Hrun.
        set (data1 := with_prompts data
                        (<[r := set_generation_status (status_success (filename q) t) q]>
                           (prompts data))) in *.
        destruct (saved_world data1 (snd s1)) as (_ & _ & Hg2 & _).
        set (w2 := write_chunks (json_dump data1) (open_write (snd s1))) in *.
        assert (Hnext : exists s3,
                   process_items generate_image args n (S i) rest data1 s3 = (Ok data', s')
                   /\ generation_calls (snd s3) = S (generation_calls (snd s))).
        { unfold bind at 1 in Hrun.
          destruct (Z.of_nat i <? Z.of_nat n - 1).
          - unfold lift at 1 in Hrun. cbn [fst snd] in Hrun.
            destruct (sleep_result (arg_delay args) w2) as [(d & _ & Hs)|(e & Hs)];
              rewrite Hs in Hrun.
            + eexists. split; [exact Hrun|]. cbn [snd].
              rewrite generation_calls_log. cbn [is_generate].
              change (generation_calls (set_clock ?c ?w)) with (generation_calls w).
              lia.
            + discriminate Hrun.
          - cbn [ret] in Hrun. eexists. split; [exact Hrun|]. cbn [snd]. lia. }
        destruct Hnext as (s3 & Hrest & Hg3).
        destruct (IH _ _ _ _ _ Hrest) as (Hitems & Hcalls). split; [|cbn [length]; lia].
        assert (Hrlt : (r < length (prompts data))%nat) by (eapply lookup_lt_Some; exact Hr).
        intros k p Hk. destruct (Nat.eq_dec r k) as [<-|Hne].
        -- rewrite Hr in Hk. injection Hk as <-.
           destruct (Hitems r (set_generation_status (status_success (filename q) t) q))
             as (p' & Hp' & Hkeep & _).
           { unfold data1. cbn [prompts with_prompts]. now apply list_lookup_insert_eq. }
           exists p'. split; [exact Hp'|].
           split; intros _; apply Hkeep, success_status_is.
        -- destruct (Hitems k p) as (p' & Hp' & Hkeep & Hsel).
           { unfold data1. cbn [prompts with_prompts]. now rewrite list_lookup_insert_ne. }
           exists p'. split; [exact Hp'|]. split; [exact Hkeep|].
           intros [Heq|Hin]; [congruence|now apply Hsel].
    + destruct (IH _ _ _ _ _ Hrun) as (Hitems & Hcalls). split; [|cbn [length]; lia].
      intros k p Hk. destruct (Hitems k p Hk) as (p' & Hp' & Hkeep & Hsel).
      exists p'. split; [exact Hp'|]. split; [exact Hkeep|].
      intros [<-|Hin]; [congruence|now apply Hsel].
Qed.

End Healthy.

Lemma main_unfold {G : Type}
    (generate_image : string -> string -> G * World -> GenOutcome * (G * World))
    (new_client : string -> G) (args : Args) (w : World)
    (cs : list Chunk) (data : Ledger) (key : string) :
  env_api_key w = Some key -> key <> "" ->
  ledger_file w = Some cs -> json_load cs = Some data ->
  arg_status args = false ->
  select_batch args data <> [] ->
  main generate_image new_client args w
  = (let '(r, s') :=
       process_items generate_image args (length (select_batch args data)) 0
         (select_batch args data) data
         (new_client key,
          log (EvPrint (MsgBanner (length (select_batch args data))))
            (log EvNewGenerator (log EvMkdir (log EvLoad w)))) in
     match r with
     | Ok data' => print_status data' (snd s')
     | Raise e => (Raise e, snd s')
     end).
Proof.
  intros Hkey Hne Hf Hl Hst Hsel. unfold main. unfold bind at 1.
  rewrite (load_prompts_ok w cs data Hf Hl), Hst.
  rewrite bool_decide_eq_false_2 by exact Hsel.
  unfold bind at 1. cbn [emit modify]. unfold bind at 1.
  unfold NanoBananaProGenerator, bind at 1, gets. cbn [log env_api_key]. rewrite Hkey.
  replace (String.eqb key "") with false by (symmetry; now apply String.eqb_neq).
  unfold bind at 1. cbn [emit modify ret]. unfold bind at 1. cbn [print emit modify].
  unfold bind at 1, with_client.
  match goal with
  | |- context [process_items ?g ?a ?n ?i ?l ?d ?s0] =>
      destruct (process_items g a n i l d s0) as [[d'|e] s']
  end; reflexivity.
Qed.

Lemma select_from_complete (f : WorkItem -> bool) (ps pre : list WorkItem) (k : nat)
    (p : WorkItem) :
  ps !! k = Some p -> f p = true -> In (length pre + k)%nat (select_from (length pre) f ps).
Proof.
  revert pre k. induction ps as [|q ps IH]; intros pre k Hk Hf; [discriminate|].
  assert (Hnext : forall k', ps !! k' = Some p ->
                    In (length pre + S k')%nat (select_from (S (length pre)) f ps)).
  { intros k' Hk'. specialize (IH (pre ++ [q])%list k' Hk' Hf).
    rewrite length_app, Nat.add_1_r in IH.
    replace (length pre + S k')%nat with (S (length pre) + k')%nat by lia. exact IH. }
  cbn [select_from]. destruct k as [|k].
  - cbn in Hk. injection Hk as ->. rewrite Hf, Nat.add_0_r. now left.
  - cbn in Hk. destruct (f q); [right|]; now apply Hnext.
Qed.

Lemma slice_to_all {A : Type} (n : Z) (l : list A) :
  Z.of_nat (length l) <= n -> slice_to n l = l.
Proof.
  intros Hn. unfold slice_to.
  replace (0 <=? n) with true by (symmetry; apply Z.leb_le; lia).
  apply take_ge. lia.
Qed.

(** X19.  A [--resume] run with a non-empty key, a ledger that loads and
    has pending items, a batch size that covers all of them, a [--delay]
    between 0 and 9 000 000 000 seconds, and a client that reports success
    on every call, completes the ledger: it ends normally, every item of
    the saved ledger has status success, and the client was called at most
    once per pending item. *)
Theorem resume_completes_ledger {G : Type}
    (generate_image : string -> string -> G * World -> GenOutcome * (G * World))
    (new_client : string -> G) (args : Args) (w : World)
    (cs : list Chunk) (data : Ledger) (key : string) :
  always_succeeds generate_image ->
  env_api_key w = Some key -> key <> "" ->
  ledger_file w = Some cs -> json_load cs = Some data ->
  arg_status args = false -> arg_resume args = true ->
  get_pending data <> [] ->
  Z.of_nat (length (get_pending data)) <= arg_batch args ->
  forall delay : Q,
  arg_delay args = Finite delay -> (0 <= delay <= 9000000000)%Q ->
  exists data' w' cs',
    main generate_image new_client args w = (Ok tt, w')
    /\ ledger_file w' = Some cs' /\ json_load cs' = Some data'
    /\ Forall (fun p => status_is "success" p = true) (prompts data')
    /\ map descriptor (prompts data') = map descriptor (prompts data)
    /\ (generation_calls w' <= generation_calls w + length (get_pending data))%nat.
Proof.
  intros Hok Hkey Hne Hf Hl Hst Hres Hpend Hbatch delay Hdelay Hrange.
  assert (Hsel : select_batch args data = get_pending data).
  { unfold select_batch. rewrite Hres. now apply slice_to_all. }
  assert (Hsel' : select_batch args data <> []) by now rewrite Hsel.
  rewrite (main_unfold generate_image new_client args w cs data key Hkey Hne Hf Hl Hst Hsel').
  rewrite Hsel.
  set (w0 := log (EvPrint (MsgBanner (length (get_pending data))))
               (log EvNewGenerator (log EvMkdir (log EvLoad w)))).
  destruct (process_items_inv generate_image args (length (get_pending data))
              delay Hdelay Hrange
              (get_pending data) 0%nat data (new_client key, w0))
    as (data' & s' & Hrun & Hd & _ & _ & _ & _ & _ & _ & Hfile).
  rewrite Hrun.
  destruct (process_items_success generate_image args (length (get_pending data)) Hok
              (get_pending data) 0%nat data (new_client key, w0) data' s' Hrun)
    as (Hitems & Hcalls).
  cbn [snd] in *.
  assert (Hlen : length (prompts data') = length (prompts data)).
  { apply (f_equal (@length _)) in Hd. now rewrite !length_map in Hd. }
  assert (Hall : Forall (fun p => status_is "success" p = true) (prompts data')).
  { apply Forall_lookup. intros k p' Hk'.
    destruct (prompts data !! k) as [p|] eqn:Hk.
    - destruct (Hitems k p Hk) as (p'' & Hp'' & Hkeep & Hin).
      rewrite Hk' in Hp''. injection Hp'' as <-.
      destruct (status_is "success" p) eqn:Hs; [now apply Hkeep|].
      apply Hin. unfold get_pending, select.
      change k with (length (@nil WorkItem) + k)%nat.
      apply (select_from_complete _ (prompts data) [] k p Hk). now rewrite Hs.
    - apply lookup_lt_Some in Hk'. apply lookup_ge_None in Hk. lia. }
  assert (Hnonempty : prompts data' <> []).
  { intros Hnil. rewrite Hnil in Hlen. cbn [length] in Hlen.
    destruct (get_pending data) as [|r rest] eqn:Hgp; [now apply Hpend|].
    destruct (select_lookup (fun p => negb (status_is "success" p)) (prompts data) r)
      as (p & Hp & _).
    { unfold get_pending in Hgp. rewrite Hgp. now left. }
    apply lookup_lt_Some in Hp. lia. }
  rewrite print_status_spec. rewrite bool_decide_eq_false_2 by exact Hnonempty.
  assert (Hfile' : exists cs', ledger_file (snd s') = Some cs' /\ json_load cs' = Some data').
  { destruct Hfile as [(-> & Hfl & _)|(Hfl & _)].
    - exists cs. split; [rewrite Hfl; exact Hf|exact Hl].
    - exists (json_dump data'). split; [exact Hfl|apply json_load_dump]. }
  destruct Hfile' as (cs' & Hcs' & Hload').
  eexists data', _, cs'. split; [reflexivity|].
  split; [exact Hcs'|]. split; [exact Hload'|]. split; [exact Hall|]. split; [exact Hd|].
  rewrite generation_calls_log. cbn [is_generate].
  assert (generation_calls w0 = generation_calls w) by (unfold w0; counters). lia.
Qed.

Lemma resume_completes_ledger_witness :
  always_succeeds Scenario.ok_with_file
  /\ json_load (json_dump Scenario.ledger) = Some Scenario.ledger
  /\ get_pending Scenario.ledger = [0; 1; 2]%nat
  /\ arg_delay Cases.resume_args = Finite 2
  /\ exists data' w' cs',
       main Scenario.ok_with_file Cases.no_state Cases.resume_args Scenario.world0 = (Ok tt, w')
       /\ ledger_file w' = Some cs' /\ json_load cs' = Some data'
       /\ Forall (fun p => status_is "success" p = true) (prompts data')
       /\ map descriptor (prompts data') = map descriptor (prompts Scenario.ledger)
       /\ (generation_calls w'
           <= generation_calls Scenario.world0 + length (get_pending Scenario.ledger))%nat.
Proof.
  assert (Hok : always_succeeds Scenario.ok_with_file).
  { intros prompt path s. eexists _, _. split; reflexivity. }
  split; [exact Hok|]. split; [reflexivity|]. split; [reflexivity|].
  split; [reflexivity|].
  apply (resume_completes_ledger Scenario.ok_with_file Cases.no_state Cases.resume_args
           Scenario.world0 (json_dump Scenario.ledger) Scenario.ledger "test-key" Hok
           eq_refl ltac:(discriminate) eq_refl eq_refl eq_refl eq_refl
           ltac:(discriminate) ltac:(vm_compute; discriminate) 2%Q eq_refl).
  split; discriminate.
Defined.

(** ** Creation of the ledger *)

Lemma digits_only_app (a b : string) :
  digits_only a = true -> digits_only b = true -> digits_only (a +:+ b) = true.
Proof.
  induction a as [|c a IH]; intros Ha Hb; [exact Hb|].
  cbn [digits_only] in Ha. apply andb_prop in Ha as [Hc Ha].
  change (String c a +:+ b) with (String c (a +:+ b)). cbn [digits_only].
  now rewrite Hc, IH.
Qed.

Lemma string_of_uint_digits (d : Decimal.uint) :
  digits_only (NilEmpty.string_of_uint d) = true.
Proof.
  induction d; cbn [NilEmpty.string_of_uint digits_only]; try reflexivity;
    rewrite IHd; reflexivity.
Qed.

Lemma decimal_digits (n : nat) : digits_only (decimal n) = true.
Proof.
  unfold decimal, NilZero.string_of_uint.
  destruct (Nat.to_uint n) eqn:Hd; [reflexivity|apply string_of_uint_digits ..].
Qed.

Lemma zeros_digits (k : nat) : digits_only (zeros k) = true.
Proof. induction k as [|k IH]; [reflexivity|]. cbn [zeros digits_only]. now rewrite IH. Qed.

Lemma pad3_digits (n : nat) : digits_only (pad3 n) = true.
Proof. apply digits_only_app; [apply zeros_digits|apply decimal_digits]. Qed.

Lemma decimal_value (n : nat) : digits_value (decimal n) = Some n.
Proof.
  unfold digits_value, decimal, NilZero.string_of_uint.
  pose proof (DecimalNat.Unsigned.of_to n) as Hn.
  destruct (Nat.to_uint n) eqn:Hd;
    [cbn in Hn |- *; now rewrite <- Hn
    |rewrite NilEmpty.usu; cbn [option_map]; now rewrite Hn ..].
Qed.

Lemma zeros_value (k : nat) (s : string) :
  digits_value (zeros k +:+ s) = digits_value s.
Proof.
  induction k as [|k IH]; [reflexivity|].
  change (zeros (S k) +:+ s) with (String "0" (zeros k +:+ s)).
  rewrite <- IH. unfold digits_value. cbn [NilEmpty.uint_of_string].
  destruct (NilEmpty.uint_of_string (zeros k +:+ s)); reflexivity.
Qed.

Lemma pad3_value (n : nat) : digits_value (pad3 n) = Some n.
Proof. unfold pad3. rewrite zeros_value. apply decimal_value. Qed.

Lemma pad3_inj (a b : nat) : pad3 a = pad3 b -> a = b.
Proof.
  intros Heq. pose proof (pad3_value a) as Ha. rewrite Heq, pad3_value in Ha. congruence.
Qed.

Lemma digits_before_underscore (a b r1 r2 : string) :
  digits_only a = true -> digits_only b = true ->
  a +:+ String "_" r1 = b +:+ String "_" r2 -> a = b.
Proof.
  revert b. induction a as [|c a IH]; intros [|c' b] Ha Hb Heq.
  - reflexivity.
  - cbn in Heq. injection Heq as <- _. discriminate Hb.
  - cbn in Heq. injection Heq as -> _. discriminate Ha.
  - change (String c (a +:+ String "_" r1) = String c' (b +:+ String "_" r2)) in Heq.
    injection Heq as -> Heq. f_equal.
    cbn [digits_only] in Ha, Hb.
    apply andb_prop in Ha as [_ Ha]. apply andb_prop in Hb as [_ Hb]. now apply IH.
Qed.

Lemma prompt_filename_id (a b : nat) (i1 p1 s1 i2 p2 s2 : string) :
  prompt_filename a i1 p1 s1 = prompt_filename b i2 p2 s2 -> a = b.
Proof.
  unfold prompt_filename. intros Heq. apply pad3_inj.
  eapply digits_before_underscore; [apply pad3_digits|apply pad3_digits|exact Heq].
Qed.

Lemma NoDup_map_through {A B C : Type} (f : A -> B) (h : A -> C) (l : list A) :
  (forall x y, In x l -> In y l -> f x = f y -> h x = h y) ->
  List.NoDup (map h l) -> List.NoDup (map f l).
Proof.
  induction l as [|a l IH]; intros Hfh Hnd; [constructor|].
  cbn [map] in *. apply List.NoDup_cons_iff in Hnd as [Hnotin Hnd].
  apply List.NoDup_cons_iff. split.
  - intros Hin. apply in_map_iff in Hin as (y & Hy & Hyl).
    apply Hnotin. apply in_map_iff. exists y. split; [|exact Hyl].
    apply Hfh; [now right|now left|exact Hy].
  - apply IH; [|exact Hnd]. intros x y Hx Hy. apply Hfh; now right.
Qed.

Lemma enumerates_nil (start : nat) : enumerates start (start, []).
Proof. repeat split; [cbn; lia|constructor]. Qed.

Lemma enumerates_app (start n n' : nat) (items items' : list GeneratedPrompt) :
  enumerates start (n, items) -> enumerates n (n', items') ->
  enumerates start (n', (items ++ items')%list).
Proof.
  intros (Hn & Hid & Hf) (Hn' & Hid' & Hf'). cbn [fst snd] in *.
  repeat split; cbn [fst snd].
  - rewrite length_app. lia.
  - rewrite map_app, length_app, seq_app, Hid, Hid'. do 2 f_equal. lia.
  - apply Forall_app. split; assumption.
Qed.

Section CreationFacts.
Variable build_prompt : Industry -> Pack -> string -> string.

Lemma styles_loop_spec (industry : Industry) (pack_id : string) (pack : Pack)
    (styles : list string) (prompt_id : nat) :
  enumerates prompt_id (styles_loop build_prompt industry pack_id pack prompt_id styles)
  /\ length (styles_loop build_prompt industry pack_id pack prompt_id styles).2
     = length styles.
Proof.
  revert prompt_id. induction styles as [|style_name rest IH]; intros prompt_id.
  - split; [apply enumerates_nil|reflexivity].
  - cbn [styles_loop]. specialize (IH (prompt_id + 1)%nat).
    destruct (styles_loop build_prompt industry pack_id pack (prompt_id + 1) rest)
      as [n items].
    destruct IH as ((Hn & Hid & Hf) & Hlen). cbn [fst snd] in *.
    split; [repeat split; cbn [fst snd length map seq]|cbn [length]; lia].
    + lia.
    + rewrite Hid, Nat.add_1_r. reflexivity.
    + constructor; [reflexivity|exact Hf].
Qed.

Lemma packs_loop_spec (packs : list Pack) (industry : Industry) (pack_ids : list string)
    (prompt_id : nat) :
  enumerates prompt_id (packs_loop build_prompt packs industry prompt_id pack_ids)
  /\ length (packs_loop build_prompt packs industry prompt_id pack_ids).2
     = (length (List.filter (fun pack_id => bool_decide (is_Some (find_pack packs pack_id)))
                  pack_ids)
        * length (in_primary_styles industry ++ in_secondary_styles industry))%nat.
Proof.
  revert prompt_id. induction pack_ids as [|pack_id rest IH]; intros prompt_id.
  - split; [apply enumerates_nil|reflexivity].
  - cbn [packs_loop List.filter]. destruct (find_pack packs pack_id) as [pack|] eqn:Hpack.
    + pose proof (styles_loop_spec industry pack_id pack
                    (in_primary_styles industry ++ in_secondary_styles industry) prompt_id)
        as [Hs Hslen].
      destruct (styles_loop build_prompt industry pack_id pack prompt_id
                  (in_primary_styles industry ++ in_secondary_styles industry))
        as [n items].
      specialize (IH n).
      destruct (packs_loop build_prompt packs industry n rest) as [n' items'].
      destruct IH as [Hp Hplen]. cbn [fst snd] in *.
      split; [eapply enumerates_app; eassumption|].
      rewrite bool_decide_eq_true_2 by (now eexists).
      cbn [length]. rewrite length_app, Hslen, Hplen. lia.
    + rewrite bool_decide_eq_false_2 by (intros [? ?]; discriminate). apply IH.
Qed.

Lemma industries_loop_spec (packs : list Pack) (industries : list Industry)
    (prompt_id : nat) :
  enumerates prompt_id (industries_loop build_prompt packs prompt_id industries)
  /\ length (industries_loop build_prompt packs prompt_id industries).2
     = sum_list_with (industry_count packs) industries.
Proof.
  revert prompt_id. induction industries as [|industry rest IH]; intros prompt_id.
  - split; [apply enumerates_nil|reflexivity].
  - cbn [industries_loop sum_list_with].
    pose proof (packs_loop_spec packs industry
                  (default [] (in_example_carousel_packs industry)) prompt_id)
      as [Hp Hplen].
    destruct (packs_loop build_prompt packs industry prompt_id
                (default [] (in_example_carousel_packs industry))) as [n items].
    specialize (IH n).
    destruct (industries_loop build_prompt packs n rest) as [n' items'].
    destruct IH as [Hi Hilen]. cbn [fst snd] in *.
    split; [eapply enumerates_app; eassumption|].
    rewrite length_app, Hplen, Hilen. reflexivity.
Qed.

Lemma generate_all_prompts_enumerates (industries : list Industry) (packs : list Pack) :
  map gp_id (generate_all_prompts build_prompt industries packs)
  = seq 1 (length (generate_all_prompts build_prompt industries packs))
  /\ Forall filename_from_keys (generate_all_prompts build_prompt industries packs).
Proof.
  destruct (industries_loop_spec packs industries 0) as ((_ & Hid & Hf) & _).
  split; assumption.
Qed.

End CreationFacts.

Lemma select_from_numbered (start : Z) (l : list WorkItem) (i a : nat) :
  map id l = map Z.of_nat (seq a (length l)) ->
  select_from i (fun p => start <=? id p) l
  = seq (i + Z.to_nat (start - Z.of_nat a)) (length l - Z.to_nat (start - Z.of_nat a)).
Proof.
  revert i a. induction l as [|p l IH]; intros i a Hid; [reflexivity|].
  cbn [length seq map] in Hid. injection Hid as Hp Hrest.
  cbn [select_from length]. specialize (IH (S i) (S a) Hrest). rewrite IH.
  destruct (start <=? id p) eqn:E.
  - apply Z.leb_le in E.
    replace (Z.to_nat (start - Z.of_nat a)) with 0%nat by lia.
    replace (Z.to_nat (start - Z.of_nat (S a))) with 0%nat by lia.
    rewrite !Nat.add_0_r, !Nat.sub_0_r. reflexivity.
  - apply Z.leb_gt in E.
    replace (Z.to_nat (start - Z.of_nat a))
      with (S (Z.to_nat (start - Z.of_nat (S a)))) by lia.
    f_equal; lia.
Qed.

Lemma select_from_every (f : WorkItem -> bool) (l : list WorkItem) (i : nat) :
  Forall (fun p => f p = true) l -> select_from i f l = seq i (length l).
Proof.
  revert i. induction l as [|p l IH]; intros i Hall; [reflexivity|].
  apply Forall_cons in Hall as [Hp Hall].
  cbn [select_from length seq]. now rewrite Hp, IH.
Qed.

Lemma select_from_none (f : WorkItem -> bool) (l : list WorkItem) (i : nat) :
  Forall (fun p => f p = false) l -> select_from i f l = [].
Proof.
  revert i. induction l as [|p l IH]; intros i Hall; [reflexivity|].
  apply Forall_cons in Hall as [Hp Hall].
  cbn [select_from]. now rewrite Hp, IH.
Qed.

(** X20.  The items [generate_all_prompts] returns carry the ids 1, 2, ...
    in the order of the list, whatever the industries, packs and styles of
    the input (repeated ones included), so no two items share an id; and
    there is one item for each industry, each of its recommended packs that
    [elements.json] knows, and each of its primary and secondary styles. *)
Theorem generate_all_prompts_numbering (build_prompt : Industry -> Pack -> string -> string)
    (industries : list Industry) (packs : list Pack) :
  map gp_id (generate_all_prompts build_prompt industries packs)
  = seq 1 (length (generate_all_prompts build_prompt industries packs))
  /\ List.NoDup (map gp_id (generate_all_prompts build_prompt industries packs))
  /\ length (generate_all_prompts build_prompt industries packs)
     = sum_list_with (industry_count packs) industries.
Proof.
  destruct (generate_all_prompts_enumerates build_prompt industries packs) as [Hid _].
  repeat split.
  - exact Hid.
  - rewrite Hid. apply List.seq_NoDup.
  - apply (industries_loop_spec build_prompt packs industries 0).
Qed.

(** X21.  No two items of [generate_all_prompts] have the same file name,
    even when the input repeats an industry, a pack or a style: the name
    starts with the zero-padded id of the item. *)
Theorem generate_all_prompts_filenames_distinct
    (build_prompt : Industry -> Pack -> string -> string)
    (industries : list Industry) (packs : list Pack) :
  List.NoDup (map gp_filename (generate_all_prompts build_prompt industries packs)).
Proof.
  destruct (generate_all_prompts_enumerates build_prompt industries packs) as [Hid Hf].
  apply (NoDup_map_through gp_filename gp_id).
  - intros x y Hx Hy Heq. rewrite List.Forall_forall in Hf.
    rewrite (Hf x Hx), (Hf y Hy) in Heq. exact (prompt_filename_id _ _ _ _ _ _ _ _ Heq).
  - rewrite Hid. apply List.seq_NoDup.
Qed.

(** X22.  What [main] of [generate_all.py] selects in a ledger as
    [generate_prompts.py] has just written it: with [--resume] the first
    [--batch] items, with [--retry-failed] nothing, and otherwise the first
    [--batch] items from the [--start]-th on. *)
Theorem created_ledger_selection (build_prompt : Industry -> Pack -> string -> string)
    (industries : list Industry) (packs : list Pack) (args : Args) :
  select_batch args (created_ledger (generate_all_prompts build_prompt industries packs))
  = slice_to (arg_batch args)
      (if arg_resume args
       then seq 0 (length (generate_all_prompts build_prompt industries packs))
       else if arg_retry_failed args then []
       else seq (Z.to_nat (arg_start args - 1))
              (length (generate_all_prompts build_prompt industries packs)
               - Z.to_nat (arg_start args - 1))).
Proof.
  destruct (generate_all_prompts_enumerates build_prompt industries packs) as [Hid _].
  set (all_prompts := generate_all_prompts build_prompt industries packs) in *.
  assert (Hnone : Forall (fun p => generation_status p = None)
                    (map as_work_item all_prompts)).
  { apply List.Forall_forall. intros p Hin.
    apply in_map_iff in Hin as (g & <- & _). reflexivity. }
  unfold select_batch, get_pending, get_failed, select. cbn [prompts created_ledger].
  destruct (arg_resume args); [|destruct (arg_retry_failed args)]; f_equal.
  - rewrite select_from_every, length_map; [reflexivity|].
    eapply List.Forall_impl; [|exact Hnone].
    intros p Hp. unfold status_is, item_status. now rewrite Hp.
  - apply select_from_none.
    eapply List.Forall_impl; [|exact Hnone].
    intros p Hp. unfold status_failed, status_is, item_status. now rewrite Hp.
  - rewrite (select_from_numbered _ _ 0 1), length_map; [reflexivity|].
    rewrite length_map, map_map, <- Hid, map_map. reflexivity.
Qed.
